(** * GDSII layer table: a shallow embedding of [GDSII_Reader.py] and of the
    layer loop of [model_main.py]

    The development follows the Python sources function by function.

    - Text is a [string] whose characters are code points below 256.
    - A Python [int] is a [Z]; a Python [float] is an IEEE binary64 value,
      modelled by [pyfloat] with its rounding written out.
    - A Python [dict] is an insertion-ordered association list ([pydict]):
      assigning to a key that is present replaces the value in place,
      assigning to a new key appends an item.
    - Printing, raising and [try]/[except] are threaded through a small
      state-and-exception monad [M]. *)

From Stdlib Require Import ZArith Ascii String List Lia Bool.
From Stdlib Require Import DecimalString DecimalZ DecimalPos.
From Stdlib Require Import Floats.SpecFloat.
From stdpp Require Import base option list strings gmap.

Local Open Scope Z_scope.

(* ===================================================================== *)
(** * Text: the [str] methods the loaders use                             *)
(* ===================================================================== *)

Module Str.

Definition code (c : ascii) : Z := Z.of_N (N_of_ascii c).

(** [str.isspace] for one character (code points below 256):
    TAB, LF, VT, FF, CR, FS, GS, RS, US, SPACE, NEL and NBSP. *)
Definition isspace (c : ascii) : bool :=
  let n := code c in
  ((9 <=? n) && (n <=? 13)) || ((28 <=? n) && (n <=? 32))
  || (n =? 133) || (n =? 160).

Definition isdigit (c : ascii) : bool :=
  let n := code c in (48 <=? n) && (n <=? 57).

Definition is_empty (s : string) : bool :=
  match s with EmptyString => true | String _ _ => false end.

(** Removing the leading, the trailing, and both runs of the characters
    that [sp] accepts. *)
Fixpoint lstrip_by (sp : ascii -> bool) (s : string) : string :=
  match s with
  | EmptyString => EmptyString
  | String c s' => if sp c then lstrip_by sp s' else s
  end.

Fixpoint rstrip_by (sp : ascii -> bool) (s : string) : string :=
  match s with
  | EmptyString => EmptyString
  | String c s' =>
      let r := rstrip_by sp s' in
      if sp c && is_empty r then EmptyString else String c r
  end.

Definition strip_by (sp : ascii -> bool) (s : string) : string :=
  rstrip_by sp (lstrip_by sp s).

(** [s.strip()] *)
Definition strip (s : string) : string := strip_by isspace s.

(** [s.startswith(c)] for a one-character prefix. *)
Definition startswith (c : ascii) (s : string) : bool :=
  match s with
  | String c' _ => Ascii.eqb c' c
  | EmptyString => false
  end.

(** [s.split()]: the maximal runs of non-space characters, in order. *)
Fixpoint split (s : string) : list string :=
  match s with
  | EmptyString => []
  | String c s' =>
      if isspace c then split s'
      else
        match s' with
        | EmptyString => [String c EmptyString]
        | String c' _ =>
            if isspace c' then String c EmptyString :: split s'
            else
              match split s' with
              | w :: ws => String c w :: ws
              | [] => [String c EmptyString]
              end
        end
  end.

Definition lower (c : ascii) : ascii :=
  let n := code c in
  if (65 <=? n) && (n <=? 90) then ascii_of_N (Z.to_N (n + 32)) else c.

Fixpoint lowercase (s : string) : string :=
  match s with
  | EmptyString => EmptyString
  | String c s' => String (lower c) (lowercase s')
  end.

Fixpoint all_digits (s : string) : bool :=
  match s with
  | EmptyString => true
  | String c s' => isdigit c && all_digits s'
  end.

End Str.

(* ===================================================================== *)
(** * Exceptions                                                          *)
(* ===================================================================== *)

(** The exception classes that the modelled code can meet.  All of them
    derive from [Exception]; [OSError], [UnicodeDecodeError] and [CsvError]
    are what opening or reading a source file may raise. *)
Inductive exn : Type :=
| ValueError | OverflowError | KeyError | TypeError
| OSError | UnicodeDecodeError | CsvError.

(** The outcome of evaluating an expression that may raise. *)
Inductive result (A : Type) : Type :=
| Ok (a : A)
| Raise (e : exn).
Arguments Ok {A} a.
Arguments Raise {A} e.

Definition result_bind {A B} (r : result A) (k : A -> result B) : result B :=
  match r with
  | Ok a => k a
  | Raise e => Raise e
  end.

#[global] Instance result_ret : MRet result := fun _ a => Ok a.
#[global] Instance result_mbind : MBind result :=
  fun _ _ k r => result_bind r k.

(* ===================================================================== *)
(** * Numbers: [int(str)], ["%d" % n]                                     *)
(* ===================================================================== *)

Module Num.

(** Digit separators of numeric literals given to [int] and [float]:
    an underscore is accepted only directly after a digit and directly
    before a digit.  [prev] is the previous character of the scan. *)
Fixpoint drop_underscores (prev : option ascii) (s : string) : option string :=
  match s with
  | EmptyString =>
      match prev with
      | Some c => if Ascii.eqb c "_" then None else Some EmptyString
      | None => Some EmptyString
      end
  | String c s' =>
      if Ascii.eqb c "_" then
        match prev with
        | Some p => if Str.isdigit p then drop_underscores (Some c) s' else None
        | None => None
        end
      else
        let bad :=
          match prev with
          | Some p => Ascii.eqb p "_" && negb (Str.isdigit c)
          | None => false
          end in
        if bad then None
        else String c <$> drop_underscores (Some c) s'
  end.

(** The white space that [int] and [float] skip around a numeral: TAB,
    LF, VT, FF, CR, SPACE, NEL and NBSP.  (The separators FS, GS, RS and
    US, which [str.strip] removes, are not skipped.) *)
Definition isspace_numeral (c : ascii) : bool :=
  let n := Str.code c in
  ((9 <=? n) && (n <=? 13)) || (n =? 32) || (n =? 133) || (n =? 160).

Definition strip_numeral (s : string) : string :=
  Str.strip_by isspace_numeral s.

(** The value of a non-empty run of decimal digits. *)
Definition digits_value (s : string) : option Z :=
  if Str.is_empty s then None
  else if Str.all_digits s then Z.of_uint <$> NilEmpty.uint_of_string s
  else None.

(** A leading sign: [(negative, rest)]. *)
Definition split_sign (s : string) : bool * string :=
  match s with
  | String c s' =>
      if Ascii.eqb c "-" then (true, s')
      else if Ascii.eqb c "+" then (false, s')
      else (false, s)
  | EmptyString => (false, s)
  end.

(** [int(s)] for a [str] argument, base 10: white space around the
    numeral, an optional sign, digits with single underscores between
    them.  Anything else raises [ValueError].  (The interpreter's limit
    on the number of digits is not modelled.) *)
Definition py_int (s : string) : result Z :=
  let '(neg, body) := split_sign (strip_numeral s) in
  match drop_underscores None body ≫= digits_value with
  | Some v => Ok (if neg then - v else v)
  | None => Raise ValueError
  end.

(** ["%d" % n] for a Python [int]: decimal digits, a minus sign for
    negative numbers, no padding. *)
Definition fmt_d (n : Z) : string := NilZero.string_of_int (Z.to_int n).

End Num.

(* ===================================================================== *)
(** * Floats: IEEE binary64 as Python uses it                             *)
(* ===================================================================== *)

Module Float.

(** A binary64 value.  [Finite neg m e] is [(-1)^neg * m * 2^e] with
    [0 < m < 2^53] and [-1074 <= e <= 971]; normal numbers have
    [2^52 <= m], subnormal ones have [e = -1074]. *)
Inductive pyfloat : Type :=
| Zero (neg : bool)
| Finite (neg : bool) (m e : Z)
| Inf (neg : bool)
| NaN.

Definition prec : Z := 53.
Definition emin : Z := -1074.
Definition emax : Z := 971.

(** Round half to even at [sh] low bits of [m]. *)
Definition round_shift (m sh : Z) : Z :=
  let q := m / 2 ^ sh in
  let r := m mod 2 ^ sh in
  let half := 2 ^ (sh - 1) in
  if r <? half then q
  else if half <? r then q + 1
  else if Z.even q then q else q + 1.

(** The binary64 value nearest to [(-1)^neg * m * 2^e] (ties to even),
    for [0 <= m]; overflow gives an infinity. *)
Definition round (neg : bool) (m e : Z) : pyfloat :=
  if m <=? 0 then Zero neg
  else
    let d := Z.log2 m + 1 in
    let e' := Z.max (d + e - prec) emin in
    if e' <=? e then
      if emax <? e' then Inf neg else Finite neg (m * 2 ^ (e - e')) e'
    else
      let q := round_shift m (e' - e) in
      if q =? 0 then Zero neg
      else if q =? 2 ^ prec then
        if emax <? e' + 1 then Inf neg else Finite neg (2 ^ (prec - 1)) (e' + 1)
      else if emax <? e' then Inf neg else Finite neg q e'.

(** [float(n)] for a Python [int]: [OverflowError] when [n] is too large. *)
Definition of_int (n : Z) : result pyfloat :=
  match round (n <? 0) (Z.abs n) 0 with
  | Inf _ => Raise OverflowError
  | f => Ok f
  end.

(** [int(x)] for a [float]: truncation toward zero. *)
Definition to_int (x : pyfloat) : result Z :=
  match x with
  | Zero _ => Ok 0
  | Finite neg m e =>
      let a := if 0 <=? e then m * 2 ^ e else m / 2 ^ (- e) in
      Ok (if neg then - a else a)
  | Inf _ => Raise OverflowError
  | NaN => Raise ValueError
  end.

(** [x * y] *)
Definition mul (x y : pyfloat) : pyfloat :=
  match x, y with
  | NaN, _ | _, NaN => NaN
  | Inf _, Zero _ | Zero _, Inf _ => NaN
  | Inf s, Inf s' | Inf s, Finite s' _ _ | Finite s _ _, Inf s' => Inf (xorb s s')
  | Zero s, Zero s' | Zero s, Finite s' _ _ | Finite s _ _, Zero s' => Zero (xorb s s')
  | Finite s m e, Finite s' m' e' => round (xorb s s') (m * m') (e + e')
  end.

(** [x == y] *)
Definition eqb (x y : pyfloat) : bool :=
  match x, y with
  | Zero _, Zero _ => true
  | Finite s m e, Finite s' m' e' => Bool.eqb s s' && (m =? m') && (e =? e')
  | Inf s, Inf s' => Bool.eqb s s'
  | _, _ => false
  end.

(** The leading run of digits of [s] and what follows it. *)
Fixpoint span_digits (s : string) : string * string :=
  match s with
  | String c s' =>
      if Str.isdigit c then
        let '(ds, rest) := span_digits s' in (String c ds, rest)
      else (EmptyString, s)
  | EmptyString => (EmptyString, EmptyString)
  end.

(** A decimal literal [digits [. digits] [(e|E) [sign] digits]] with at
    least one digit before the exponent: its value is [m * 10^x] for
    the returned [(m, x)]. *)
Definition parse_decimal (s : string) : option (Z * Z) :=
  let '(ip, r1) := span_digits s in
  let '(fp, r2) :=
    match r1 with
    | String c r => if Ascii.eqb c "." then span_digits r else (EmptyString, r1)
    | EmptyString => (EmptyString, r1)
    end in
  m ← Num.digits_value (ip +:+ fp);
  let scale := Z.of_nat (String.length fp) in
  match r2 with
  | EmptyString => Some (m, - scale)
  | String c r3 =>
      if Ascii.eqb (Str.lower c) "e" then
        let '(eneg, r4) := Num.split_sign r3 in
        x ← Num.digits_value r4;
        Some (m, (if eneg then - x else x) - scale)
      else None
  end.

(** The binary64 value nearest to [(-1)^neg * m * 10^x], for [0 <= m].
    For a negative [x] the quotient is computed with 64 extra bits and
    a sticky bit, which rounds the same way as the exact quotient. *)
Definition of_decimal (neg : bool) (m x : Z) : pyfloat :=
  if 0 <=? x then round neg (m * 10 ^ x) 0
  else
    let den := 10 ^ (- x) in
    let sh := Z.log2 den + 64 in
    let num := m * 2 ^ sh in
    let sticky := if num mod den =? 0 then 0 else 1 in
    round neg (2 * (num / den) + sticky) (- (sh + 1)).

(** [float(s)] for a [str] argument: white space around the numeral,
    digit separators, a sign, then [inf], [infinity], [nan] (any case) or
    a decimal literal.  Anything else raises [ValueError]; a literal too
    large for binary64 gives an infinity. *)
Definition py_float (s : string) : result pyfloat :=
  match Num.drop_underscores None (Num.strip_numeral s) with
  | None => Raise ValueError
  | Some t =>
      let '(neg, body) := Num.split_sign t in
      match parse_decimal body with
      | Some (m, x) => Ok (of_decimal neg m x)
      | None =>
          let w := Str.lowercase body in
          if String.eqb w "inf" || String.eqb w "infinity" then Ok (Inf neg)
          else if String.eqb w "nan" then Ok NaN
          else Raise ValueError
      end
  end.

End Float.

(* ===================================================================== *)
(** * Dictionaries                                                        *)
(* ===================================================================== *)

Module Dict.
Section dict.
Context {K V : Type} `{EqDecision K}.

(** [d.get(k)] *)
Fixpoint get (d : list (K * V)) (k : K) : option V :=
  match d with
  | [] => None
  | (k', v) :: d' => if decide (k' = k) then Some v else get d' k
  end.

(** [k in d] *)
Definition contains (d : list (K * V)) (k : K) : bool :=
  match get d k with Some _ => true | None => false end.

(** [d[k] = v] *)
Fixpoint set (k : K) (v : V) (d : list (K * V)) : list (K * V) :=
  match d with
  | [] => [(k, v)]
  | (k', v') :: d' =>
      if decide (k' = k) then (k', v) :: d' else (k', v') :: set k v d'
  end.

(** [d.keys()] *)
Definition keys (d : list (K * V)) : list K := map fst d.

End dict.
End Dict.

Abbreviation pydict K V := (list (K * V)).

(* ===================================================================== *)
(** * The reader's data                                                   *)
(* ===================================================================== *)

(** One value of [self.layers].  The first five keys are set when the
    record is created; ['color'], ['bottom'] and ['top'] exist only once a
    colour row was merged, so their outer [option] is the presence of the
    key, and the inner one of ['bottom'] and ['top'] is Python's [None]. *)
Record LayerInfo : Type := {
  name : string;
  purpose : string;
  name_gdsii_num : option Z;
  purpose_gdsii_num : option Z;
  description : string;
  color : option string;
  bottom : option (option Z);
  top : option (option Z);
}.

(** A row as [csv.DictReader] yields it: [row.get(col)] is [row !! col],
    which is [None] for a column the header lacks and for a row too short
    to have it. *)
Abbreviation row := (gmap string string).

(** What the loaders print. *)
Inductive message : Type :=
| Warning_not_found (file : string)
    (* Warning: {file} not found *)
| Warning_invalid_line (line_num : Z) (line : string)
    (* Warning: Invalid line format at line {line_num}: {line} *)
| Warning_no_mapping (name purpose : string)
    (* Warning: No mapping found for {name}.{purpose} *)
| Error_reading (file : string) (e : exn).
    (* Error reading {file}: {e} *)

(** A source file as the reader meets it: absent ([os.path.exists] is
    false), or a stream that yields [items] and then either ends or
    raises [fault] (which covers a file that cannot be opened at all). *)
Inductive source (A : Type) : Type :=
| NotFound
| File (items : list A) (fault : option exn).
Arguments NotFound {A}.
Arguments File {A} items fault.

(** The attributes of a [LayerReader] that change, and standard output. *)
Record state : Type := {
  layer_mapping : pydict (string * string) (Z * Z);
  layers : pydict string LayerInfo;
  stdout : list message;
}.

(* ===================================================================== *)
(** * Statements: state, exceptions, loops                                *)
(* ===================================================================== *)

(** A statement runs on a state and either completes or raises; the
    state changes made before a [raise] stay. *)
Definition M (A : Type) : Type := state -> result A * state.

Definition ret {A} (a : A) : M A := fun st => (Ok a, st).

Definition bind {A B} (m : M A) (k : A -> M B) : M B :=
  fun st =>
    match m st with
    | (Ok a, st') => k a st'
    | (Raise e, st') => (Raise e, st')
    end.

Definition raise {A} (e : exn) : M A := fun st => (Raise e, st).

(** Evaluate an expression that may raise. *)
Definition eval {A} (r : result A) : M A := fun st => (r, st).

(** [try: body / except Exception as e: handler e] *)
Definition try_except (body : M unit) (handler : exn -> M unit) : M unit :=
  fun st =>
    match body st with
    | (Ok a, st') => (Ok a, st')
    | (Raise e, st') => handler e st'
    end.

#[global] Instance M_ret : MRet M := @ret.
#[global] Instance M_bind : MBind M := fun _ _ k m => bind m k.

Definition print (msg : message) : M unit :=
  fun st => (Ok tt, {| layer_mapping := layer_mapping st;
                       layers := layers st;
                       stdout := stdout st ++ [msg] |}).

Definition get_layer_mapping : M (pydict (string * string) (Z * Z)) :=
  fun st => (Ok (layer_mapping st), st).

Definition get_layers : M (pydict string LayerInfo) :=
  fun st => (Ok (layers st), st).

Definition put_layer_mapping (m : pydict (string * string) (Z * Z)) : M unit :=
  fun st => (Ok tt, {| layer_mapping := m; layers := layers st;
                       stdout := stdout st |}).

Definition put_layers (l : pydict string LayerInfo) : M unit :=
  fun st => (Ok tt, {| layer_mapping := layer_mapping st; layers := l;
                       stdout := stdout st |}).

(** [for x in xs: body x]; a [continue] is a body that returns early. *)
Fixpoint for_each {A} (xs : list A) (body : A -> M unit) : M unit :=
  match xs with
  | [] => ret tt
  | x :: xs' => body x;; for_each xs' body
  end.

(** [for x in f: body x] over an opened source. *)
Definition for_each_in {A} (items : list A) (fault : option exn)
    (body : A -> M unit) : M unit :=
  for_each items body;;
  match fault with
  | Some e => raise e
  | None => ret tt
  end.

(** [enumerate(xs, start)] *)
Fixpoint enumerate {A} (start : Z) (xs : list A) : list (Z * A) :=
  match xs with
  | [] => []
  | x :: xs' => (start, x) :: enumerate (start + 1) xs'
  end.

(** [a or b] on values that are [None] or a [str]. *)
Definition truthy (a : option string) : bool :=
  match a with
  | Some s => negb (Str.is_empty s)
  | None => false
  end.

Definition or_ (a b : option string) : option string :=
  if truthy a then a else b.

(** [a or ''] *)
Definition or_empty (a : option string) : string :=
  match or_ a (Some EmptyString) with
  | Some s => s
  | None => EmptyString
  end.

(* ===================================================================== *)
(** * [class LayerReader]                                                 *)
(* ===================================================================== *)

(** [d[k]] *)
Definition getitem {V} (d : pydict string V) (k : string) : result V :=
  match Dict.get d k with
  | Some v => Ok v
  | None => Raise KeyError
  end.

(** The fields the loaders read from a row. *)

(** [(row.get('layer') or row.get('ascell') or '').strip()] *)
Definition def_key (r : row) : string :=
  Str.strip (or_empty (or_ (r !! "layer") (r !! "ascell"))).

(** [(row.get('name') or '').strip()] *)
Definition def_name (r : row) : string := Str.strip (or_empty (r !! "name")).

(** [(row.get('purpose') or '').strip()] *)
Definition def_purpose (r : row) : string :=
  Str.strip (or_empty (r !! "purpose")).

(** [(row.get('description') or '').strip()] *)
Definition def_description (r : row) : string :=
  Str.strip (or_empty (r !! "description")).

(** [(row.get('layer') or '').strip()] *)
Definition color_key (r : row) : string := Str.strip (or_empty (r !! "layer")).

(** [(row.get('color') or '').strip()] *)
Definition color_value (r : row) : string :=
  Str.strip (or_empty (r !! "color")).

(** Before [__init__] runs: no attribute is set, nothing is printed. *)
Definition empty_state : state :=
  {| layer_mapping := []; layers := []; stdout := [] |}.

(** The three files a reader is built from. *)
Record files : Type := {
  mapping_source : source string;
  def_source : source row;
  color_source : source row;
}.

Section LayerReader.

Variables layer_def_file layer_color_file layer_mapping_file : string.
Variable fs : files.

(** The body of the loop of [_load_layer_mapping]
    ([GDSII_Reader.py], lines 42-56). *)
Definition mapping_line (item : Z * string) : M unit :=
  let '(line_num, line) := item in
  let line := Str.strip line in
  if Str.is_empty line || Str.startswith "#" line then ret tt
  else
    match Str.split line with
    | name :: purpose :: p2 :: p3 :: _ =>
        layer_number ← eval (Num.py_int p2);
        datatype ← eval (Num.py_int p3);
        m ← get_layer_mapping;
        put_layer_mapping (Dict.set (name, purpose) (layer_number, datatype) m)
    | _ => print (Warning_invalid_line line_num line)
    end.

(** [GDSII_Reader.py], lines 33-59. *)
Definition _load_layer_mapping : M unit :=
  put_layer_mapping [];;
  match mapping_source fs with
  | NotFound => print (Warning_not_found layer_mapping_file)
  | File lines fault =>
      try_except
        (for_each_in (enumerate 1 lines) fault mapping_line)
        (fun e => print (Error_reading layer_mapping_file e))
  end.

(** The body of the loop of [_load_layer_def]
    ([GDSII_Reader.py], lines 78-101). *)
Definition def_row (r : row) : M unit :=
  let layer_key := def_key r in
  let name := def_name r in
  let purpose := def_purpose r in
  let description := def_description r in
  if Str.is_empty layer_key || Str.is_empty name || Str.is_empty purpose
  then ret tt
  else
    m ← get_layer_mapping;
    match Dict.get m (name, purpose) with
    | Some (layer_number, datatype) =>
        l ← get_layers;
        put_layers
          (Dict.set layer_key
             {| name := name;
                purpose := purpose;
                name_gdsii_num := Some layer_number;
                purpose_gdsii_num := Some datatype;
                description := description;
                color := None; bottom := None; top := None |} l)
    | None => print (Warning_no_mapping name purpose)
    end.

(** [GDSII_Reader.py], lines 61-103. *)
Definition _load_layer_def : M unit :=
  match def_source fs with
  | NotFound => print (Warning_not_found layer_def_file)
  | File rows fault =>
      try_except
        (for_each_in rows fault def_row)
        (fun e => print (Error_reading layer_def_file e))
  end.

(** [int(float(x)) if x not in (None, '') else None], with any
    exception turned into [None] ([GDSII_Reader.py], lines 121-128). *)
Definition coerce (x : option string) : option Z :=
  match x with
  | None => None
  | Some s =>
      if Str.is_empty s then None
      else
        match Float.py_float s ≫= Float.to_int with
        | Ok v => Some v
        | Raise _ => None
        end
  end.

(** The record a colour-only layer starts from. *)
Definition minimal_entry : LayerInfo :=
  {| name := EmptyString;
     purpose := EmptyString;
     name_gdsii_num := None;
     purpose_gdsii_num := None;
     description := EmptyString;
     color := None; bottom := None; top := None |}.

Definition with_color (c : string) (info : LayerInfo) : LayerInfo :=
  {| name := name info;
     purpose := purpose info;
     name_gdsii_num := name_gdsii_num info;
     purpose_gdsii_num := purpose_gdsii_num info;
     description := description info;
     color := Some c; bottom := bottom info; top := top info |}.

Definition with_bottom (b : option Z) (info : LayerInfo) : LayerInfo :=
  {| name := name info;
     purpose := purpose info;
     name_gdsii_num := name_gdsii_num info;
     purpose_gdsii_num := purpose_gdsii_num info;
     description := description info;
     color := color info; bottom := Some b; top := top info |}.

Definition with_top (t : option Z) (info : LayerInfo) : LayerInfo :=
  {| name := name info;
     purpose := purpose info;
     name_gdsii_num := name_gdsii_num info;
     purpose_gdsii_num := purpose_gdsii_num info;
     description := description info;
     color := color info; bottom := bottom info; top := Some t |}.

(** [self.layers[layer_key][field] = value]: the record is looked up
    ([KeyError] when absent) and changed in place. *)
Definition assign_field (layer_key : string)
    (upd : LayerInfo -> LayerInfo) : M unit :=
  l ← get_layers;
  info ← eval (getitem l layer_key);
  put_layers (Dict.set layer_key (upd info) l).

(** The body of the loop of [_load_layer_color]
    ([GDSII_Reader.py], lines 113-140). *)
Definition color_row (r : row) : M unit :=
  let layer_key := color_key r in
  let color := color_value r in
  let bottom := r !! "bottom" in
  let top := r !! "top" in
  if Str.is_empty layer_key then ret tt
  else
    let bottom_val := coerce bottom in
    let top_val := coerce top in
    l ← get_layers;
    (if negb (Dict.contains l layer_key)
     then put_layers (Dict.set layer_key minimal_entry l)
     else ret tt);;
    assign_field layer_key (with_color color);;
    assign_field layer_key (with_bottom bottom_val);;
    assign_field layer_key (with_top top_val).

(** [GDSII_Reader.py], lines 105-142. *)
Definition _load_layer_color : M unit :=
  match color_source fs with
  | NotFound => ret tt
  | File rows fault =>
      try_except
        (for_each_in rows fault color_row)
        (fun e => print (Error_reading layer_color_file e))
  end.

(** [LayerReader.__init__] ([GDSII_Reader.py], lines 18-30). *)
Definition __init__ : M unit :=
  put_layers [];;
  _load_layer_mapping;;
  _load_layer_def;;
  _load_layer_color.

(** Constructing a reader: the outcome of [__init__] and the object
    (with what was printed) it leaves. *)
Definition LayerReader : result unit * state := __init__ empty_state.

End LayerReader.

(** ['%d' % x] where [x] may be [None]. *)
Definition fmt_d_value (x : option Z) : result string :=
  match x with
  | Some n => Ok (Num.fmt_d n)
  | None => Raise TypeError
  end.

(** ['%d/%d' % (a, b)] *)
Definition fmt_address (a b : option Z) : result string :=
  sa ← fmt_d_value a;
  sb ← fmt_d_value b;
  Ok (sa +:+ "/" +:+ sb).

(** [GDSII_Reader.py], lines 144-147. *)
Definition get_klayoutlayer_index (self : state) (layer_key : string)
    : result string :=
  i1 ← getitem (layers self) layer_key;
  let name_gdsii_num := name_gdsii_num i1 in
  i2 ← getitem (layers self) layer_key;
  let purpose_gdsii_num := purpose_gdsii_num i2 in
  fmt_address name_gdsii_num purpose_gdsii_num.

(** The loop of [gen_layer2index] ([GDSII_Reader.py], lines 149-153). *)
Fixpoint gen_layer2index_loop (items : pydict string LayerInfo)
    (layer2index : pydict string string) : result (pydict string string) :=
  match items with
  | [] => Ok layer2index
  | (k, v) :: items' =>
      s ← fmt_address (name_gdsii_num v) (purpose_gdsii_num v);
      gen_layer2index_loop items' (Dict.set k s layer2index)
  end.

Definition gen_layer2index (self : state) : result (pydict string string) :=
  gen_layer2index_loop (layers self) [].

(* ===================================================================== *)
(** * [model_main.py]: the loop over [lr.layers]                          *)
(* ===================================================================== *)

(** [z_scale = 100.0] *)
Definition z_scale : Float.pyfloat := Float.Finite false 7036874417766400 (-46).

(** The literals [0.0] and [1.0]. *)
Definition f0 : Float.pyfloat := Float.Zero false.
Definition f1 : Float.pyfloat := Float.Finite false 4503599627370496 (-52).

(** [info.get('bottom')], [info.get('top')]: an absent key reads as [None]. *)
Definition get_bottom (info : LayerInfo) : option Z := mjoin (bottom info).
Definition get_top (info : LayerInfo) : option Z := mjoin (top info).

(** The [(z0, height)] pair computed for one record
    ([model_main.py], lines 50-59); [float] of a large [int] may raise. *)
Definition extent (info : LayerInfo) : result (Float.pyfloat * Float.pyfloat) :=
  match get_bottom info, get_top info with
  | Some b, Some t =>
      fb ← Float.of_int b;
      let z0 := Float.mul fb z_scale in
      fd ← Float.of_int (t - b);
      let height := Float.mul fd z_scale in
      let height := if Float.eqb height f0 then f1 else height in
      Ok (z0, height)
  | _, _ => Ok (f0, f1)
  end.

(** The three maps the script derives. *)
Record derived : Type := {
  ld_to_key : pydict (Z * Z) string;
  bottom_top : pydict string (Float.pyfloat * Float.pyfloat);
  layer_colors : pydict string (option string);
}.

(** The loop over [lr.layers.items()] ([model_main.py], lines 45-61). *)
Fixpoint derive_loop (items : pydict string LayerInfo) (acc : derived)
    : result derived :=
  match items with
  | [] => Ok acc
  | (key, info) :: items' =>
      let ld :=
        match name_gdsii_num info, purpose_gdsii_num info with
        | Some ln, Some dt => Dict.set (ln, dt) key (ld_to_key acc)
        | _, _ => ld_to_key acc
        end in
      zh ← extent info;
      derive_loop items'
        {| ld_to_key := ld;
           bottom_top := Dict.set key zh (bottom_top acc);
           layer_colors := Dict.set key (color info) (layer_colors acc) |}
  end.

Definition derive (lr : state) : result derived :=
  derive_loop (layers lr)
    {| ld_to_key := []; bottom_top := []; layer_colors := [] |}.

(* ===================================================================== *)
(** * The loops read as functions, and the vocabulary of the statements   *)
(* ===================================================================== *)

(** What one definition row does to [self.layers], given the mapping. *)
Definition def_step (m : pydict (string * string) (Z * Z))
    (l : pydict string LayerInfo) (r : row) : pydict string LayerInfo :=
  if Str.is_empty (def_key r) || Str.is_empty (def_name r)
     || Str.is_empty (def_purpose r)
  then l
  else
    match Dict.get m (def_name r, def_purpose r) with
    | Some (layer_number, datatype) =>
        Dict.set (def_key r)
          {| name := def_name r;
             purpose := def_purpose r;
             name_gdsii_num := Some layer_number;
             purpose_gdsii_num := Some datatype;
             description := def_description r;
             color := None; bottom := None; top := None |} l
    | None => l
    end.

(** What one definition row prints. *)
Definition def_messages (m : pydict (string * string) (Z * Z)) (r : row)
    : list message :=
  if Str.is_empty (def_key r) || Str.is_empty (def_name r)
     || Str.is_empty (def_purpose r)
  then []
  else
    match Dict.get m (def_name r, def_purpose r) with
    | Some _ => []
    | None => [Warning_no_mapping (def_name r) (def_purpose r)]
    end.

(** The state after one definition row. *)
Definition def_effect (st : state) (r : row) : state :=
  {| layer_mapping := layer_mapping st;
     layers := def_step (layer_mapping st) (layers st) r;
     stdout := stdout st ++ def_messages (layer_mapping st) r |}.

(** The three assignments of the colour loop on one record. *)
Definition set_color (c : string) (b t : option Z) (info : LayerInfo)
    : LayerInfo :=
  with_top t (with_bottom b (with_color c info)).

(** What one colour row does to [self.layers]. *)
Definition color_step (l : pydict string LayerInfo) (r : row)
    : pydict string LayerInfo :=
  if Str.is_empty (color_key r) then l
  else
    Dict.set (color_key r)
      (set_color (color_value r) (coerce (r !! "bottom")) (coerce (r !! "top"))
         (default minimal_entry (Dict.get l (color_key r)))) l.

(** The state after one colour row. *)
Definition color_effect (st : state) (r : row) : state :=
  {| layer_mapping := layer_mapping st;
     layers := color_step (layers st) r;
     stdout := stdout st |}.

(** What one line of the mapping file contributes: nothing, an entry,
    or the [ValueError] of [int]. *)
Definition mapping_entry (line : string)
    : result (option ((string * string) * (Z * Z))) :=
  let line := Str.strip line in
  if Str.is_empty line || Str.startswith "#" line then Ok None
  else
    match Str.split line with
    | name :: purpose :: p2 :: p3 :: _ =>
        layer_number ← Num.py_int p2;
        datatype ← Num.py_int p3;
        Ok (Some ((name, purpose), (layer_number, datatype)))
    | _ => Ok None
    end.

(** The mapping after the loop ran over [lines]: the loop ends at the
    first line that raises. *)
Fixpoint read_mapping (lines : list string)
    (m : pydict (string * string) (Z * Z)) : pydict (string * string) (Z * Z) :=
  match lines with
  | [] => m
  | line :: rest =>
      match mapping_entry line with
      | Ok None => read_mapping rest m
      | Ok (Some (k, v)) => read_mapping rest (Dict.set k v m)
      | Raise _ => m
      end
  end.

(** A line that is neither blank nor a comment and has fewer than four
    white-space separated fields. *)
Definition malformed (line : string) : bool :=
  let l := Str.strip line in
  negb (Str.is_empty l || Str.startswith "#" l)
  && (length (Str.split l) <? 4)%nat.

(** The mapping a source loads. *)
Definition loaded_mapping (src : source string)
    : pydict (string * string) (Z * Z) :=
  match src with
  | NotFound => []
  | File lines _ => read_mapping lines []
  end.

(** The items a source yields. *)
Definition source_items {A} (src : source A) : list A :=
  match src with
  | NotFound => []
  | File items _ => items
  end.

(** The two GDSII numbers of a record are set together. *)
Definition numbers_together (info : LayerInfo) : Prop :=
  name_gdsii_num info = None ↔ purpose_gdsii_num info = None.

(** Where a record of the table comes from.  Either it is resolved: a
    definition row made it, and its two GDSII numbers are what the mapping
    [m] holds for its (name, purpose) pair.  Or it is colour-only: a
    colour row of a key in [ckeys] made it, both numbers are absent and
    its name, purpose and description are empty. *)
Definition resolved (m : pydict (string * string) (Z * Z))
    (info : LayerInfo) : Prop :=
  ∃ ln dt,
    Dict.get m (name info, purpose info) = Some (ln, dt) ∧
    name_gdsii_num info = Some ln ∧ purpose_gdsii_num info = Some dt.

Definition color_only (info : LayerInfo) : Prop :=
  name_gdsii_num info = None ∧ purpose_gdsii_num info = None ∧
  name info = EmptyString ∧ purpose info = EmptyString ∧
  description info = EmptyString.

Definition resolved_or_color_only (m : pydict (string * string) (Z * Z))
    (ckeys : list string) (item : string * LayerInfo) : Prop :=
  resolved m item.2 ∨ (color_only item.2 ∧ item.1 ∈ ckeys).


(** [m] only appends to standard output. *)
Definition appends (m : M unit) (st : state) (msgs : list message) : Prop :=
  stdout (m st).2 = stdout st ++ msgs.

(** A decimal numeral without padding: digits only, no leading zero
    unless the numeral is ["0"], a minus sign only before a non-zero
    numeral. *)
Definition plain_digits (s : string) : bool :=
  match s with
  | String c s' => Str.all_digits s && (negb (Ascii.eqb c "0") || Str.is_empty s')
  | EmptyString => false
  end.

Definition plain_integer (s : string) : bool :=
  match s with
  | String c s' =>
      if Ascii.eqb c "-" then plain_digits s' && negb (String.eqb s' "0")
      else plain_digits s
  | EmptyString => false
  end.

(** [int(x)] of a finite float, as a magnitude. *)
Definition magnitude (m e : Z) : Z :=
  if 0 <=? e then m * 2 ^ e else m / 2 ^ (- e).

(** A valid table: unique keys and GDSII numbers set together. *)
Definition valid_table (l : pydict string LayerInfo) : Prop :=
  NoDup (Dict.keys l) ∧ Forall (λ item, numbers_together item.2) l.

(** A [pyfloat] as a value of the Standard Library's specification of
    IEEE floats, against which [Float.round] and [Float.mul] are tested. *)
Definition to_spec (x : Float.pyfloat) : spec_float :=
  match x with
  | Float.Zero neg => S754_zero neg
  | Float.Finite neg m e => S754_finite neg (Z.to_pos m) e
  | Float.Inf neg => S754_infinity neg
  | Float.NaN => S754_nan
  end.

(** The files used to exercise the theorems. *)
Module Sample.

Definition mapping_lines : list string :=
  ["# name purpose layer datatype"; "M1 drawing 10 0"; "foo bar";
   "M2 pin 11 5"].

Definition met1 : row :=
  list_to_map [("layer", "met1"); ("name", "M1"); ("purpose", "drawing")].

Definition poly : row :=
  list_to_map [("layer", "poly"); ("name", "PO"); ("purpose", "drawing")].

Definition met1_color : row :=
  list_to_map [("layer", "met1"); ("color", "red"); ("bottom", "1.5");
               ("top", "1.5")].

Definition via_color : row :=
  list_to_map [("layer", "via"); ("color", "blue"); ("bottom", "2");
               ("top", "x")].

Definition fs : files :=
  {| mapping_source := File mapping_lines None;
     def_source := File [met1; poly] None;
     color_source := File [met1_color; via_color] None |}.

Definition missing : files :=
  {| mapping_source := NotFound; def_source := NotFound;
     color_source := NotFound |}.

Definition reader : state := (LayerReader "defs.csv" "colors.csv" "map.txt" fs).2.

End Sample.

(* ===================================================================== *)
(** * Further vocabulary                                                  *)
(* ===================================================================== *)

(** Two records agree on what a definition row sets. *)
Definition same_definition (a b : LayerInfo) : Prop :=
  name a = name b ∧ purpose a = purpose b ∧
  name_gdsii_num a = name_gdsii_num b ∧
  purpose_gdsii_num a = purpose_gdsii_num b ∧
  description a = description b.

(** The keys a colour row sets are all present, or all absent. *)
Definition colored (info : LayerInfo) : Prop :=
  is_Some (color info) ∧ is_Some (bottom info) ∧ is_Some (top info).

Definition uncolored (info : LayerInfo) : Prop :=
  color info = None ∧ bottom info = None ∧ top info = None.

(** A line of the mapping file that is blank or a comment. *)
Definition ignorable (line : string) : bool :=
  Str.is_empty (Str.strip line) || Str.startswith "#" (Str.strip line).

(** A text that [str.strip] leaves as it is. *)
Definition stripped (s : string) : Prop := Str.strip s = s.

(** Every text an item of the table holds is stripped, and its key is
    not empty. *)
Definition stored_stripped (item : string * LayerInfo) : Prop :=
  item.1 ≠ EmptyString ∧ stripped item.1 ∧
  stripped (name item.2) ∧ stripped (purpose item.2) ∧
  stripped (description item.2) ∧
  (∀ c, color item.2 = Some c → stripped c).

(** A field as [str.split] yields it: not empty, no white space. *)
Fixpoint no_space (s : string) : bool :=
  match s with
  | EmptyString => true
  | String c s' => negb (Str.isspace c) && no_space s'
  end.

Definition is_word (s : string) : bool := negb (Str.is_empty s) && no_space s.

(** A line of the mapping file in the documented format:
    [name purpose layer datatype], separated by single spaces. *)
Definition mapping_text (name purpose : string) (L D : Z) : string :=
  name +:+ " " +:+ purpose +:+ " " +:+ Num.fmt_d L +:+ " " +:+ Num.fmt_d D.

(** A reader's sources without the colour file. *)
Definition without_colors (fs : files) : files :=
  {| mapping_source := mapping_source fs;
     def_source := def_source fs;
     color_source := NotFound |}.

(** Both GDSII numbers of a record are present. *)
Definition numbered (info : LayerInfo) : Prop :=
  is_Some (name_gdsii_num info) ∧ is_Some (purpose_gdsii_num info).

(** What the address loops read of an item: its key and its numbers. *)
Definition numbers_of (item : string * LayerInfo)
    : string * option Z * option Z :=
  (item.1, name_gdsii_num item.2, purpose_gdsii_num item.2).

(** The GDSII address of a record, when it has both numbers. *)
Definition address (info : LayerInfo) : option (Z * Z) :=
  match name_gdsii_num info, purpose_gdsii_num info with
  | Some ln, Some dt => Some (ln, dt)
  | _, _ => None
  end.

(** What one item of the table does to [ld_to_key]. *)
Definition ld_step (ld : pydict (Z * Z) string) (item : string * LayerInfo)
    : pydict (Z * Z) string :=
  match address item.2 with
  | Some a => Dict.set a item.1 ld
  | None => ld
  end.

(** The bottom and the top of a record, when both are set, are small
    enough for [float]: so is their difference. *)
Definition heights_in_range (info : LayerInfo) : Prop :=
  ∀ b t, get_bottom info = Some b → get_top info = Some t →
    Z.abs b < 2 ^ 1023 ∧ Z.abs (t - b) < 2 ^ 1023.

(* ===================================================================== *)
(** * numpy: float64 arithmetic as [np.allclose] uses it                  *)
(* ===================================================================== *)

Module Np.
Import Float.

(** [np.isfinite(x)] *)
Definition isfinite (x : pyfloat) : bool :=
  match x with
  | Zero _ | Finite _ _ _ => true
  | Inf _ | NaN => false
  end.

(** The exponent of a finite value, and the value as a multiple of
    [2^e0], for an [e0] that is not above the exponent. *)
Definition exponent (x : pyfloat) : Z :=
  match x with
  | Finite _ _ e => e
  | _ => 0
  end.

Definition scaled (e0 : Z) (x : pyfloat) : Z :=
  match x with
  | Finite s m e => (if s then - m else m) * 2 ^ (e - e0)
  | _ => 0
  end.

(** [-x] *)
Definition opp (x : pyfloat) : pyfloat :=
  match x with
  | Zero s => Zero (negb s)
  | Finite s m e => Finite (negb s) m e
  | Inf s => Inf (negb s)
  | NaN => NaN
  end.

(** [abs(x)] *)
Definition abs (x : pyfloat) : pyfloat :=
  match x with
  | Zero _ => Zero false
  | Finite _ m e => Finite false m e
  | Inf _ => Inf false
  | NaN => NaN
  end.

(** [x + y]: the exact sum, rounded to nearest. *)
Definition add (x y : pyfloat) : pyfloat :=
  match x, y with
  | NaN, _ | _, NaN => NaN
  | Inf s, Inf s' => if Bool.eqb s s' then Inf s else NaN
  | Inf s, _ | _, Inf s => Inf s
  | Zero s, Zero s' => Zero (s && s')
  | Zero _, _ => y
  | _, Zero _ => x
  | Finite _ _ e, Finite _ _ e' =>
      let e0 := Z.min e e' in
      let c := scaled e0 x + scaled e0 y in
      if c =? 0 then Zero false else round (c <? 0) (Z.abs c) e0
  end.

(** [x - y] *)
Definition sub (x y : pyfloat) : pyfloat := add x (opp y).

(** [x <= y] *)
Definition less_equal (x y : pyfloat) : bool :=
  match x, y with
  | NaN, _ | _, NaN => false
  | Inf true, _ | _, Inf false => true
  | Inf false, _ | _, Inf true => false
  | _, _ =>
      let e0 := Z.min (exponent x) (exponent y) in
      scaled e0 x <=? scaled e0 y
  end.

(** The default tolerances [rtol = 1e-05] and [atol = 1e-08]. *)
Definition rtol : pyfloat := Finite false 5902958103587057 (-69).
Definition atol : pyfloat := Finite false 6044629098073146 (-79).

(** [np.isclose(x, y)] on two numbers:
    [abs(x - y) <= atol + rtol * abs(y)] when both are finite, equality
    otherwise. *)
Definition isclose (x y : pyfloat) : bool :=
  if isfinite x && isfinite y
  then less_equal (abs (sub x y)) (add atol (mul rtol (abs y)))
  else Float.eqb x y.

(** [np.allclose(a, b)] on two rows of two numbers. *)
Definition allclose (a b : pyfloat * pyfloat) : bool :=
  isclose a.1 b.1 && isclose a.2 b.2.

End Np.

(* ===================================================================== *)
(** * [model_main.py]: polygons as arrays                                 *)
(* ===================================================================== *)

(** One row of [np.array(coords, dtype=float)]: the two integers of a
    point as floats. *)
Definition to_row (p : Z * Z) : result (Float.pyfloat * Float.pyfloat) :=
  x ← Float.of_int p.1;
  y ← Float.of_int p.2;
  Ok (x, y).

(** [np.array(coords, dtype=float)] *)
Fixpoint np_array (coords : list (Z * Z))
    : result (list (Float.pyfloat * Float.pyfloat)) :=
  match coords with
  | [] => Ok []
  | p :: rest =>
      r ← to_row p;
      rs ← np_array rest;
      Ok (r :: rs)
  end.

(** [model_main.py], lines 90-97.  [hull] is what
    [poly.each_point_hull()] yields: points with integer [x] and [y].
    (An array with three rows or more has a first row, so the last case
    below is never taken.) *)
Definition klayout_polygon_to_numpy (hull : list (Z * Z))
    : result (list (Float.pyfloat * Float.pyfloat)) :=
  let coords := hull in
  if (length coords <? 3)%nat then Ok []
  else
    arr ← np_array coords;
    match arr with
    | first :: _ =>
        if negb (Np.allclose first (default first (last arr)))
        then Ok (arr ++ [first])
        else Ok arr
    | [] => Ok arr
    end.

(** The coordinates of a hull are small enough for [float]. *)
Definition coords_in_range (hull : list (Z * Z)) : Prop :=
  Forall (λ p, Z.abs p.1 < 2 ^ 1023 ∧ Z.abs p.2 < 2 ^ 1023) hull.

(** An array is closed, as far as [np.allclose] can tell: its last row is
    close to its first. *)
Definition closed_ring (arr : list (Float.pyfloat * Float.pyfloat)) : Prop :=
  ∀ first, head arr = Some first →
    Np.allclose first (default first (last arr)) = true.

(** The coordinates of a hull are integers that binary64 holds exactly. *)
Definition coords_exact (hull : list (Z * Z)) : Prop :=
  Forall (λ p, Z.abs p.1 < 2 ^ 53 ∧ Z.abs p.2 < 2 ^ 53) hull.

(** A [pyfloat] that is zero, positive or plus infinity. *)
Definition nonneg (x : Float.pyfloat) : bool :=
  match x with
  | Float.Zero _ => true
  | Float.Finite s m _ => negb s && (0 <? m)
  | Float.Inf s => negb s
  | Float.NaN => false
  end.

(* ===================================================================== *)
(** * [model_main.py]: the figure                                         *)
(* ===================================================================== *)

(** [color_palette] *)
Definition color_palette : list string :=
  ["lightblue"; "orange"; "green"; "red"; "purple";
   "cyan"; "magenta"; "yellow"; "pink"; "lime"].

(** One layer index of the layout: the two numbers of
    [layout.get_info(li)] and what [cell.each_shape(li)] yields, a polygon
    as its hull and any other shape as [None]. *)
Record layout_layer : Type := {
  gds_layer : Z;
  gds_datatype : Z;
  shapes : list (option (list (Z * Z)));
}.

(** [f"{info.layer}/{info.datatype}"] *)
Definition layer_text (li : layout_layer) : string :=
  Num.fmt_d (gds_layer li) +:+ "/" +:+ Num.fmt_d (gds_datatype li).

(** [layer_colors.get(layer_key)
     or color_palette[trace_index % len(color_palette)]] *)
Definition picked_color (d : derived) (layer_key : string)
    (trace_index : nat) : string :=
  let from_palette :=
    nth (trace_index mod length color_palette) color_palette EmptyString in
  match Dict.get (layer_colors d) layer_key with
  | Some (Some c) => if Str.is_empty c then from_palette else c
  | _ => from_palette
  end.

Section figure.

(** The solids of trimesh, and what shapely and trimesh make of one
    array for a height and a [z0]: [None] when the polygon is not valid or
    has no area, or when the extrusion raises; otherwise the extruded
    solid, moved up by [z0]. *)
Variable solid : Type.
Variable extrude :
  list (Float.pyfloat * Float.pyfloat) → Float.pyfloat → Float.pyfloat →
  option solid.

(** What [fig.add_trace(go.Mesh3d(...))] is given, apart from constants:
    the colour, the name and the solids the mesh is made of. *)
Record mesh_trace : Type := {
  trace_color : string;
  trace_name : string;
  trace_solids : list solid;
}.

(** The loop over the shapes of one layer ([model_main.py], lines
    120-135). *)
Fixpoint layer_meshes (shapes : list (option (list (Z * Z))))
    (z0 height : Float.pyfloat) : result (list solid) :=
  match shapes with
  | [] => Ok []
  | None :: rest => layer_meshes rest z0 height
  | Some hull :: rest =>
      coords ← klayout_polygon_to_numpy hull;
      if (length coords <? 3)%nat then layer_meshes rest z0 height
      else
        match extrude coords height z0 with
        | None => layer_meshes rest z0 height
        | Some s =>
            meshes ← layer_meshes rest z0 height;
            Ok (s :: meshes)
        end
  end.

(** The body of the loop over the layer indexes ([model_main.py], lines
    107-152): the trace it adds, or [None] where it says [continue]. *)
Definition layer_trace (lr : state) (d : derived) (li : layout_layer)
    (trace_index : nat) : result (option mesh_trace) :=
  match Dict.get (ld_to_key d) (gds_layer li, gds_datatype li) with
  | None => Ok None
  | Some layer_key =>
      let '(z0, height) :=
        default (f0, f0) (Dict.get (bottom_top d) layer_key) in
      if Float.eqb height f0 then Ok None
      else
        let color := picked_color d layer_key trace_index in
        info ← getitem (layers lr) layer_key;
        let layer_name :=
          if Str.is_empty (name info) then layer_text li else name info in
        meshes ← layer_meshes (shapes li) z0 height;
        match meshes with
        | [] => Ok None
        | _ :: _ =>
            Ok (Some {| trace_color := color;
                        trace_name := layer_name +:+ " (" +:+ layer_text li
                                      +:+ ")";
                        trace_solids := meshes |})
        end
  end.

(** The loop of [build_figure]: [fig] holds the traces added so far. *)
Fixpoint build_figure_loop (lr : state) (d : derived)
    (layout : list layout_layer) (fig : list mesh_trace) (trace_index : nat)
    : result (list mesh_trace) :=
  match layout with
  | [] => Ok fig
  | li :: rest =>
      t ← layer_trace lr d li trace_index;
      match t with
      | None => build_figure_loop lr d rest fig trace_index
      | Some t => build_figure_loop lr d rest (fig ++ [t]) (S trace_index)
      end
  end.

(** [model_main.py], lines 102-168: the traces of the figure returned.
    (The layout of the scene, set at the end, is a constant.) *)
Definition build_figure (lr : state) (d : derived)
    (layout : list layout_layer) : result (list mesh_trace) :=
  build_figure_loop lr d layout [] 0.

(** A trace that shows the layer [li]: the address of [li] maps to a key
    whose record has that address and a name, the solids are what the
    shapes of [li] give at the [(z0, height)] of that key, and there is
    at least one; the name of the trace is the name of the record followed
    by the address in brackets. *)
Definition drawn (lr : state) (d : derived) (li : layout_layer)
    (t : mesh_trace) : Prop :=
  ∃ key info z0 height,
    Dict.get (ld_to_key d) (gds_layer li, gds_datatype li) = Some key ∧
    Dict.get (layers lr) key = Some info ∧
    address info = Some (gds_layer li, gds_datatype li) ∧
    name info ≠ EmptyString ∧
    Dict.get (bottom_top d) key = Some (z0, height) ∧
    Float.eqb height f0 = false ∧
    layer_meshes (shapes li) z0 height = Ok (trace_solids t) ∧
    trace_solids t ≠ [] ∧
    trace_name t = name info +:+ " (" +:+ layer_text li +:+ ")".

(** A layer with nothing to show: its address maps to no key, or none of
    its shapes gives a solid. *)
Definition not_drawable (d : derived) (li : layout_layer) : Prop :=
  Dict.get (ld_to_key d) (gds_layer li, gds_datatype li) = None ∨
  ∃ key z0 height,
    Dict.get (ld_to_key d) (gds_layer li, gds_datatype li) = Some key ∧
    Dict.get (bottom_top d) key = Some (z0, height) ∧
    layer_meshes (shapes li) z0 height = Ok [].

End figure.

Arguments trace_color {solid} _.
Arguments trace_name {solid} _.
Arguments trace_solids {solid} _.
Arguments layer_meshes {solid} extrude shapes z0 height.
Arguments layer_trace {solid} extrude lr d li trace_index.
Arguments build_figure_loop {solid} extrude lr d layout fig trace_index.
Arguments build_figure {solid} extrude lr d layout.
Arguments drawn {solid} extrude lr d li t.
Arguments not_drawable {solid} extrude d li.

(** The hulls of a layer have coordinates small enough for [float]. *)
Definition shapes_in_range (li : layout_layer) : Prop :=
  Forall (λ shape, ∀ hull, shape = Some hull → coords_in_range hull)
    (shapes li).

(** A record that has an address has a name. *)
Definition named_if_numbered (info : LayerInfo) : Prop :=
  is_Some (address info) → name info ≠ EmptyString.

(* ===================================================================== *)
(** * [model_main.py]: the measurement tool                               *)
(* ===================================================================== *)

Section measure.

(** The numbers plotly reports for a clicked point, the traces the
    figure holds before any measurement, and the text
    [f"{dist:.2f}"] for the distance [dist] of two points. *)
Variable coord : Type.
Variable mesh : Type.
Variable distance_text : coord * coord * coord → coord * coord * coord → string.

(** A trace of the figure: one of the meshes [build_figure] made, or a
    measurement line between two points with its label. *)
Inductive fig_trace : Type :=
| Mesh3d (m : mesh)
| Scatter3d (p1 p2 : coord * coord * coord) (text : string).

(** The globals [clicked_points] and [fig]. *)
Record app_state : Type := {
  clicked_points : list (coord * coord * coord);
  fig : list fig_trace;
}.

(** [model_main.py], lines 189-215.  [clickData] is [None] or holds the
    clicked points, of which the callback reads the first (Dash reports
    at least one).  The result is the pair the callback returns and the
    globals it leaves. *)
Definition measure
    (clickData : option ((coord * coord * coord) * list (coord * coord * coord)))
    (st : app_state) : (list fig_trace * string) * app_state :=
  match clickData with
  | None => ((fig st, EmptyString), st)
  | Some (pt, _) =>
      let clicked := clicked_points st ++ [pt] in
      match clicked with
      | [p1; p2] =>
          let text := distance_text p1 p2 in
          let fig' := fig st ++ [Scatter3d p1 p2 text] in
          ((fig', "Distance: " +:+ text +:+ " units"),
           {| clicked_points := []; fig := fig' |})
      | _ =>
          ((fig st, "First point selected..."),
           {| clicked_points := clicked; fig := fig st |})
      end
  end.

(** The globals after a sequence of calls. *)
Definition run_measure
    (events : list (option ((coord * coord * coord) * list (coord * coord * coord))))
    (st : app_state) : app_state :=
  fold_left (λ st e, (measure e st).2) events st.

(** The points of the clicks among the events. *)
Definition clicks
    (events : list (option ((coord * coord * coord) * list (coord * coord * coord))))
    : list (coord * coord * coord) :=
  omap (λ e, fst <$> e) events.

(** Points taken two by two, and the point left over. *)
Fixpoint pairs (ps : list (coord * coord * coord))
    : list ((coord * coord * coord) * (coord * coord * coord)) :=
  match ps with
  | p :: q :: rest => (p, q) :: pairs rest
  | _ => []
  end.

Fixpoint leftover (ps : list (coord * coord * coord))
    : list (coord * coord * coord) :=
  match ps with
  | p :: q :: rest => leftover rest
  | _ => ps
  end.

(** The measurement line of a pair of points. *)
Definition segment (pq : (coord * coord * coord) * (coord * coord * coord))
    : fig_trace :=
  Scatter3d pq.1 pq.2 (distance_text pq.1 pq.2).

End measure.

Arguments Mesh3d {coord mesh} m.
Arguments Scatter3d {coord mesh} p1 p2 text.
Arguments clicked_points {coord mesh} _.
Arguments fig {coord mesh} _.
Arguments measure {coord mesh} distance_text clickData st.
Arguments run_measure {coord mesh} distance_text events st.
Arguments clicks {coord} events.
Arguments pairs {coord} ps.
Arguments leftover {coord} ps.
Arguments segment {coord mesh} distance_text pq.

(** A layout to exercise the figure: a layer the table lacks, and a
    layer of the table with a triangle, a shape that is no polygon and a
    hull of two points.  A solid is stood for by the number of rows of its
    ring. *)
Module SampleLayout.

Definition triangle : list (Z * Z) := [(0, 0); (10, 0); (0, 10)].

Definition layout : list layout_layer :=
  [{| gds_layer := 7; gds_datatype := 7; shapes := [Some triangle] |};
   {| gds_layer := 10; gds_datatype := 0;
      shapes := [Some triangle; None; Some [(0, 0); (1, 1)]] |}].

Definition extrude (coords : list (Float.pyfloat * Float.pyfloat))
    (height z0 : Float.pyfloat) : option nat :=
  Some (length coords).

(** Two layers of the table, the first with a colour and the second
    without, and a layout that has a layer the table lacks between
    them. *)
Definition met2 : row :=
  list_to_map [("layer", "met2"); ("name", "M2"); ("purpose", "pin")].

Definition two_layers : files :=
  {| mapping_source := File Sample.mapping_lines None;
     def_source := File [Sample.met1; met2] None;
     color_source := File [Sample.met1_color] None |}.

Definition two_layers_maps : derived :=
  {| ld_to_key := [((10, 0), "met1"); ((11, 5), "met2")];
     bottom_top := [("met1", (z_scale, f1)); ("met2", (f0, f1))];
     layer_colors := [("met1", Some "red"); ("met2", None)] |}.

Definition two_layers_layout : list layout_layer :=
  [{| gds_layer := 10; gds_datatype := 0; shapes := [Some triangle] |};
   {| gds_layer := 7; gds_datatype := 7; shapes := [Some triangle] |};
   {| gds_layer := 11; gds_datatype := 5; shapes := [Some triangle] |}].

End SampleLayout.

(** The line a loader prints when reading its file fails. *)
Definition reported (file : string) (fault : option exn) : list message :=
  match fault with
  | Some e => [Error_reading file e]
  | None => []
  end.

(** The largest integer that [int] makes of a float: the largest
    binary64 value. *)
Definition max_int_of_float : Z := (2 ^ 53 - 1) * 2 ^ 971.

(** The bottom and the top of a record, when both are set, do not have
    opposite signs. *)
Definition same_sign_heights (info : LayerInfo) : Prop :=
  ∀ b t, get_bottom info = Some b → get_top info = Some t → 0 ≤ b * t.

(** The bottom and the top of a record are integers that [int] can make
    of a float. *)
Definition heights_bounded (info : LayerInfo) : Prop :=
  (∀ b, get_bottom info = Some b → Z.abs b ≤ max_int_of_float) ∧
  (∀ t, get_top info = Some t → Z.abs t ≤ max_int_of_float).

(* ===================================================================== *)
(** * Facts about dictionaries                                            *)
(* ===================================================================== *)

Section dict_facts.
Context {K V : Type} `{EqDecision K}.
Implicit Types (d : list (K * V)) (k : K) (v : V).

Lemma get_set_eq d k v : Dict.get (Dict.set k v d) k = Some v.
Proof.
  induction d as [|[k' v'] d IH]; simpl.
  - by rewrite decide_True.
  - destruct (decide (k' = k)) as [->|Hne]; simpl.
    + by rewrite decide_True.
    + by rewrite decide_False.
Qed.

Lemma get_set_ne d k k' v :
  k ≠ k' → Dict.get (Dict.set k v d) k' = Dict.get d k'.
Proof.
  intros Hne. induction d as [|[k0 v0] d IH]; simpl.
  - by rewrite decide_False.
  - destruct (decide (k0 = k)) as [->|Hk]; simpl.
    + by rewrite !decide_False.
    + by rewrite IH.
Qed.

Lemma set_set d k v v' : Dict.set k v' (Dict.set k v d) = Dict.set k v' d.
Proof.
  induction d as [|[k0 v0] d IH]; simpl.
  - by rewrite decide_True.
  - destruct (decide (k0 = k)) as [->|Hk]; simpl.
    + by rewrite decide_True.
    + by rewrite decide_False, IH.
Qed.

Lemma get_None_keys d k : Dict.get d k = None ↔ k ∉ Dict.keys d.
Proof.
  induction d as [|[k0 v0] d IH]; simpl.
  - split; [intros _; apply not_elem_of_nil | done].
  - rewrite not_elem_of_cons. destruct (decide (k0 = k)) as [->|Hk].
    + split; [done | intros [? _]; done].
    + rewrite IH. split; [intros ?; split; [congruence | done] | tauto].
Qed.

Lemma get_Some_keys d k v : Dict.get d k = Some v → k ∈ Dict.keys d.
Proof.
  intros Hg. destruct (decide (k ∈ Dict.keys d)) as [|Hn]; [done|].
  apply get_None_keys in Hn. congruence.
Qed.

Lemma get_Some_elem d k v : Dict.get d k = Some v → (k, v) ∈ d.
Proof.
  induction d as [|[k0 v0] d IH]; simpl; [done|].
  destruct (decide (k0 = k)) as [->|Hk].
  - intros [= ->]. apply list_elem_of_here.
  - intros Hg. apply list_elem_of_further. auto.
Qed.

Lemma set_absent d k v : Dict.get d k = None → Dict.set k v d = d ++ [(k, v)].
Proof.
  induction d as [|[k0 v0] d IH]; simpl; [done|].
  destruct (decide (k0 = k)); [done|]. intros Hg. by rewrite IH.
Qed.

Lemma keys_set_present d k v :
  k ∈ Dict.keys d → Dict.keys (Dict.set k v d) = Dict.keys d.
Proof.
  induction d as [|[k0 v0] d IH]; simpl.
  - intros Hin. by apply elem_of_nil in Hin.
  - destruct (decide (k0 = k)) as [->|Hk]; simpl; [done|].
    intros Hin. apply elem_of_cons in Hin as [->|Hin]; [done|].
    f_equal. by apply IH.
Qed.

Lemma keys_set d k v :
  Dict.keys (Dict.set k v d) =
    if decide (k ∈ Dict.keys d) then Dict.keys d else Dict.keys d ++ [k].
Proof.
  destruct (decide (k ∈ Dict.keys d)) as [Hin|Hn].
  - by apply keys_set_present.
  - apply get_None_keys in Hn. rewrite (set_absent _ _ _ Hn).
    unfold Dict.keys. by rewrite map_app.
Qed.

Lemma NoDup_keys_set d k v :
  NoDup (Dict.keys d) → NoDup (Dict.keys (Dict.set k v d)).
Proof.
  intros Hnd. rewrite keys_set. destruct (decide (k ∈ Dict.keys d)); [done|].
  apply NoDup_app. split; [done|]. split.
  - intros x Hx Hx'. apply list_elem_of_singleton in Hx'. by subst.
  - apply NoDup_singleton.
Qed.

Lemma elem_of_set d k v k' v' :
  (k', v') ∈ Dict.set k v d → (k' = k ∧ v' = v) ∨ (k', v') ∈ d.
Proof.
  induction d as [|[k0 v0] d IH]; simpl.
  - intros Hin. apply list_elem_of_singleton in Hin. left. by inversion Hin.
  - destruct (decide (k0 = k)) as [->|Hk]; intros Hin;
      apply elem_of_cons in Hin as [Heq|Hin].
    + left. by inversion Heq.
    + right. by apply list_elem_of_further.
    + right. rewrite Heq. apply list_elem_of_here.
    + destruct (IH Hin) as [?|?]; [by left|].
      right. by apply list_elem_of_further.
Qed.

End dict_facts.

(* ===================================================================== *)
(** * Loops as folds                                                      *)
(* ===================================================================== *)

Lemma for_each_app {A} (xs ys : list A) (body : A → M unit) (st : state) :
  for_each (xs ++ ys) body st =
    match for_each xs body st with
    | (Ok _, st') => for_each ys body st'
    | (Raise e, st') => (Raise e, st')
    end.
Proof.
  revert st. induction xs as [|x xs IH]; intros st; simpl; [done|].
  unfold mbind, M_bind, bind. destruct (body x st) as [[[]|e] st']; [|done].
  apply IH.
Qed.

Lemma for_each_cons {A} (x : A) xs (body : A → M unit) (st : state) :
  for_each (x :: xs) body st =
    match body x st with
    | (Ok _, st') => for_each xs body st'
    | (Raise e, st') => (Raise e, st')
    end.
Proof. reflexivity. Qed.

(** A loop whose body never raises is a fold of the body's effect. *)
Lemma for_each_fold {A} (body : A → M unit) (f : state → A → state) :
  (∀ x st, body x st = (Ok tt, f st x)) →
  ∀ xs st, for_each xs body st = (Ok tt, fold_left f xs st).
Proof.
  intros Hbody xs. induction xs as [|x xs IH]; intros st; simpl; [done|].
  unfold mbind, M_bind, bind. rewrite Hbody. apply IH.
Qed.

(** A [try] whose handler only prints never raises. *)
Lemma try_except_print body file st :
  (try_except body (λ e, print (Error_reading file e)) st).1 = Ok tt.
Proof.
  unfold try_except. destruct (body st) as [[[]|e] st']; done.
Qed.

(** ** The definition loop *)

Lemma def_row_effect r st : def_row r st = (Ok tt, def_effect st r).
Proof.
  destruct st as [m l out].
  unfold def_row, def_effect, def_step, def_messages; simpl.
  destruct (Str.is_empty (def_key r) || Str.is_empty (def_name r)
            || Str.is_empty (def_purpose r)).
  - by rewrite app_nil_r.
  - unfold mbind, M_bind, bind, get_layer_mapping, get_layers; simpl.
    destruct (Dict.get m (def_name r, def_purpose r)) as [[ln dt]|]; simpl.
    + unfold put_layers; simpl. by rewrite app_nil_r.
    + done.
Qed.

Lemma def_effect_mapping rows st :
  layer_mapping (fold_left def_effect rows st) = layer_mapping st.
Proof. revert st. induction rows as [|r rows IH]; intros st; simpl; [done|]. by rewrite IH. Qed.

Lemma def_effect_layers rows st :
  layers (fold_left def_effect rows st) =
    fold_left (def_step (layer_mapping st)) rows (layers st).
Proof.
  revert st. induction rows as [|r rows IH]; intros st; simpl; [done|].
  by rewrite IH.
Qed.

(** ** The colour loop *)

Lemma assign_field_present k upd info m l out :
  Dict.get l k = Some info →
  assign_field k upd {| layer_mapping := m; layers := l; stdout := out |} =
    (Ok tt, {| layer_mapping := m; layers := Dict.set k (upd info) l;
               stdout := out |}).
Proof.
  intros Hg. unfold assign_field, mbind, M_bind, bind, get_layers, eval, getitem.
  simpl. by rewrite Hg.
Qed.

Lemma color_row_effect r st : color_row r st = (Ok tt, color_effect st r).
Proof.
  destruct st as [m l out].
  unfold color_row, color_effect, color_step; simpl.
  destruct (Str.is_empty (color_key r)); [done|].
  unfold mbind at 1, M_bind at 1, bind at 1, get_layers at 1; simpl.
  unfold Dict.contains.
  destruct (Dict.get l (color_key r)) as [info|] eqn:Hg; simpl.
  - unfold mbind, M_bind, bind, ret; simpl.
    rewrite (assign_field_present _ _ info) by done.
    rewrite (assign_field_present _ _ (with_color (color_value r) info))
      by apply get_set_eq.
    rewrite (assign_field_present _ _
               (with_bottom (coerce (r !! "bottom"))
                  (with_color (color_value r) info))) by apply get_set_eq.
    by rewrite !set_set.
  - unfold mbind, M_bind, bind, put_layers; simpl.
    rewrite (assign_field_present _ _ minimal_entry) by apply get_set_eq.
    rewrite (assign_field_present _ _ (with_color (color_value r) minimal_entry))
      by apply get_set_eq.
    rewrite (assign_field_present _ _
               (with_bottom (coerce (r !! "bottom"))
                  (with_color (color_value r) minimal_entry)))
      by apply get_set_eq.
    by rewrite !set_set.
Qed.

Lemma color_effect_mapping rows st :
  layer_mapping (fold_left color_effect rows st) = layer_mapping st.
Proof. revert st. induction rows as [|r rows IH]; intros st; simpl; [done|]. by rewrite IH. Qed.

Lemma color_effect_layers rows st :
  layers (fold_left color_effect rows st) =
    fold_left color_step rows (layers st).
Proof.
  revert st. induction rows as [|r rows IH]; intros st; simpl; [done|].
  by rewrite IH.
Qed.

Lemma color_effect_stdout rows st :
  stdout (fold_left color_effect rows st) = stdout st.
Proof. revert st. induction rows as [|r rows IH]; intros st; simpl; [done|]. by rewrite IH. Qed.

Lemma try_for_each_in_fold {A} (body : A → M unit) (f : state → A → state)
    file items fault st :
  (∀ x st, body x st = (Ok tt, f st x)) →
  try_except (for_each_in items fault body)
    (λ e, print (Error_reading file e)) st =
    match fault with
    | None => (Ok tt, fold_left f items st)
    | Some e => print (Error_reading file e) (fold_left f items st)
    end.
Proof.
  intros Hbody. unfold try_except, for_each_in, mbind, M_bind, bind.
  rewrite (for_each_fold body f Hbody). by destruct fault.
Qed.

(** ** The mapping loop *)

Lemma mapping_line_mapping n line st :
  layers (mapping_line (n, line) st).2 = layers st ∧
  match mapping_entry line with
  | Ok None =>
      (mapping_line (n, line) st).1 = Ok tt ∧
      layer_mapping (mapping_line (n, line) st).2 = layer_mapping st
  | Ok (Some (k, v)) =>
      (mapping_line (n, line) st).1 = Ok tt ∧
      layer_mapping (mapping_line (n, line) st).2 =
        Dict.set k v (layer_mapping st)
  | Raise e =>
      (mapping_line (n, line) st).1 = Raise e ∧
      layer_mapping (mapping_line (n, line) st).2 = layer_mapping st
  end.
Proof.
  destruct st as [m l out]. unfold mapping_line, mapping_entry.
  destruct (Str.is_empty (Str.strip line)
            || Str.startswith "#" (Str.strip line)); [done|].
  destruct (Str.split (Str.strip line)) as [|a [|b [|c [|d ps]]]]; try done.
  unfold mbind at 1, M_bind, bind, eval, result_mbind, result_bind; simpl.
  destruct (Num.py_int c) as [x|e]; simpl; [|done].
  destruct (Num.py_int d) as [y|e]; simpl; done.
Qed.

Lemma mapping_loop_mapping lines n st :
  layers (for_each (enumerate n lines) mapping_line st).2 = layers st ∧
  layer_mapping (for_each (enumerate n lines) mapping_line st).2 =
    read_mapping lines (layer_mapping st).
Proof.
  revert n st. induction lines as [|line lines IH]; intros n st; [done|].
  change (enumerate n (line :: lines))
    with ((n, line) :: enumerate (n + 1) lines).
  rewrite for_each_cons. cbn [read_mapping].
  destruct (mapping_line_mapping n line st) as [Hl Hm].
  destruct (mapping_line (n, line) st) as [[[]|e] st']; cbn [fst snd] in *.
  - destruct (IH (n + 1) st') as [IHl IHm]. rewrite IHl, IHm, Hl.
    split; [done|].
    destruct (mapping_entry line) as [[[k v]|]|e]; destruct Hm as [? ->]; done.
  - split; [done|].
    destruct (mapping_entry line) as [[[k v]|]|e']; destruct Hm as [? ->]; done.
Qed.

Lemma mapping_line_malformed n line st :
  malformed line = true →
  mapping_line (n, line) st =
    (Ok tt, {| layer_mapping := layer_mapping st;
               layers := layers st;
               stdout := stdout st ++ [Warning_invalid_line n (Str.strip line)] |}).
Proof.
  unfold malformed, mapping_line. intros [Hc Hlen]%andb_true_iff.
  apply negb_true_iff in Hc. rewrite Hc.
  destruct (Str.split (Str.strip line)) as [|a [|b [|c [|d ps]]]]; done.
Qed.

Lemma mapping_entry_malformed line :
  malformed line = true → mapping_entry line = Ok None.
Proof.
  unfold malformed, mapping_entry. intros [Hc Hlen]%andb_true_iff.
  apply negb_true_iff in Hc. rewrite Hc.
  destruct (Str.split (Str.strip line)) as [|a [|b [|c [|d ps]]]]; done.
Qed.

Lemma read_mapping_skip pre line post m :
  mapping_entry line = Ok None →
  read_mapping (pre ++ line :: post) m = read_mapping (pre ++ post) m.
Proof.
  intros Hline. revert m. induction pre as [|p pre IH]; intros m; simpl.
  - by rewrite Hline.
  - destruct (mapping_entry p) as [[[k v]|]|e]; auto.
Qed.

(** ** The three loaders and the constructor *)

Section loaders.
Variables (dfile cfile mfile : string) (fs : files).

Lemma load_layer_mapping_spec st :
  (_load_layer_mapping mfile fs st).1 = Ok tt ∧
  layers (_load_layer_mapping mfile fs st).2 = layers st ∧
  layer_mapping (_load_layer_mapping mfile fs st).2 =
    loaded_mapping (mapping_source fs).
Proof.
  unfold _load_layer_mapping, loaded_mapping, mbind, M_bind, bind.
  simpl. destruct (mapping_source fs) as [|lines fault]; [done|].
  set (st0 := {| layer_mapping := []; layers := layers st;
                 stdout := stdout st |}).
  split; [apply try_except_print|].
  unfold try_except, for_each_in, mbind, M_bind, bind.
  destruct (mapping_loop_mapping lines 1 st0) as [Hl Hm].
  destruct (for_each (enumerate 1 lines) mapping_line st0) as [[[]|e] st'];
    simpl in *; [destruct fault|]; simpl; rewrite ?Hl, ?Hm; done.
Qed.

Lemma load_layer_def_spec st :
  (_load_layer_def dfile fs st).1 = Ok tt ∧
  layer_mapping (_load_layer_def dfile fs st).2 = layer_mapping st ∧
  layers (_load_layer_def dfile fs st).2 =
    fold_left (def_step (layer_mapping st)) (source_items (def_source fs))
      (layers st).
Proof.
  unfold _load_layer_def. destruct (def_source fs) as [|rows fault]; [done|].
  rewrite (try_for_each_in_fold _ _ _ _ _ _ def_row_effect).
  destruct fault; simpl; rewrite def_effect_mapping, def_effect_layers; done.
Qed.

Lemma load_layer_color_spec st :
  (_load_layer_color cfile fs st).1 = Ok tt ∧
  layer_mapping (_load_layer_color cfile fs st).2 = layer_mapping st ∧
  layers (_load_layer_color cfile fs st).2 =
    fold_left color_step (source_items (color_source fs)) (layers st).
Proof.
  unfold _load_layer_color. destruct (color_source fs) as [|rows fault]; [done|].
  rewrite (try_for_each_in_fold _ _ _ _ _ _ color_row_effect).
  destruct fault; simpl; rewrite color_effect_mapping, color_effect_layers; done.
Qed.

(** The table and the mapping of a constructed reader, and the fact
    that the constructor returns. *)
Lemma LayerReader_spec :
  (LayerReader dfile cfile mfile fs).1 = Ok tt ∧
  layer_mapping (LayerReader dfile cfile mfile fs).2 =
    loaded_mapping (mapping_source fs) ∧
  layers (LayerReader dfile cfile mfile fs).2 =
    fold_left color_step (source_items (color_source fs))
      (fold_left (def_step (loaded_mapping (mapping_source fs)))
         (source_items (def_source fs)) []).
Proof.
  unfold LayerReader, __init__, empty_state, mbind, M_bind, bind. simpl.
  set (st0 := {| layer_mapping := []; layers := []; stdout := [] |}).
  destruct (load_layer_mapping_spec st0) as (Hr1 & Hl1 & Hm1).
  destruct (_load_layer_mapping mfile fs st0) as [[[]|e1] st1]; [|done].
  simpl in *.
  destruct (load_layer_def_spec st1) as (Hr2 & Hm2 & Hl2).
  destruct (_load_layer_def dfile fs st1) as [[[]|e2] st2]; [|done].
  simpl in *.
  destruct (load_layer_color_spec st2) as (Hr3 & Hm3 & Hl3).
  rewrite Hr3, Hm3, Hl3, Hm2, Hl2, Hm1, Hl1. done.
Qed.

End loaders.

(* ===================================================================== *)
(** * Invariants of the table                                             *)
(* ===================================================================== *)

Lemma Forall_set {V} (P : string * V → Prop) (d : pydict string V) k v :
  Forall P d → P (k, v) → Forall P (Dict.set k v d).
Proof.
  rewrite !Forall_forall. intros Hd Hv [k' v'] Hin.
  apply elem_of_set in Hin as [[-> ->]|Hin]; auto.
Qed.

Lemma fold_left_invariant {A B} (f : A → B → A) (P : A → Prop) (Q : B → Prop) :
  (∀ a b, P a → Q b → P (f a b)) →
  ∀ bs a, Forall Q bs → P a → P (fold_left f bs a).
Proof.
  intros Hstep bs. induction bs as [|b bs IH]; intros a Hbs Ha; simpl; [done|].
  inversion Hbs; subst. apply IH; auto.
Qed.

Lemma def_step_cases m l r :
  def_step m l r = l ∨
  ∃ ln dt,
    Str.is_empty (def_key r) = false ∧ Str.is_empty (def_name r) = false ∧
    Dict.get m (def_name r, def_purpose r) = Some (ln, dt) ∧
    def_step m l r =
      Dict.set (def_key r)
        {| name := def_name r; purpose := def_purpose r;
           name_gdsii_num := Some ln; purpose_gdsii_num := Some dt;
           description := def_description r;
           color := None; bottom := None; top := None |} l.
Proof.
  unfold def_step.
  destruct (Str.is_empty (def_key r)) eqn:Hk; [by left|].
  destruct (Str.is_empty (def_name r)) eqn:Hn; [by left|].
  destruct (Str.is_empty (def_purpose r)) eqn:Hp; [by left|]. simpl.
  destruct (Dict.get m (def_name r, def_purpose r)) as [[ln dt]|]; [|by left].
  right. by exists ln, dt.
Qed.

Lemma def_step_unmapped m l r :
  Dict.get m (def_name r, def_purpose r) = None → def_step m l r = l.
Proof.
  intros Hg. unfold def_step. rewrite Hg.
  by destruct (Str.is_empty (def_key r) || Str.is_empty (def_name r)
               || Str.is_empty (def_purpose r)).
Qed.

Lemma def_fold_skip m pre r post l :
  Dict.get m (def_name r, def_purpose r) = None →
  fold_left (def_step m) (pre ++ r :: post) l =
    fold_left (def_step m) (pre ++ post) l.
Proof.
  intros Hg. rewrite !fold_left_app. simpl. by rewrite def_step_unmapped.
Qed.

Section table_invariants.
Variable m : pydict (string * string) (Z * Z).

Lemma def_fold_NoDup rows l :
  NoDup (Dict.keys l) → NoDup (Dict.keys (fold_left (def_step m) rows l)).
Proof.
  intros Hl.
  apply (fold_left_invariant (def_step m) (λ l, NoDup (Dict.keys l))
           (λ _, True)); [|by apply Forall_true|done].
  intros a r Ha _. destruct (def_step_cases m a r) as [->|(ln & dt & _ & _ & _ & ->)];
    [done|]. by apply NoDup_keys_set.
Qed.

Lemma color_fold_NoDup rows l :
  NoDup (Dict.keys l) → NoDup (Dict.keys (fold_left color_step rows l)).
Proof.
  intros Hl.
  apply (fold_left_invariant color_step (λ l, NoDup (Dict.keys l))
           (λ _, True)); [|by apply Forall_true|done].
  intros a r Ha _. unfold color_step.
  destruct (Str.is_empty (color_key r)); [done|]. by apply NoDup_keys_set.
Qed.

Lemma def_fold_numbered rows l :
  Forall (λ item, is_Some (name_gdsii_num item.2)
                  ∧ is_Some (purpose_gdsii_num item.2)) l →
  Forall (λ item, is_Some (name_gdsii_num item.2)
                  ∧ is_Some (purpose_gdsii_num item.2))
    (fold_left (def_step m) rows l).
Proof.
  intros Hl.
  apply (fold_left_invariant (def_step m) _ (λ _, True));
    [|by apply Forall_true|done].
  intros a r Ha _. destruct (def_step_cases m a r) as [->|(ln & dt & _ & _ & _ & ->)];
    [done|]. apply Forall_set; [done|]. simpl. eauto.
Qed.

Lemma color_fold_together rows l :
  Forall (λ item, numbers_together item.2) l →
  Forall (λ item, numbers_together item.2) (fold_left color_step rows l).
Proof.
  intros Hl.
  apply (fold_left_invariant color_step _ (λ _, True));
    [|by apply Forall_true|done].
  intros a r Ha _. unfold color_step.
  destruct (Str.is_empty (color_key r)); [done|].
  apply Forall_set; [done|]. simpl.
  destruct (Dict.get a (color_key r)) as [info|] eqn:Hg; simpl.
  - apply get_Some_elem in Hg. rewrite Forall_forall in Ha.
    apply (Ha _ Hg).
  - done.
Qed.

Lemma def_fold_resolved ckeys rows l :
  Forall (resolved_or_color_only m ckeys) l →
  Forall (resolved_or_color_only m ckeys) (fold_left (def_step m) rows l).
Proof.
  intros Hl.
  apply (fold_left_invariant (def_step m) _ (λ _, True));
    [|by apply Forall_true|done].
  intros a r Ha _.
  destruct (def_step_cases m a r) as [->|(ln & dt & _ & _ & Hg & ->)]; [done|].
  apply Forall_set; [done|]. left. exists ln, dt. done.
Qed.

Lemma color_fold_resolved ckeys rows l :
  Forall (λ r, color_key r ∈ ckeys) rows →
  Forall (resolved_or_color_only m ckeys) l →
  Forall (resolved_or_color_only m ckeys) (fold_left color_step rows l).
Proof.
  intros Hrows Hl.
  apply (fold_left_invariant color_step _ (λ r, color_key r ∈ ckeys));
    [|done|done].
  intros a r Ha Hr. unfold color_step.
  destruct (Str.is_empty (color_key r)); [done|].
  apply Forall_set; [done|]. unfold resolved_or_color_only. simpl.
  destruct (Dict.get a (color_key r)) as [info|] eqn:Hg; simpl.
  - apply get_Some_elem in Hg. rewrite Forall_forall in Ha.
    destruct (Ha _ Hg) as [Hres|[Hco _]]; [by left|]. right. done.
  - right. done.
Qed.

Lemma def_fold_keys rows l k :
  k ∈ Dict.keys (fold_left (def_step m) rows l) →
  k ∈ Dict.keys l ∨ k ∈ map def_key rows.
Proof.
  revert l. induction rows as [|r rows IH]; intros l; simpl; [by left|].
  intros Hk. apply IH in Hk as [Hk|Hk].
  - destruct (def_step_cases m l r) as [Heq|(ln & dt & _ & _ & _ & Heq)];
      rewrite Heq in Hk; [by left|].
    rewrite keys_set in Hk. destruct (decide (def_key r ∈ Dict.keys l));
      [by left|].
    apply elem_of_app in Hk as [Hk|Hk]; [by left|].
    apply list_elem_of_singleton in Hk. subst. right. apply list_elem_of_here.
  - right. by apply list_elem_of_further.
Qed.

Lemma color_fold_keys rows l k :
  k ∈ Dict.keys (fold_left color_step rows l) →
  k ∈ Dict.keys l ∨ k ∈ map color_key rows.
Proof.
  revert l. induction rows as [|r rows IH]; intros l; simpl; [by left|].
  intros Hk. apply IH in Hk as [Hk|Hk].
  - unfold color_step in Hk. destruct (Str.is_empty (color_key r)); [by left|].
    rewrite keys_set in Hk. destruct (decide (color_key r ∈ Dict.keys l));
      [by left|].
    apply elem_of_app in Hk as [Hk|Hk]; [by left|].
    apply list_elem_of_singleton in Hk. subst. right. apply list_elem_of_here.
  - right. by apply list_elem_of_further.
Qed.

End table_invariants.

(* ===================================================================== *)
(** * What the loaders print                                              *)
(* ===================================================================== *)

Lemma appends_for_each {A} (body : A → M unit) xs st :
  (∀ x st, ∃ msgs, appends (body x) st msgs) →
  ∃ msgs, appends (for_each xs body) st msgs.
Proof.
  intros Hbody. revert st. induction xs as [|x xs IH]; intros st.
  - exists []. unfold appends. simpl. by rewrite app_nil_r.
  - unfold appends. rewrite for_each_cons.
    destruct (Hbody x st) as [m1 H1]. unfold appends in H1.
    destruct (body x st) as [[[]|e] st']; simpl in *.
    + destruct (IH st') as [m2 H2]. unfold appends in H2.
      exists (m1 ++ m2). by rewrite H2, H1, app_assoc.
    + by exists m1.
Qed.

Lemma appends_try_for_each_in {A} (body : A → M unit) items fault file st :
  (∀ x st, ∃ msgs, appends (body x) st msgs) →
  ∃ msgs,
    appends (try_except (for_each_in items fault body)
               (λ e, print (Error_reading file e))) st msgs.
Proof.
  intros Hbody. destruct (appends_for_each body items st Hbody) as [m1 H1].
  unfold appends in *. unfold try_except, for_each_in, mbind, M_bind, bind.
  destruct (for_each items body st) as [[[]|e] st']; simpl in *.
  - destruct fault as [e|]; simpl.
    + exists (m1 ++ [Error_reading file e]). by rewrite H1, app_assoc.
    + by exists m1.
  - exists (m1 ++ [Error_reading file e]). by rewrite H1, app_assoc.
Qed.

Lemma appends_mapping_line item st : ∃ msgs, appends (mapping_line item) st msgs.
Proof.
  destruct item as [n line]. destruct st as [m l out].
  unfold appends, mapping_line.
  destruct (Str.is_empty (Str.strip line)
            || Str.startswith "#" (Str.strip line));
    [exists []; simpl; by rewrite app_nil_r|].
  destruct (Str.split (Str.strip line)) as [|a [|b [|c [|d ps]]]];
    try (by eexists [_]).
  unfold mbind at 1, M_bind, bind, eval; simpl.
  destruct (Num.py_int c) as [x|e]; simpl;
    [|exists []; by rewrite app_nil_r].
  destruct (Num.py_int d) as [y|e]; simpl; exists []; by rewrite app_nil_r.
Qed.

Lemma appends_def_row r st : ∃ msgs, appends (def_row r) st msgs.
Proof. unfold appends. rewrite def_row_effect. simpl. eauto. Qed.

Lemma appends_color_row r st : ∃ msgs, appends (color_row r) st msgs.
Proof.
  unfold appends. rewrite color_row_effect. simpl. exists [].
  by rewrite app_nil_r.
Qed.

Section printed.
Variables (dfile cfile mfile : string) (fs : files).

Lemma load_layer_mapping_stdout st :
  ∃ msgs,
    appends (_load_layer_mapping mfile fs) st msgs ∧
    (mapping_source fs = NotFound → msgs = [Warning_not_found mfile]).
Proof.
  unfold appends, _load_layer_mapping, mbind, M_bind, bind. simpl.
  destruct (mapping_source fs) as [|lines fault].
  - by exists [Warning_not_found mfile].
  - set (st0 := {| layer_mapping := []; layers := layers st;
                   stdout := stdout st |}).
    destruct (appends_try_for_each_in mapping_line (enumerate 1 lines) fault
                mfile st0 appends_mapping_line) as [msgs H].
    exists msgs. split; [exact H | done].
Qed.

Lemma load_layer_def_stdout st :
  ∃ msgs,
    appends (_load_layer_def dfile fs) st msgs ∧
    (def_source fs = NotFound → msgs = [Warning_not_found dfile]).
Proof.
  unfold _load_layer_def. destruct (def_source fs) as [|rows fault].
  - by exists [Warning_not_found dfile].
  - destruct (appends_try_for_each_in def_row rows fault dfile st
                appends_def_row) as [msgs H].
    exists msgs. split; [exact H | done].
Qed.

Lemma load_layer_color_stdout st :
  ∃ msgs, appends (_load_layer_color cfile fs) st msgs.
Proof.
  unfold _load_layer_color. destruct (color_source fs) as [|rows fault].
  - exists []. unfold appends. simpl. by rewrite app_nil_r.
  - apply appends_try_for_each_in, appends_color_row.
Qed.

(** A missing colour file: the loader returns at once. *)
Lemma load_layer_color_missing st :
  color_source fs = NotFound → _load_layer_color cfile fs st = (Ok tt, st).
Proof. unfold _load_layer_color. by intros ->. Qed.

(** Standard output of the constructor: the three loaders' messages,
    in order. *)
Lemma LayerReader_stdout :
  ∃ out_m out_d out_c,
    stdout (LayerReader dfile cfile mfile fs).2 = out_m ++ out_d ++ out_c ∧
    (mapping_source fs = NotFound → out_m = [Warning_not_found mfile]) ∧
    (def_source fs = NotFound → out_d = [Warning_not_found dfile]) ∧
    (color_source fs = NotFound → out_c = []).
Proof.
  unfold LayerReader, __init__, empty_state, mbind, M_bind, bind. simpl.
  set (st0 := {| layer_mapping := []; layers := []; stdout := [] |}).
  destruct (load_layer_mapping_stdout st0) as (om & Hom & Hm).
  destruct (load_layer_mapping_spec mfile fs st0) as (Hr1 & _).
  unfold appends in Hom.
  destruct (_load_layer_mapping mfile fs st0) as [[[]|e1] st1]; [|done].
  destruct (load_layer_def_stdout st1) as (od & Hod & Hd).
  destruct (load_layer_def_spec dfile fs st1) as (Hr2 & _).
  unfold appends in Hod.
  destruct (_load_layer_def dfile fs st1) as [[[]|e2] st2]; [|done].
  simpl in *.
  destruct (color_source fs) as [|rows fault] eqn:Hc.
  - exists om, od, []. rewrite load_layer_color_missing by done. simpl.
    rewrite Hod, Hom, app_nil_r. done.
  - destruct (load_layer_color_stdout st2) as (oc & Hoc).
    unfold appends in Hoc. exists om, od, oc.
    rewrite Hoc, Hod, Hom. simpl. rewrite app_assoc. done.
Qed.

End printed.

(* ===================================================================== *)
(** * Facts about ["%d"] and [int]                                        *)
(* ===================================================================== *)

Section number_facts.
Import Decimal.

Lemma isdigit_facts c :
  Str.isdigit c = true →
  Num.isspace_numeral c = false ∧ Ascii.eqb c "_" = false ∧
  Ascii.eqb c "-" = false ∧ Ascii.eqb c "+" = false.
Proof. destruct c as [[] [] [] [] [] [] [] []]; done. Qed.

Lemma string_of_uint_digits d :
  Str.all_digits (NilEmpty.string_of_uint d) = true.
Proof. induction d; simpl; done. Qed.

Lemma string_of_uint_nonempty d :
  d ≠ Nil → Str.is_empty (NilEmpty.string_of_uint d) = false.
Proof. destruct d; done. Qed.

Lemma rstrip_digits s :
  Str.all_digits s = true → Str.rstrip_by Num.isspace_numeral s = s.
Proof.
  induction s as [|c s IH]; simpl; [done|].
  intros [Hc Hs]%andb_true_iff. rewrite (IH Hs).
  destruct (isdigit_facts c Hc) as (-> & _). done.
Qed.

Lemma strip_digits s : Str.all_digits s = true → Num.strip_numeral s = s.
Proof.
  intros Hs. unfold Num.strip_numeral, Str.strip_by.
  destruct s as [|c s]; [done|]. simpl in *.
  apply andb_true_iff in Hs as [Hc Hs].
  destruct (isdigit_facts c Hc) as (Hsp & _). rewrite Hsp. simpl.
  rewrite Hsp. simpl. by rewrite rstrip_digits.
Qed.

Lemma drop_underscores_digits s prev :
  Str.all_digits s = true →
  match prev with Some p => Ascii.eqb p "_" = false | None => True end →
  Num.drop_underscores prev s = Some s.
Proof.
  revert prev. induction s as [|c s IH]; intros prev; simpl.
  - intros _. destruct prev as [p|]; [intros ->|]; done.
  - intros [Hc Hs]%andb_true_iff Hprev.
    destruct (isdigit_facts c Hc) as (_ & Hu & _). rewrite Hu.
    assert (match prev with
            | Some p => Ascii.eqb p "_" && negb (Str.isdigit c)
            | None => false
            end = false) as ->.
    { destruct prev as [p|]; [by rewrite Hprev | done]. }
    by rewrite (IH (Some c) Hs Hu).
Qed.

Lemma digits_value_uint d :
  d ≠ Nil → Num.digits_value (NilEmpty.string_of_uint d) = Some (Z.of_uint d).
Proof.
  intros Hd. unfold Num.digits_value.
  rewrite (string_of_uint_nonempty d Hd), string_of_uint_digits.
  by rewrite NilEmpty.usu.
Qed.

Lemma py_int_digits d :
  d ≠ Nil → Num.py_int (NilEmpty.string_of_uint d) = Ok (Z.of_uint d).
Proof.
  intros Hd. unfold Num.py_int.
  rewrite (strip_digits _ (string_of_uint_digits d)).
  pose proof (string_of_uint_digits d) as Hall.
  pose proof (digits_value_uint d Hd) as Hval.
  destruct (NilEmpty.string_of_uint d) as [|c s] eqn:Hs.
  { by destruct d. }
  simpl in Hall. apply andb_true_iff in Hall as [Hc Hs'].
  destruct (isdigit_facts c Hc) as (_ & _ & Hm & Hp).
  unfold Num.split_sign. rewrite Hm, Hp.
  rewrite drop_underscores_digits; [|by simpl; rewrite Hc, Hs'|done].
  simpl. by rewrite Hval.
Qed.

Lemma py_int_neg_digits d :
  d ≠ Nil →
  Num.py_int (String "-" (NilEmpty.string_of_uint d)) = Ok (- Z.of_uint d).
Proof.
  intros Hd. unfold Num.py_int, Num.strip_numeral, Str.strip_by.
  cbn [Str.lstrip_by]. change (Num.isspace_numeral "-") with false. cbn iota.
  cbn [Str.rstrip_by]. change (Num.isspace_numeral "-") with false.
  rewrite (rstrip_digits _ (string_of_uint_digits d)). simpl.
  rewrite drop_underscores_digits;
    [|apply string_of_uint_digits|done].
  simpl. by rewrite (digits_value_uint d Hd).
Qed.

Lemma of_uint_to_uint p : Z.of_uint (Pos.to_uint p) = Z.pos p.
Proof. unfold Z.of_uint. by rewrite DecimalPos.Unsigned.of_to. Qed.

(** [int] reads back what ["%d"] writes. *)
Lemma py_int_fmt_d n : Num.py_int (Num.fmt_d n) = Ok n.
Proof.
  unfold Num.fmt_d. destruct n as [|p|p]; [done| |]; simpl.
  - pose proof (DecimalPos.Unsigned.to_uint_nonnil p) as Hn.
    replace (NilZero.string_of_uint (Pos.to_uint p))
      with (NilEmpty.string_of_uint (Pos.to_uint p))
      by (by destruct (Pos.to_uint p)).
    by rewrite py_int_digits, of_uint_to_uint.
  - pose proof (DecimalPos.Unsigned.to_uint_nonnil p) as Hn.
    replace (NilZero.string_of_uint (Pos.to_uint p))
      with (NilEmpty.string_of_uint (Pos.to_uint p))
      by (by destruct (Pos.to_uint p)).
    by rewrite py_int_neg_digits, of_uint_to_uint.
Qed.

Lemma nzhead_not_D0 u v : nzhead u ≠ D0 v.
Proof. induction u; simpl; done. Qed.

Lemma to_uint_not_D0 p u : Pos.to_uint p ≠ D0 u.
Proof.
  intros Hp. pose proof (DecimalPos.Unsigned.to_of (Pos.to_uint p)) as H.
  rewrite DecimalPos.Unsigned.of_to in H. simpl in H.
  rewrite Hp in H. rewrite DecimalFacts.unorm_D0 in H.
  unfold unorm in H. destruct (nzhead u) eqn:Hu;
    try (symmetry in H; by apply nzhead_not_D0 in H);
    try (rewrite <- Hu in H; symmetry in H; by apply nzhead_not_D0 in H).
  inversion H; subst.
  by apply (DecimalPos.Unsigned.to_uint_nonzero p).
Qed.

Lemma plain_digits_to_uint p :
  plain_digits (NilEmpty.string_of_uint (Pos.to_uint p)) = true.
Proof.
  pose proof (to_uint_not_D0 p) as H0.
  pose proof (DecimalPos.Unsigned.to_uint_nonnil p) as Hn.
  pose proof (string_of_uint_digits (Pos.to_uint p)) as Hall.
  unfold plain_digits.
  destruct (Pos.to_uint p) as [|u|u|u|u|u|u|u|u|u|u]; try done;
    try (cbn [NilEmpty.string_of_uint] in *; rewrite Hall; done).
  by destruct (H0 u).
Qed.

(** ["%d"] writes a numeral without padding. *)
Lemma plain_integer_fmt_d n : plain_integer (Num.fmt_d n) = true.
Proof.
  unfold Num.fmt_d. destruct n as [|p|p]; [done| |]; simpl.
  - pose proof (DecimalPos.Unsigned.to_uint_nonnil p) as Hn.
    pose proof (plain_digits_to_uint p) as Hp.
    pose proof (string_of_uint_digits (Pos.to_uint p)) as Hall.
    replace (NilZero.string_of_uint (Pos.to_uint p))
      with (NilEmpty.string_of_uint (Pos.to_uint p))
      by (by destruct (Pos.to_uint p)).
    unfold plain_integer.
    destruct (NilEmpty.string_of_uint (Pos.to_uint p)) as [|c s]; [done|].
    simpl in Hall. apply andb_true_iff in Hall as [Hc _].
    destruct (isdigit_facts c Hc) as (_ & _ & -> & _). done.
  - pose proof (DecimalPos.Unsigned.to_uint_nonnil p) as Hn.
    pose proof (plain_digits_to_uint p) as Hp.
    pose proof (to_uint_not_D0 p) as H0.
    replace (NilZero.string_of_uint (Pos.to_uint p))
      with (NilEmpty.string_of_uint (Pos.to_uint p))
      by (by destruct (Pos.to_uint p)).
    rewrite Hp. simpl.
    destruct (Pos.to_uint p) as [|u|u|u|u|u|u|u|u|u|u]; try done.
    by destruct (H0 u).
Qed.

End number_facts.

(* ===================================================================== *)
(** * Facts about floats                                                  *)
(* ===================================================================== *)

Section float_facts.
Import Float.

Lemma lt_pow2_digits m : 0 < m → m < 2 ^ (Z.log2 m + 1).
Proof. intros Hm. apply (Z.log2_spec m Hm). Qed.

Lemma round_shift_bound m sh :
  0 < m → 0 < sh → m < 2 ^ (sh + prec) → 0 ≤ round_shift m sh ≤ 2 ^ prec.
Proof.
  intros Hm Hsh Hlt. unfold round_shift.
  assert (0 < 2 ^ sh) as Hp by (apply Z.pow_pos_nonneg; lia).
  assert (0 ≤ m / 2 ^ sh) as Hq0 by (apply Z.div_pos; lia).
  assert (m / 2 ^ sh < 2 ^ prec) as Hq1.
  { apply Z.div_lt_upper_bound; [done|].
    rewrite <- Z.pow_add_r by (unfold prec; lia). done. }
  repeat case_match; lia.
Qed.

(** A finite result of [round] is within the binary64 format. *)
Lemma round_bounds neg m e s m' e' :
  round neg m e = Finite s m' e' → 0 < m' < 2 ^ prec ∧ e' ≤ emax.
Proof.
  unfold round. destruct (m <=? 0) eqn:Hm0; [done|].
  apply Z.leb_gt in Hm0.
  set (d := Z.log2 m + 1). set (E := Z.max (d + e - prec) emin).
  pose proof (Z.log2_nonneg m) as Hlog.
  pose proof (lt_pow2_digits m Hm0) as Hmd. fold d in Hmd.
  destruct (E <=? e) eqn:HE.
  - apply Z.leb_le in HE.
    destruct (emax <? E) eqn:Hmax; [done|]. apply Z.ltb_ge in Hmax.
    intros [= <- <- <-]. split; [|done].
    assert (0 < 2 ^ (e - E)) by (apply Z.pow_pos_nonneg; lia).
    split; [lia|].
    apply Z.lt_le_trans with (2 ^ d * 2 ^ (e - E)).
    + apply Z.mul_lt_mono_pos_r; lia.
    + rewrite <- Z.pow_add_r by lia.
      apply Z.pow_le_mono_r; unfold prec in *; lia.
  - apply Z.leb_gt in HE.
    assert (m < 2 ^ (E - e + prec)) as Hlt.
    { eapply Z.lt_le_trans; [exact Hmd|].
      apply Z.pow_le_mono_r; unfold prec in *; lia. }
    pose proof (round_shift_bound m (E - e) Hm0 ltac:(lia) Hlt) as Hq.
    destruct (round_shift m (E - e) =? 0) eqn:Hq0; [done|].
    apply Z.eqb_neq in Hq0.
    destruct (round_shift m (E - e) =? 2 ^ prec) eqn:Hq1.
    + destruct (emax <? E + 1) eqn:Hmax; [done|]. apply Z.ltb_ge in Hmax.
      intros [= <- <- <-]. split; [|done]. unfold prec. lia.
    + apply Z.eqb_neq in Hq1.
      destruct (emax <? E) eqn:Hmax; [done|]. apply Z.ltb_ge in Hmax.
      intros [= <- <- <-]. split; [lia|done].
Qed.

Lemma magnitude_nonneg m e : 0 < m → 0 ≤ magnitude m e.
Proof.
  intros Hm. unfold magnitude. destruct (0 <=? e) eqn:He.
  - apply Z.leb_le in He. apply Z.mul_nonneg_nonneg; [lia|].
    apply Z.pow_nonneg. lia.
  - apply Z.leb_gt in He. apply Z.div_pos; [lia|].
    apply Z.pow_pos_nonneg; lia.
Qed.

(** Rounding the integer part of a binary64 value never overflows. *)
Lemma round_magnitude_finite neg m e s :
  0 < m < 2 ^ prec → e ≤ emax → round neg (magnitude m e) 0 ≠ Inf s.
Proof.
  intros [Hm0 Hm1] He. unfold round.
  destruct (magnitude m e <=? 0) eqn:Ha0; [done|]. apply Z.leb_gt in Ha0.
  set (a := magnitude m e) in *.
  set (E := Z.max (Z.log2 a + 1 + 0 - prec) emin).
  pose proof (Z.log2_nonneg a) as Hloga.
  destruct (E <=? 0) eqn:HE.
  - apply Z.leb_le in HE.
    assert ((emax <? E) = false) as -> by (apply Z.ltb_ge; unfold emax; lia).
    done.
  - apply Z.leb_gt in HE.
    assert (E = Z.log2 a + 1 - prec) as HEq by (unfold E, prec, emin in *; lia).
    (* [a] has more than 53 bits, so the exponent is positive *)
    assert (0 < e) as He0.
    { destruct (decide (0 < e)) as [|Hn]; [done|]. exfalso.
      assert (a ≤ m) as Ham.
      { unfold a, magnitude. destruct (0 <=? e) eqn:He'.
        - apply Z.leb_le in He'. assert (e = 0) as -> by lia.
          rewrite Z.pow_0_r. lia.
        - apply Z.leb_gt in He'.
          assert (0 < 2 ^ (- e)) by (apply Z.pow_pos_nonneg; lia).
          apply Z.div_le_upper_bound; [done|]. nia. }
      assert (Z.log2 a < prec) as Hl.
      { apply Z.log2_lt_pow2; [done|]. lia. }
      lia. }
    assert (a = m * 2 ^ e) as Ha.
    { unfold a, magnitude. destruct (0 <=? e) eqn:He'; [done|].
      apply Z.leb_gt in He'. lia. }
    assert (Z.log2 a = e + Z.log2 m) as Hla.
    { rewrite Ha. apply Z.log2_mul_pow2; lia. }
    assert (Z.log2 m < prec) as Hlm by (apply Z.log2_lt_pow2; [done|lia]).
    pose proof (Z.log2_nonneg m) as Hlm0.
    set (sh := E - 0).
    assert (0 < sh ≤ e) as Hsh by (unfold sh, prec in *; lia).
    assert (a = m * 2 ^ (e - sh) * 2 ^ sh) as Hsplit.
    { rewrite Ha, <- Z.mul_assoc, <- Z.pow_add_r by lia. do 2 f_equal. lia. }
    assert (0 < 2 ^ sh) as Hpsh by (apply Z.pow_pos_nonneg; lia).
    assert (round_shift a sh = m * 2 ^ (e - sh)) as Hrs.
    { unfold round_shift.
      assert (a mod 2 ^ sh = 0) as ->
        by (rewrite Hsplit; apply Z.mod_mul; lia).
      assert (a / 2 ^ sh = m * 2 ^ (e - sh)) as ->
        by (rewrite Hsplit; apply Z.div_mul; lia).
      assert (0 < 2 ^ (sh - 1)) by (apply Z.pow_pos_nonneg; lia).
      assert ((0 <? 2 ^ (sh - 1)) = true) as -> by (apply Z.ltb_lt; lia).
      done. }
    rewrite Hrs.
    assert (m * 2 ^ (e - sh) < 2 ^ prec) as Hq.
    { assert (0 < 2 ^ (e - sh)) by (apply Z.pow_pos_nonneg; lia).
      apply Z.lt_le_trans with (2 ^ (Z.log2 m + 1) * 2 ^ (e - sh)).
      - apply Z.mul_lt_mono_pos_r; [done|]. by apply lt_pow2_digits.
      - rewrite <- Z.pow_add_r by lia.
        apply Z.pow_le_mono_r; unfold sh, prec in *; lia. }
    destruct (m * 2 ^ (e - sh) =? 0); [done|].
    assert ((m * 2 ^ (e - sh) =? 2 ^ prec) = false) as ->
      by (apply Z.eqb_neq; lia).
    assert ((emax <? E) = false) as ->
      by (apply Z.ltb_ge; unfold sh in *; lia).
    done.
Qed.

(** [float(int(x))] never raises for a float [x] that [float(s)] made. *)
Lemma of_int_to_int s x v :
  py_float s = Ok x → to_int x = Ok v → ∃ y, of_int v = Ok y.
Proof.
  intros Hs Hv.
  assert (∀ neg m e, x = Finite neg m e → 0 < m < 2 ^ prec ∧ e ≤ emax)
    as Hb.
  { intros neg m e ->. unfold py_float in Hs.
    destruct (Num.drop_underscores None (Num.strip_numeral s)) as [t|];
      [|done].
    destruct (Num.split_sign t) as [sg body].
    destruct (parse_decimal body) as [[m0 x0]|].
    - injection Hs as Hs. unfold of_decimal in Hs.
      destruct (0 <=? x0); eapply round_bounds; exact Hs.
    - repeat case_match; done. }
  destruct x as [neg|neg m e|neg|]; simpl in Hv; try done.
  - injection Hv as <-. by exists (Zero false).
  - destruct (Hb neg m e eq_refl) as [Hm He].
    injection Hv as <-. fold (magnitude m e).
    pose proof (magnitude_nonneg m e ltac:(lia)) as Ha.
    unfold of_int.
    set (n := if neg then - magnitude m e else magnitude m e).
    assert (Z.abs n = magnitude m e) as -> by (unfold n; destruct neg; lia).
    pose proof (round_magnitude_finite (n <? 0) m e) as Hfin.
    destruct (round (n <? 0) (magnitude m e) 0) as [| | sg |] eqn:Hr;
      eauto.
    by destruct (Hfin sg Hm He).
Qed.

End float_facts.

(* ===================================================================== *)
(** * The model on concrete inputs                                        *)
(* ===================================================================== *)

Example strip_example : Str.strip "  M1 drawing 10 0  " = "M1 drawing 10 0".
Proof. reflexivity. Qed.

Example split_example :
  Str.split "  M2   pin 11 5 extra " = ["M2"; "pin"; "11"; "5"; "extra"].
Proof. reflexivity. Qed.

Example py_int_examples :
  Num.py_int "10" = Ok 10 ∧ Num.py_int "-5" = Ok (-5) ∧
  Num.py_int "+007" = Ok 7 ∧ Num.py_int "1_000" = Ok 1000 ∧
  Num.py_int "1__0" = Raise ValueError ∧ Num.py_int "1.5" = Raise ValueError ∧
  Num.py_int "x" = Raise ValueError ∧ Num.py_int "-" = Raise ValueError.
Proof. repeat split; reflexivity. Qed.

(** The separator FS (code 28) is white space for [str.strip] and
    [str.split] but not for [int] and [float]; NBSP (code 160) is white
    space for all of them. *)
Example white_space_examples :
  let fs := ascii_of_nat 28 in
  let nbsp := ascii_of_nat 160 in
  Str.strip (String fs "M1") = "M1" ∧
  Str.split (String "a" (String fs "b")) = ["a"; "b"] ∧
  Num.py_int (String fs "5") = Raise ValueError ∧
  Float.py_float (String fs "1.5") = Raise ValueError ∧
  Num.py_int (String nbsp "5") = Ok 5 ∧
  coerce (Some (String nbsp "1.5")) = Some 1.
Proof. repeat split; vm_compute; reflexivity. Qed.

Example fmt_d_examples :
  Num.fmt_d 0 = "0" ∧ Num.fmt_d 10 = "10" ∧ Num.fmt_d (-42) = "-42".
Proof. repeat split; reflexivity. Qed.

Example coerce_examples :
  coerce (Some "1.5") = Some 1 ∧ coerce (Some "-1.999") = Some (-1) ∧
  coerce (Some " 3.7e2 ") = Some 370 ∧
  coerce (Some "1e23") = Some 99999999999999991611392 ∧
  coerce (Some "9007199254740993") = Some 9007199254740992 ∧
  coerce (Some "0.99999999999999999999") = Some 1 ∧
  coerce (Some "inf") = None ∧ coerce (Some "nan") = None ∧
  coerce (Some "1e400") = None ∧ coerce (Some "x") = None ∧
  coerce (Some EmptyString) = None ∧ coerce None = None.
Proof. repeat split; vm_compute; reflexivity. Qed.

Example py_float_examples :
  Float.py_float "0.1" = Ok (Float.Finite false 7205759403792794 (-56)) ∧
  Float.py_float "5e-324" = Ok (Float.Finite false 1 (-1074)) ∧
  Float.py_float "2.4e-324" = Ok (Float.Zero false) ∧
  Float.py_float "-0.0" = Ok (Float.Zero true) ∧
  Float.py_float "-Infinity" = Ok (Float.Inf true) ∧
  Float.py_float "1_0.5" = Float.py_float "10.5" ∧
  Float.py_float "1e" = Raise ValueError ∧
  Float.py_float "." = Raise ValueError.
Proof. repeat split; vm_compute; reflexivity. Qed.

(** [Float.round] and [Float.mul] against the Standard Library's
    [binary_normalize] and [SFmul] for binary64. *)
Example round_agrees_with_SpecFloat :
  Forall
    (λ '(m, e), to_spec (Float.round false m e) = binary_normalize 53 1024 m e false)
    [(1, 0); (100, 0); (2 ^ 53 + 1, 0); (2 ^ 53 + 3, 0); (2 ^ 54 + 2, 0);
     (2 ^ 54 + 6, 0); (2 ^ 1024, 0); (2 ^ 1024 - 2 ^ 970, 0);
     (2 ^ 1024 - 2 ^ 970 - 1, 0); (1, -1074); (1, -1075); (3, -1075);
     (5, -1076); (2 ^ 53 - 1, -1075); (2 ^ 54 - 1, -1076);
     (12345678901234567890123, -1100); (1, -2000); (1, 1023); (1, 1024)].
Proof. repeat constructor; vm_compute; reflexivity. Qed.

Example mul_agrees_with_SpecFloat :
  Forall
    (λ '(x, y), to_spec (Float.mul x y) = SFmul 53 1024 (to_spec x) (to_spec y))
    [(z_scale, z_scale);
     (Float.round false 123456789012345678 0, z_scale);
     (Float.round true 1 (-1074), Float.round false 1 (-1));
     (Float.round false 3 (-1074), Float.round false 1 (-1));
     (Float.round false 1 1023, z_scale);
     (Float.Zero true, z_scale)].
Proof. repeat constructor; vm_compute; reflexivity. Qed.

Example literals :
  Float.py_float "100.0" = Ok z_scale ∧ Float.py_float "0.0" = Ok f0 ∧
  Float.py_float "1.0" = Ok f1.
Proof. repeat split; vm_compute; reflexivity. Qed.

Example reader_example :
  LayerReader "defs.csv" "colors.csv" "map.txt" Sample.fs =
    (Ok tt,
     {| layer_mapping := [(("M1", "drawing"), (10, 0)); (("M2", "pin"), (11, 5))];
        layers :=
          [("met1",
            {| name := "M1"; purpose := "drawing";
               name_gdsii_num := Some 10; purpose_gdsii_num := Some 0;
               description := EmptyString; color := Some "red";
               bottom := Some (Some 1); top := Some (Some 1) |});
           ("via",
            {| name := EmptyString; purpose := EmptyString;
               name_gdsii_num := None; purpose_gdsii_num := None;
               description := EmptyString; color := Some "blue";
               bottom := Some (Some 2); top := Some None |})];
        stdout := [Warning_invalid_line 3 "foo bar";
                   Warning_no_mapping "PO" "drawing"] |}).
Proof. vm_compute. reflexivity. Qed.

Example derive_example :
  derive Sample.reader =
    Ok {| ld_to_key := [((10, 0), "met1")];
          bottom_top := [("met1", (z_scale, f1)); ("via", (f0, f1))];
          layer_colors := [("met1", Some "red"); ("via", Some "blue")] |}.
Proof. vm_compute. reflexivity. Qed.

(** The subtraction of two coerced values can be too large for [float]:
    the loop of [model_main.py] then raises. *)
Example extent_overflow :
  extent {| name := EmptyString; purpose := EmptyString;
            name_gdsii_num := None; purpose_gdsii_num := None;
            description := EmptyString; color := Some "red";
            bottom := Some (coerce (Some "-1.7e308"));
            top := Some (coerce (Some "1.7e308")) |} = Raise OverflowError.
Proof. vm_compute. reflexivity. Qed.

(* ===================================================================== *)
(** * The properties of the specification                                 *)
(* ===================================================================== *)

Lemma elem_of_map {A B} (f : A → B) (l : list A) x : x ∈ l → f x ∈ map f l.
Proof.
  induction l as [|a l IH]; intros Hin; [by apply elem_of_nil in Hin|].
  simpl. apply elem_of_cons in Hin as [->|Hin].
  - apply list_elem_of_here.
  - apply list_elem_of_further. auto.
Qed.

Lemma is_empty_false s : s ≠ EmptyString → Str.is_empty s = false.
Proof. by destruct s. Qed.

(** Every record of a constructed reader's table is resolved against the
    loaded mapping or is a colour-only record of a colour row's key. *)
Lemma LayerReader_resolved dfile cfile mfile fs :
  Forall
    (resolved_or_color_only (layer_mapping (LayerReader dfile cfile mfile fs).2)
       (map color_key (source_items (color_source fs))))
    (layers (LayerReader dfile cfile mfile fs).2).
Proof.
  destruct (LayerReader_spec dfile cfile mfile fs) as (_ & -> & ->).
  apply color_fold_resolved.
  - apply Forall_forall. intros r Hr. by apply elem_of_map.
  - apply def_fold_resolved, Forall_nil_2.
Qed.

Lemma LayerReader_valid dfile cfile mfile fs :
  valid_table (layers (LayerReader dfile cfile mfile fs).2).
Proof.
  destruct (LayerReader_spec dfile cfile mfile fs) as (_ & _ & ->). split.
  - apply color_fold_NoDup, def_fold_NoDup, NoDup_nil_2.
  - apply color_fold_together.
    eapply Forall_impl; [apply def_fold_numbered, Forall_nil_2|].
    intros [k info] [[a Ha] [b Hb]]; simpl in *.
    unfold numbers_together. rewrite Ha, Hb. done.
Qed.

(** C1: a definition row whose (name, purpose) pair has no entry in the
    loaded mapping is dropped entirely.  The table is the one built from
    the same sources without that row.  Every record of the table is
    either resolved (its numbers are those the mapping holds for its own
    pair) or a colour-only record of a colour row's key, so no record
    carries the row's pair with numbers, and none has a number missing
    except the minimal records that colour rows create.  The row's key
    has no record unless another definition row or a colour row brings
    one. *)
Theorem C1_unmapped_definition_row_dropped
    (dfile cfile mfile : string) (msrc : source string) (csrc : source row)
    (pre post : list row) (r : row) (fault : option exn) :
  let with_row :=
    {| mapping_source := msrc; def_source := File (pre ++ r :: post) fault;
       color_source := csrc |} in
  let without_row :=
    {| mapping_source := msrc; def_source := File (pre ++ post) fault;
       color_source := csrc |} in
  let reader := (LayerReader dfile cfile mfile with_row).2 in
  Dict.get (layer_mapping reader) (def_name r, def_purpose r) = None →
  layers reader = layers (LayerReader dfile cfile mfile without_row).2 ∧
  Forall
    (resolved_or_color_only (layer_mapping reader)
       (map color_key (source_items csrc)))
    (layers reader) ∧
  (∀ k info, (k, info) ∈ layers reader →
     (name info, purpose info) = (def_name r, def_purpose r) →
     color_only info ∧ k ∈ map color_key (source_items csrc)) ∧
  (def_key r ∉ map def_key (pre ++ post) →
   def_key r ∉ map color_key (source_items csrc) →
   Dict.get (layers reader) (def_key r) = None).
Proof.
  intros with_row without_row reader Hunmapped.
  pose proof (LayerReader_resolved dfile cfile mfile with_row) as Hres.
  unfold reader in *.
  destruct (LayerReader_spec dfile cfile mfile with_row) as (_ & Hm & Hl).
  destruct (LayerReader_spec dfile cfile mfile without_row) as (_ & _ & Hl').
  simpl in *.
  assert (layers (LayerReader dfile cfile mfile with_row).2 =
          layers (LayerReader dfile cfile mfile without_row).2) as Heq.
  { rewrite Hl, Hl'. rewrite Hm in Hunmapped. by rewrite def_fold_skip. }
  split; [exact Heq|]. split; [exact Hres|]. split.
  - intros k info Hin Hpair. rewrite Forall_forall in Hres.
    destruct (Hres _ Hin) as [(ln & dt & Hg & _)|Hco]; [|exact Hco].
    simpl in Hg. rewrite Hpair in Hg. congruence.
  - intros Hdef Hcol. apply get_None_keys. rewrite Heq, Hl'. intros Hin.
    apply color_fold_keys in Hin as [Hin|Hin]; [|done].
    apply def_fold_keys in Hin as [Hin|Hin]; [|done].
    by apply elem_of_nil in Hin.
Qed.

Lemma C1_witness :
  layers (LayerReader "defs.csv" "colors.csv" "map.txt" Sample.fs).2 =
    layers (LayerReader "defs.csv" "colors.csv" "map.txt"
              {| mapping_source := File Sample.mapping_lines None;
                 def_source := File [Sample.met1] None;
                 color_source := File [Sample.met1_color; Sample.via_color] None |}).2 ∧
  Dict.get (layers (LayerReader "defs.csv" "colors.csv" "map.txt" Sample.fs).2)
    "poly" = None.
Proof.
  destruct (C1_unmapped_definition_row_dropped "defs.csv" "colors.csv" "map.txt"
              (File Sample.mapping_lines None)
              (File [Sample.met1_color; Sample.via_color] None)
              [Sample.met1] [] Sample.poly None) as (H1 & _ & _ & H3).
  - vm_compute. reflexivity.
  - split; [exact H1|]. apply H3; vm_compute; intros H;
      repeat (apply elem_of_cons in H as [H|H]; [discriminate H|]);
      by apply elem_of_nil in H.
Defined.

Lemma enumerate_app {A} (xs ys : list A) n :
  enumerate n (xs ++ ys) =
    enumerate n xs ++ enumerate (n + Z.of_nat (length xs)) ys.
Proof.
  revert n. induction xs as [|x xs IH]; intros n; simpl.
  - by rewrite Z.add_0_r.
  - rewrite IH. do 3 f_equal. lia.
Qed.

(** Once the first part of a loop has run normally, the [try] statement
    goes on with the rest. *)
Lemma try_for_each_in_app {A} (body : A → M unit) handler xs ys fault st st1 :
  for_each xs body st = (Ok tt, st1) →
  try_except (for_each_in (xs ++ ys) fault body) handler st =
    try_except (for_each_in ys fault body) handler st1.
Proof.
  intros Hxs. unfold try_except, for_each_in, mbind, M_bind, bind.
  by rewrite for_each_app, Hxs.
Qed.

(** X23: a line of the mapping file that is neither blank nor a comment
    and has fewer than four fields is skipped with a warning.  Running
    the loop body on it returns normally, prints the warning and changes
    neither the mapping nor the table; [_load_layer_mapping] returns
    normally, and the mapping it loads is the one loaded from the file
    without that line, so the lines after it enter the mapping as if the
    line were not there; when the loop reaches the line, the warning with
    its line number is part of what the loader prints. *)
Theorem short_mapping_line_skipped
    (mfile : string) (dsrc csrc : source row) (pre post : list string)
    (line : string) (fault : option exn) (n : Z) (st : state) :
  let load lines :=
    _load_layer_mapping mfile
      {| mapping_source := File lines fault; def_source := dsrc;
         color_source := csrc |} st in
  malformed line = true →
  mapping_line (n, line) st =
    (Ok tt, {| layer_mapping := layer_mapping st;
               layers := layers st;
               stdout := stdout st ++ [Warning_invalid_line n (Str.strip line)] |}) ∧
  (load (pre ++ line :: post)).1 = Ok tt ∧
  layer_mapping (load (pre ++ line :: post)).2 =
    layer_mapping (load (pre ++ post)).2 ∧
  (∀ st1,
     for_each (enumerate 1 pre) mapping_line (put_layer_mapping [] st).2
       = (Ok tt, st1) →
     Warning_invalid_line (1 + Z.of_nat (length pre)) (Str.strip line)
       ∈ stdout (load (pre ++ line :: post)).2).
Proof.
  intros load Hbad. split; [by apply mapping_line_malformed|].
  unfold load. split; [apply load_layer_mapping_spec|]. split.
  - destruct (load_layer_mapping_spec mfile
                {| mapping_source := File (pre ++ line :: post) fault;
                   def_source := dsrc; color_source := csrc |} st)
      as (_ & _ & ->).
    destruct (load_layer_mapping_spec mfile
                {| mapping_source := File (pre ++ post) fault;
                   def_source := dsrc; color_source := csrc |} st)
      as (_ & _ & ->).
    simpl. apply read_mapping_skip. by apply mapping_entry_malformed.
  - intros st1 Hpre.
    unfold _load_layer_mapping, mbind, M_bind, bind. cbn [mapping_source].
    destruct (put_layer_mapping [] st) as [[[]|e0] st0] eqn:Hput;
      [|by unfold put_layer_mapping in Hput].
    cbn [snd] in Hpre.
    rewrite enumerate_app.
    rewrite (try_for_each_in_app _ _ _ _ _ _ _ Hpre).
    change (enumerate (1 + Z.of_nat (length pre)) (line :: post))
      with ([(1 + Z.of_nat (length pre), line)]
            ++ enumerate (1 + Z.of_nat (length pre) + 1) post).
    erewrite try_for_each_in_app;
      [|rewrite for_each_cons, (mapping_line_malformed _ _ _ Hbad); reflexivity].
    match goal with
    | |- _ ∈ stdout (try_except (for_each_in ?items _ _) _ ?s).2 =>
        destruct (appends_try_for_each_in mapping_line items fault mfile s
                    appends_mapping_line) as [msgs Hmsgs]
    end.
    unfold appends in Hmsgs. rewrite Hmsgs. cbn [stdout].
    apply elem_of_app. left. apply elem_of_app. right.
    apply list_elem_of_here.
Qed.

Lemma short_mapping_line_skipped_witness :
  let st := {| layer_mapping := []; layers := []; stdout := [] |} in
  let load lines :=
    _load_layer_mapping "map.txt"
      {| mapping_source := File lines None; def_source := NotFound;
         color_source := NotFound |} st in
  malformed "foo bar" = true ∧
  mapping_line (3, "foo bar") st =
    (Ok tt, {| layer_mapping := []; layers := [];
               stdout := [Warning_invalid_line 3 "foo bar"] |}) ∧
  layer_mapping (load ["M1 drawing 10 0"; "foo bar"; "M2 pin 11 5"]).2 =
    [(("M1", "drawing"), (10, 0)); (("M2", "pin"), (11, 5))] ∧
  Warning_invalid_line 2 "foo bar"
    ∈ stdout (load ["M1 drawing 10 0"; "foo bar"; "M2 pin 11 5"]).2.
Proof.
  intros st load.
  destruct (short_mapping_line_skipped "map.txt" NotFound NotFound
              ["M1 drawing 10 0"] ["M2 pin 11 5"] "foo bar" None 3 st)
    as (H1 & _ & H3 & H4).
  - vm_compute. reflexivity.
  - split; [vm_compute; reflexivity|]. split; [exact H1|]. split.
    + unfold load. simpl app in H3. rewrite H3. vm_compute. reflexivity.
    + eapply H4. vm_compute. reflexivity.
Defined.

(** A line with four or more fields whose third or fourth field is not
    an integer is not skipped: [int] raises, the [try] statement around
    the loop ends it, and the lines after it are not read. *)
Lemma read_mapping_stops pre line post m e :
  mapping_entry line = Raise e →
  read_mapping (pre ++ line :: post) m = read_mapping pre m.
Proof.
  intros Hline. revert m. induction pre as [|p pre IH]; intros m; simpl.
  - by rewrite Hline.
  - destruct (mapping_entry p) as [[[k v]|]|e']; auto.
Qed.

Example bad_number_ends_loading :
  let st := {| layer_mapping := []; layers := []; stdout := [] |} in
  _load_layer_mapping "map.txt"
    {| mapping_source := File ["M1 drawing 10 0"; "A B x 1"; "M2 pin 11 5"] None;
       def_source := NotFound; color_source := NotFound |} st =
    (Ok tt, {| layer_mapping := [(("M1", "drawing"), (10, 0))];
               layers := [];
               stdout := [Error_reading "map.txt" ValueError] |}).
Proof. vm_compute. reflexivity. Qed.

(** C2: a line of the mapping file with four fields whose third field is
    not an integer is not skipped the way a line with too few fields is.
    [int] raises [ValueError] inside the one [try] statement that wraps
    the whole loop, so the loop ends there: no warning is printed for the
    line, one line [Error reading ...] is printed instead, and the
    well-formed line after it never enters the mapping, although the same
    file without the bad line loads it. *)
Theorem C2_bad_number_line_drops_later_lines :
  let load lines :=
    LayerReader "defs.csv" "colors.csv" "map.txt"
      {| mapping_source := File lines None; def_source := NotFound;
         color_source := NotFound |} in
  let with_bad_line := load ["M1 drawing 10 0"; "A B x 1"; "M2 pin 11 5"] in
  let without_it := load ["M1 drawing 10 0"; "M2 pin 11 5"] in
  Str.split (Str.strip "A B x 1") = ["A"; "B"; "x"; "1"] ∧
  Num.py_int "x" = Raise ValueError ∧
  mapping_line (2, "A B x 1") empty_state = (Raise ValueError, empty_state) ∧
  with_bad_line.1 = Ok tt ∧
  layer_mapping with_bad_line.2 = [(("M1", "drawing"), (10, 0))] ∧
  Dict.get (layer_mapping with_bad_line.2) ("M2", "pin") = None ∧
  Dict.get (layer_mapping without_it.2) ("M2", "pin") = Some (11, 5) ∧
  stdout with_bad_line.2 =
    [Error_reading "map.txt" ValueError; Warning_not_found "defs.csv"].
Proof. repeat split; vm_compute; reflexivity. Qed.

(** C3: for a key whose record has both GDSII numbers, [L] and [D],
    [get_klayoutlayer_index] returns ["%d" % L], a slash, ["%d" % D]; the
    two numerals are plain (digits, a minus sign for a negative number,
    no leading zero, no padding) and [int] reads them back as [L] and
    [D]. *)
Theorem C3_address_string_is_layer_slash_datatype
    (self : state) (layer_key : string) (info : LayerInfo) (L D : Z) :
  Dict.get (layers self) layer_key = Some info →
  name_gdsii_num info = Some L →
  purpose_gdsii_num info = Some D →
  get_klayoutlayer_index self layer_key =
    Ok (Num.fmt_d L +:+ "/" +:+ Num.fmt_d D) ∧
  plain_integer (Num.fmt_d L) = true ∧ plain_integer (Num.fmt_d D) = true ∧
  Num.py_int (Num.fmt_d L) = Ok L ∧ Num.py_int (Num.fmt_d D) = Ok D.
Proof.
  intros Hg HL HD. split.
  - unfold get_klayoutlayer_index, getitem. rewrite Hg. simpl.
    rewrite HL, HD. done.
  - auto using plain_integer_fmt_d, py_int_fmt_d.
Qed.

Lemma C3_witness :
  get_klayoutlayer_index Sample.reader "met1" = Ok "10/0".
Proof.
  destruct (C3_address_string_is_layer_slash_datatype Sample.reader "met1"
              {| name := "M1"; purpose := "drawing";
                 name_gdsii_num := Some 10; purpose_gdsii_num := Some 0;
                 description := EmptyString; color := Some "red";
                 bottom := Some (Some 1); top := Some (Some 1) |} 10 0)
    as (H & _).
  - vm_compute. reflexivity.
  - reflexivity.
  - reflexivity.
  - exact H.
Defined.

(** C4: constructing a reader never raises, whatever the three sources
    are (missing, empty, failing or full), and leaves a valid table.  A
    missing mapping file and a missing definition file each print their
    warning; with a missing colour file the colour loader returns at once
    without printing, so the reader is the one the first two loaders
    leave; with nothing to read the table is empty. *)
Theorem C4_load_never_raises (dfile cfile mfile : string) (fs : files) :
  let r := LayerReader dfile cfile mfile fs in
  r.1 = Ok tt ∧
  valid_table (layers r.2) ∧
  (mapping_source fs = NotFound → Warning_not_found mfile ∈ stdout r.2) ∧
  (def_source fs = NotFound → Warning_not_found dfile ∈ stdout r.2) ∧
  (color_source fs = NotFound →
   (∀ st, _load_layer_color cfile fs st = (Ok tt, st)) ∧
   r = (put_layers [];; _load_layer_mapping mfile fs;;
        _load_layer_def dfile fs) empty_state) ∧
  (source_items (def_source fs) = [] →
   source_items (color_source fs) = [] → layers r.2 = []).
Proof.
  intros r. unfold r.
  destruct (LayerReader_spec dfile cfile mfile fs) as (Hr & Hm & Hl).
  destruct (LayerReader_stdout dfile cfile mfile fs)
    as (om & od & oc & Hout & Hom & Hod & Hoc).
  split; [exact Hr|]. split; [apply LayerReader_valid|].
  split.
  { intros Hnf. rewrite Hout, (Hom Hnf). apply elem_of_app. left.
    apply list_elem_of_here. }
  split.
  { intros Hnf. rewrite Hout, (Hod Hnf). apply elem_of_app. right.
    apply elem_of_app. left. apply list_elem_of_here. }
  split.
  { intros Hnf. split; [intros st; by apply load_layer_color_missing|].
    unfold LayerReader, __init__, mbind, M_bind, bind. simpl.
    destruct (_load_layer_mapping mfile fs _) as [[[]|e1] st1]; [|done].
    destruct (_load_layer_def dfile fs st1) as [[[]|e2] st2]; [|done].
    by apply load_layer_color_missing. }
  intros Hd Hc. rewrite Hl, Hd, Hc. done.
Qed.

Lemma C4_witness :
  LayerReader "defs.csv" "colors.csv" "map.txt" Sample.missing =
    (Ok tt, {| layer_mapping := []; layers := [];
               stdout := [Warning_not_found "map.txt";
                          Warning_not_found "defs.csv"] |}) ∧
  Warning_not_found "map.txt"
    ∈ stdout (LayerReader "defs.csv" "colors.csv" "map.txt" Sample.missing).2 ∧
  Warning_not_found "defs.csv"
    ∈ stdout (LayerReader "defs.csv" "colors.csv" "map.txt" Sample.missing).2 ∧
  layers (LayerReader "defs.csv" "colors.csv" "map.txt" Sample.missing).2 = [].
Proof.
  destruct (C4_load_never_raises "defs.csv" "colors.csv" "map.txt"
              Sample.missing) as (_ & _ & Hm & Hd & _ & He).
  split; [vm_compute; reflexivity|].
  split; [apply Hm; reflexivity|].
  split; [apply Hd; reflexivity|].
  apply He; reflexivity.
Defined.

(** C5: in every record of the table of a constructed reader the two
    GDSII numbers are both present or both absent. *)
Theorem C5_gdsii_numbers_set_together (dfile cfile mfile : string) (fs : files) :
  Forall
    (λ item,
       (is_Some (name_gdsii_num item.2) ∧ is_Some (purpose_gdsii_num item.2))
       ∨ (name_gdsii_num item.2 = None ∧ purpose_gdsii_num item.2 = None))
    (layers (LayerReader dfile cfile mfile fs).2).
Proof.
  destruct (LayerReader_valid dfile cfile mfile fs) as [_ Hv].
  eapply Forall_impl; [exact Hv|].
  intros [k info] Ht. simpl in *. unfold numbers_together in Ht.
  destruct (name_gdsii_num info) as [a|], (purpose_gdsii_num info) as [b|];
    eauto.
  - destruct Ht as [_ Ht]. specialize (Ht eq_refl). done.
  - destruct Ht as [Ht _]. specialize (Ht eq_refl). done.
Qed.

(** C6: every layer key appears at most once in the table of a
    constructed reader. *)
Theorem C6_layer_keys_unique (dfile cfile mfile : string) (fs : files) :
  NoDup (Dict.keys (layers (LayerReader dfile cfile mfile fs).2)).
Proof.
  destruct (LayerReader_spec dfile cfile mfile fs) as (_ & _ & ->).
  apply color_fold_NoDup, def_fold_NoDup, NoDup_nil_2.
Qed.

Lemma color_step_get_other l r k :
  color_key r ≠ k → Dict.get (color_step l r) k = Dict.get l k.
Proof.
  intros Hne. unfold color_step.
  destruct (Str.is_empty (color_key r)); [done|]. by apply get_set_ne.
Qed.




Lemma fmt_address_unnumbered a b :
  a = None ∨ b = None → fmt_address a b = Raise TypeError.
Proof. intros [->| ->]; [done|]. by destruct a. Qed.

Lemma gen_layer2index_loop_unnumbered items acc :
  (∃ k info, (k, info) ∈ items ∧
     (name_gdsii_num info = None ∨ purpose_gdsii_num info = None)) →
  gen_layer2index_loop items acc = Raise TypeError.
Proof.
  revert acc. induction items as [|[k0 v0] items IH]; intros acc.
  - intros (k & info & Hin & _). by apply elem_of_nil in Hin.
  - intros (k & info & Hin & Hnum). simpl.
    destruct (name_gdsii_num v0) as [a|] eqn:Ha; [|done].
    destruct (purpose_gdsii_num v0) as [b|] eqn:Hb; [|done]. simpl.
    apply IH. exists k, info. split; [|done].
    apply elem_of_cons in Hin as [Heq|Hin]; [|done].
    inversion Heq; subst. destruct Hnum; congruence.
Qed.

(** C8: [get_klayoutlayer_index] raises [KeyError] for a key that is not
    in the table and [TypeError] for a key whose record lacks a GDSII
    number; [gen_layer2index] raises [TypeError] as soon as one record of
    the table lacks a GDSII number.  No default is substituted. *)
Theorem C8_address_lookups_fail_without_numbers (self : state) :
  (∀ k, Dict.get (layers self) k = None →
        get_klayoutlayer_index self k = Raise KeyError) ∧
  (∀ k info,
     Dict.get (layers self) k = Some info →
     name_gdsii_num info = None ∨ purpose_gdsii_num info = None →
     get_klayoutlayer_index self k = Raise TypeError) ∧
  ((∃ k info, (k, info) ∈ layers self ∧
      (name_gdsii_num info = None ∨ purpose_gdsii_num info = None)) →
   gen_layer2index self = Raise TypeError).
Proof.
  split; [|split].
  - intros k Hg. unfold get_klayoutlayer_index, getitem. by rewrite Hg.
  - intros k info Hg Hnum. unfold get_klayoutlayer_index, getitem.
    rewrite Hg. simpl. by apply fmt_address_unnumbered.
  - apply gen_layer2index_loop_unnumbered.
Qed.

Lemma C8_witness :
  get_klayoutlayer_index Sample.reader "nwell" = Raise KeyError ∧
  get_klayoutlayer_index Sample.reader "via" = Raise TypeError ∧
  gen_layer2index Sample.reader = Raise TypeError.
Proof.
  destruct (C8_address_lookups_fail_without_numbers Sample.reader)
    as (H1 & H2 & H3).
  split; [apply H1; vm_compute; reflexivity|].
  split.
  - eapply H2; [vm_compute; reflexivity|]. left. reflexivity.
  - apply H3. eexists "via", _. split.
    + apply get_Some_elem. vm_compute. reflexivity.
    + left. reflexivity.
Defined.

(** C9: for a record whose bottom and top were coerced from the colour
    file to the same integer, the loop of [model_main.py] computes the
    height [1.0], not zero, and does not raise. *)
Theorem C9_equal_bottom_top_height_one
    (info : LayerInfo) (bottom_text top_text : option string) (v : Z) :
  bottom info = Some (coerce bottom_text) →
  top info = Some (coerce top_text) →
  coerce bottom_text = Some v →
  coerce top_text = Some v →
  ∃ z0, extent info = Ok (z0, f1) ∧
        Float.eqb f1 f0 = false ∧ Float.of_int 1 = Ok f1.
Proof.
  intros Hb Ht Hcb Hct.
  assert (∃ y, Float.of_int v = Ok y) as [y Hy].
  { unfold coerce in Hcb. destruct bottom_text as [s|]; [|done].
    destruct (Str.is_empty s); [done|].
    destruct (Float.py_float s) as [x|e] eqn:Hs; simpl in Hcb; [|done].
    destruct (Float.to_int x) as [w|e] eqn:Hw; simpl in Hcb; [|done].
    injection Hcb as ->. by eapply of_int_to_int. }
  exists (Float.mul y z_scale). split; [|done].
  unfold extent, get_bottom, get_top. rewrite Hb, Ht, Hcb, Hct. simpl.
  rewrite Hy, Z.sub_diag. done.
Qed.

Lemma C9_witness :
  coerce (Some "1.5") = Some 1 ∧
  ∃ z0,
    extent {| name := "M1"; purpose := "drawing";
              name_gdsii_num := Some 10; purpose_gdsii_num := Some 0;
              description := EmptyString; color := Some "red";
              bottom := Some (coerce (Some "1.5"));
              top := Some (coerce (Some "1.5")) |} = Ok (z0, f1).
Proof.
  split; [vm_compute; reflexivity|].
  destruct (C9_equal_bottom_top_height_one
              {| name := "M1"; purpose := "drawing";
                 name_gdsii_num := Some 10; purpose_gdsii_num := Some 0;
                 description := EmptyString; color := Some "red";
                 bottom := Some (coerce (Some "1.5"));
                 top := Some (coerce (Some "1.5")) |}
              (Some "1.5") (Some "1.5") 1) as (z0 & H & _).
  - reflexivity.
  - reflexivity.
  - vm_compute. reflexivity.
  - vm_compute. reflexivity.
  - exists z0. exact H.
Defined.

(** C10: when the colour loop meets a row whose layer key (non-empty
    after stripping) already has a record, it assigns the colour, bottom
    and top of that record and leaves its name, purpose, GDSII numbers
    and description as they were; the keys of the table and the records
    of the other keys do not change. *)
Theorem C10_color_merge_keeps_other_fields
    (r : row) (st : state) (info : LayerInfo) :
  color_key r ≠ EmptyString →
  Dict.get (layers st) (color_key r) = Some info →
  ∃ st' info',
    color_row r st = (Ok tt, st') ∧
    Dict.get (layers st') (color_key r) = Some info' ∧
    name info' = name info ∧
    purpose info' = purpose info ∧
    name_gdsii_num info' = name_gdsii_num info ∧
    purpose_gdsii_num info' = purpose_gdsii_num info ∧
    description info' = description info ∧
    color info' = Some (color_value r) ∧
    bottom info' = Some (coerce (r !! "bottom")) ∧
    top info' = Some (coerce (r !! "top")) ∧
    Dict.keys (layers st') = Dict.keys (layers st) ∧
    (∀ k, k ≠ color_key r → Dict.get (layers st') k = Dict.get (layers st) k) ∧
    layer_mapping st' = layer_mapping st ∧ stdout st' = stdout st.
Proof.
  intros Hk Hg. rewrite color_row_effect.
  eexists _, _. split; [reflexivity|].
  unfold color_effect, color_step. rewrite (is_empty_false _ Hk), Hg. simpl.
  split; [apply get_set_eq|]. repeat (split; [reflexivity|]).
  split; [apply keys_set_present; by eapply get_Some_keys|].
  split; [|done]. intros k Hne. by apply get_set_ne.
Qed.

Lemma C10_witness :
  let st := (color_row Sample.via_color Sample.reader).2 in
  Dict.get (layers st) "met1" = Dict.get (layers Sample.reader) "met1" ∧
  ∃ info, Dict.get (layers st) "via" = Some info ∧
          name info = EmptyString ∧ color info = Some "blue".
Proof.
  intros st.
  destruct (C10_color_merge_keeps_other_fields Sample.via_color Sample.reader
              {| name := EmptyString; purpose := EmptyString;
                 name_gdsii_num := None; purpose_gdsii_num := None;
                 description := EmptyString; color := Some "blue";
                 bottom := Some (Some 2); top := Some None |})
    as (st' & info' & Hrun & Hget & Hn & _ & _ & _ & _ & Hc & _ & _ & _ & Hframe & _).
  - vm_compute. discriminate.
  - vm_compute. reflexivity.
  - unfold st. rewrite Hrun. simpl. split.
    + apply Hframe. vm_compute. discriminate.
    + exists info'. split; [exact Hget|]. split; [exact Hn|].
      rewrite Hc. vm_compute. reflexivity.
Defined.

(* ===================================================================== *)
(** * Further properties: how the loaders compose                         *)
(* ===================================================================== *)

Lemma def_step_get_other m l r k :
  def_key r ≠ k → Dict.get (def_step m l r) k = Dict.get l k.
Proof.
  intros Hne.
  destruct (def_step_cases m l r) as [->|(ln & dt & _ & _ & _ & ->)]; [done|].
  by apply get_set_ne.
Qed.

Lemma def_fold_get_other m rows l k :
  k ∉ map def_key rows →
  Dict.get (fold_left (def_step m) rows l) k = Dict.get l k.
Proof.
  revert l. induction rows as [|r rows IH]; intros l Hk; simpl; [done|].
  simpl in Hk. apply not_elem_of_cons in Hk as [Hne Hk].
  rewrite IH by done. by apply def_step_get_other.
Qed.

Lemma color_fold_get_other rows l k :
  k ∉ map color_key rows →
  Dict.get (fold_left color_step rows l) k = Dict.get l k.
Proof.
  revert l. induction rows as [|r rows IH]; intros l Hk; simpl; [done|].
  simpl in Hk. apply not_elem_of_cons in Hk as [Hne Hk].
  rewrite IH by done. by apply color_step_get_other.
Qed.

Lemma color_step_frame l r k info :
  Dict.get l k = Some info →
  ∃ info', Dict.get (color_step l r) k = Some info' ∧ same_definition info info'.
Proof.
  intros Hg. unfold color_step.
  destruct (Str.is_empty (color_key r)); [by exists info|].
  destruct (decide (color_key r = k)) as [->|Hne].
  - rewrite Hg. simpl. eexists. split; [apply get_set_eq|done].
  - exists info. split; [|done]. by rewrite get_set_ne.
Qed.

Lemma color_fold_frame rows l k info :
  Dict.get l k = Some info →
  ∃ info',
    Dict.get (fold_left color_step rows l) k = Some info' ∧
    same_definition info info'.
Proof.
  revert l info. induction rows as [|r rows IH]; intros l info Hg; simpl.
  { by exists info. }
  destruct (color_step_frame l r k info Hg) as (i1 & Hg1 & Hs1).
  destruct (IH _ _ Hg1) as (i2 & Hg2 & Hs2).
  exists i2. split; [done|].
  destruct Hs1 as (? & ? & ? & ? & ?), Hs2 as (? & ? & ? & ? & ?).
  repeat split; congruence.
Qed.

(** X1: a definition row with a key, a name and a purpose whose pair
    the mapping resolves to [(L, D)] gives the table a record under its
    key with that name, purpose and description and the numbers [L] and
    [D], provided no later definition row has the same key; colour rows
    do not change any of this. *)
Theorem resolved_definition_row_in_table
    (dfile cfile mfile : string) (msrc : source string) (csrc : source row)
    (pre post : list row) (r : row) (fault : option exn) (L D : Z) :
  let reader :=
    (LayerReader dfile cfile mfile
       {| mapping_source := msrc; def_source := File (pre ++ r :: post) fault;
          color_source := csrc |}).2 in
  def_key r ≠ EmptyString → def_name r ≠ EmptyString →
  def_purpose r ≠ EmptyString →
  Dict.get (layer_mapping reader) (def_name r, def_purpose r) = Some (L, D) →
  def_key r ∉ map def_key post →
  ∃ info,
    Dict.get (layers reader) (def_key r) = Some info ∧
    name info = def_name r ∧ purpose info = def_purpose r ∧
    name_gdsii_num info = Some L ∧ purpose_gdsii_num info = Some D ∧
    description info = def_description r.
Proof.
  intros reader Hk Hn Hp Hmap Hlast. unfold reader in *.
  destruct (LayerReader_spec dfile cfile mfile
              {| mapping_source := msrc;
                 def_source := File (pre ++ r :: post) fault;
                 color_source := csrc |}) as (_ & Hm & ->).
  rewrite Hm in Hmap. simpl in *.
  rewrite fold_left_app. simpl.
  set (l1 := fold_left (def_step (loaded_mapping msrc)) pre []).
  set (rec :=
         {| name := def_name r; purpose := def_purpose r;
            name_gdsii_num := Some L; purpose_gdsii_num := Some D;
            description := def_description r;
            color := None; bottom := None; top := None |}).
  assert (def_step (loaded_mapping msrc) l1 r = Dict.set (def_key r) rec l1)
    as ->.
  { unfold def_step.
    rewrite (is_empty_false _ Hk), (is_empty_false _ Hn),
      (is_empty_false _ Hp), Hmap. done. }
  destruct (color_fold_frame (source_items csrc)
              (fold_left (def_step (loaded_mapping msrc)) post
                 (Dict.set (def_key r) rec l1)) (def_key r) rec)
    as (info & Hg & Hs).
  { rewrite def_fold_get_other by done. apply get_set_eq. }
  exists info. split; [done|].
  destruct Hs as (? & ? & ? & ? & ?). simpl in *. done.
Qed.

Lemma resolved_definition_row_in_table_witness :
  ∃ info,
    Dict.get (layers Sample.reader) "met1" = Some info ∧
    name_gdsii_num info = Some 10 ∧ purpose_gdsii_num info = Some 0.
Proof.
  destruct (resolved_definition_row_in_table "defs.csv" "colors.csv" "map.txt"
              (File Sample.mapping_lines None)
              (File [Sample.met1_color; Sample.via_color] None)
              [] [Sample.poly] Sample.met1 None 10 0)
    as (info & Hg & _ & _ & HL & HD & _).
  - vm_compute. discriminate.
  - vm_compute. discriminate.
  - vm_compute. discriminate.
  - vm_compute. reflexivity.
  - vm_compute. intros H.
    repeat (apply elem_of_cons in H as [H|H]; [discriminate H|]).
    by apply elem_of_nil in H.
  - exists info. split; [exact Hg|]. split; [exact HL | exact HD].
Defined.

Lemma color_fold_keys_app rows l :
  ∃ extra,
    Dict.keys (fold_left color_step rows l) = Dict.keys l ++ extra ∧
    Forall (λ k, k ∈ map color_key rows ∧ k ∉ Dict.keys l) extra.
Proof.
  revert l. induction rows as [|r rows IH]; intros l; simpl.
  { exists []. by rewrite app_nil_r. }
  destruct (IH (color_step l r)) as (extra & Hkeys & Hextra).
  unfold color_step in *.
  destruct (Str.is_empty (color_key r)).
  - exists extra. split; [done|].
    eapply Forall_impl; [exact Hextra|]. intros k [Hin Hnot]. split; [|done].
    by apply list_elem_of_further.
  - rewrite keys_set in Hkeys. rewrite keys_set in Hextra.
    destruct (decide (color_key r ∈ Dict.keys l)) as [Hin|Hnot].
    + exists extra. split; [done|].
      eapply Forall_impl; [exact Hextra|]. intros k [Hk Hn]. split; [|done].
      by apply list_elem_of_further.
    + exists (color_key r :: extra). split.
      * rewrite Hkeys, <- app_assoc. done.
      * constructor.
        -- split; [apply list_elem_of_here | done].
        -- eapply Forall_impl; [exact Hextra|]. intros k [Hk Hn]. split.
           ++ by apply list_elem_of_further.
           ++ intros Hkl. apply Hn. apply elem_of_app. by left.
Qed.

(** The table of a reader, and of the same reader without its colour
    file, as folds. *)
Lemma LayerReader_layers_colors dfile cfile mfile fs :
  layers (LayerReader dfile cfile mfile fs).2 =
    fold_left color_step (source_items (color_source fs))
      (layers (LayerReader dfile cfile mfile (without_colors fs)).2).
Proof.
  destruct (LayerReader_spec dfile cfile mfile fs) as (_ & _ & ->).
  destruct (LayerReader_spec dfile cfile mfile (without_colors fs))
    as (_ & _ & ->).
  done.
Qed.

(** X2: colour rows only add to the table.  The keys of the table are
    the keys of the table built without the colour file, in the same
    order, followed by new keys that colour rows name; and every record
    of the table built without the colour file is still there with the
    same name, purpose, GDSII numbers and description. *)
Theorem colors_only_append (dfile cfile mfile : string) (fs : files) :
  let table := layers (LayerReader dfile cfile mfile fs).2 in
  let plain := layers (LayerReader dfile cfile mfile (without_colors fs)).2 in
  (∃ extra,
     Dict.keys table = Dict.keys plain ++ extra ∧
     Forall (λ k, k ∈ map color_key (source_items (color_source fs))
                  ∧ k ∉ Dict.keys plain) extra) ∧
  (∀ k info,
     Dict.get plain k = Some info →
     ∃ info', Dict.get table k = Some info' ∧ same_definition info info').
Proof.
  intros table plain. unfold table, plain.
  rewrite LayerReader_layers_colors. split.
  - apply color_fold_keys_app.
  - intros k info Hg. by apply color_fold_frame.
Qed.

Lemma colors_only_append_witness :
  Dict.keys (layers Sample.reader) = ["met1"; "via"] ∧
  ∃ info',
    Dict.get (layers Sample.reader) "met1" = Some info' ∧
    name info' = "M1" ∧ name_gdsii_num info' = Some 10.
Proof.
  destruct (colors_only_append "defs.csv" "colors.csv" "map.txt" Sample.fs)
    as [_ Hframe].
  split; [vm_compute; reflexivity|].
  destruct (Hframe "met1"
              {| name := "M1"; purpose := "drawing";
                 name_gdsii_num := Some 10; purpose_gdsii_num := Some 0;
                 description := EmptyString;
                 color := None; bottom := None; top := None |})
    as (info' & Hg & Hn & _ & HL & _).
  - vm_compute. reflexivity.
  - exists info'. split; [exact Hg|]. split; [symmetry; exact Hn|].
    symmetry. exact HL.
Defined.

(** X3: the last colour row of a key decides the colour, bottom and top
    of its record: they are that row's stripped colour and coerced
    bottom and top, whatever earlier rows of the key held. *)
Theorem last_color_row_wins
    (dfile cfile mfile : string) (msrc : source string) (dsrc : source row)
    (pre post : list row) (r : row) (fault : option exn) :
  let reader :=
    (LayerReader dfile cfile mfile
       {| mapping_source := msrc; def_source := dsrc;
          color_source := File (pre ++ r :: post) fault |}).2 in
  color_key r ≠ EmptyString →
  color_key r ∉ map color_key post →
  ∃ info,
    Dict.get (layers reader) (color_key r) = Some info ∧
    color info = Some (color_value r) ∧
    bottom info = Some (coerce (r !! "bottom")) ∧
    top info = Some (coerce (r !! "top")).
Proof.
  intros reader Hk Hlast. unfold reader.
  rewrite LayerReader_layers_colors. cbn [color_source source_items].
  rewrite fold_left_app. cbn [fold_left].
  rewrite color_fold_get_other by done.
  unfold color_step at 1. rewrite (is_empty_false _ Hk).
  eexists. split; [apply get_set_eq|]. done.
Qed.

Lemma last_color_row_wins_witness :
  ∃ info,
    Dict.get (layers Sample.reader) "via" = Some info ∧
    color info = Some "blue" ∧ bottom info = Some (Some 2) ∧
    top info = Some None.
Proof.
  destruct (last_color_row_wins "defs.csv" "colors.csv" "map.txt"
              (File Sample.mapping_lines None)
              (File [Sample.met1; Sample.poly] None)
              [Sample.met1_color] [] Sample.via_color None)
    as (info & Hg & Hc & Hb & Ht).
  - vm_compute. discriminate.
  - apply not_elem_of_nil.
  - exists info. split; [exact Hg|].
    rewrite Hc, Hb, Ht. vm_compute. repeat split; reflexivity.
Defined.

Lemma is_empty_true s : Str.is_empty s = true → s = EmptyString.
Proof. by destruct s. Qed.

Lemma rstrip_by_idem sp s :
  Str.rstrip_by sp (Str.rstrip_by sp s) = Str.rstrip_by sp s.
Proof.
  induction s as [|c s IH]; simpl; [done|].
  destruct (sp c && Str.is_empty (Str.rstrip_by sp s)) eqn:Hc; [done|].
  simpl. by rewrite IH, Hc.
Qed.

Lemma lstrip_by_head sp s :
  Str.lstrip_by sp s = EmptyString ∨
  ∃ c t, Str.lstrip_by sp s = String c t ∧ sp c = false.
Proof.
  induction s as [|c s IH]; simpl; [by left|].
  destruct (sp c) eqn:Hc; [done|]. right. by exists c, s.
Qed.

(** [str.strip] is idempotent. *)
Lemma strip_by_idem sp s :
  Str.strip_by sp (Str.strip_by sp s) = Str.strip_by sp s.
Proof.
  unfold Str.strip_by.
  destruct (lstrip_by_head sp s) as [->|(c & t & -> & Hc)]; [done|].
  simpl. rewrite Hc. simpl. rewrite Hc. simpl. rewrite Hc. simpl.
  by rewrite rstrip_by_idem.
Qed.

Lemma stripped_strip s : stripped (Str.strip s).
Proof. apply strip_by_idem. Qed.

Lemma def_fold_stored m rows l :
  Forall (λ item, stored_stripped item ∧ uncolored item.2) l →
  Forall (λ item, stored_stripped item ∧ uncolored item.2)
    (fold_left (def_step m) rows l).
Proof.
  intros Hl.
  apply (fold_left_invariant (def_step m) _ (λ _, True));
    [|by apply Forall_true|done].
  intros a r Ha _.
  destruct (def_step_cases m a r) as [->|(ln & dt & Hk & _ & _ & ->)]; [done|].
  apply Forall_set; [done|]. split; [|done].
  unfold stored_stripped. simpl.
  split; [intros Heq; by rewrite Heq in Hk|].
  repeat split; try apply stripped_strip. done.
Qed.

Lemma color_fold_stored rows l :
  Forall stored_stripped l →
  Forall stored_stripped (fold_left color_step rows l).
Proof.
  intros Hl.
  apply (fold_left_invariant color_step _ (λ _, True));
    [|by apply Forall_true|done].
  intros a r Ha _. unfold color_step.
  destruct (Str.is_empty (color_key r)) eqn:Hk; [done|].
  apply Forall_set; [done|]. unfold stored_stripped. simpl.
  split; [intros Heq; by rewrite Heq in Hk|].
  split; [apply stripped_strip|].
  destruct (Dict.get a (color_key r)) as [info|] eqn:Hg; simpl.
  - apply get_Some_elem in Hg. rewrite Forall_forall in Ha.
    destruct (Ha _ Hg) as (_ & _ & Hn & Hp & Hd & _). simpl in *.
    repeat split; try done. intros c [= <-]. apply stripped_strip.
  - repeat split; try done. intros c [= <-]. apply stripped_strip.
Qed.

(** X4: every key of the table is non-empty, and every text the table
    stores (keys, names, purposes, descriptions, colours) is stripped:
    it has no white space at either end. *)
Theorem table_texts_are_stripped (dfile cfile mfile : string) (fs : files) :
  Forall stored_stripped (layers (LayerReader dfile cfile mfile fs).2).
Proof.
  destruct (LayerReader_spec dfile cfile mfile fs) as (_ & _ & ->).
  apply color_fold_stored.
  eapply Forall_impl; [apply def_fold_stored, Forall_nil_2|].
  by intros item [H _].
Qed.

(** The colour keys of the records, relative to the colour rows [seen]. *)
Lemma color_fold_presence rows seen l :
  (∀ k info, Dict.get l k = Some info →
     k ≠ EmptyString ∧
     ((k ∈ map color_key seen ∧ colored info)
      ∨ ((k ∉ map color_key seen) ∧ uncolored info))) →
  ∀ k info, Dict.get (fold_left color_step rows l) k = Some info →
    k ≠ EmptyString ∧
    ((k ∈ map color_key (seen ++ rows) ∧ colored info)
     ∨ ((k ∉ map color_key (seen ++ rows)) ∧ uncolored info)).
Proof.
  revert seen l. induction rows as [|r rows IH]; intros seen l Hl; simpl.
  { by rewrite app_nil_r. }
  replace (seen ++ r :: rows) with ((seen ++ [r]) ++ rows)
    by (by rewrite <- app_assoc).
  apply IH. clear IH. intros k info Hg.
  rewrite map_app. simpl. unfold color_step in Hg.
  destruct (Str.is_empty (color_key r)) eqn:Hk.
  - destruct (Hl k info Hg) as (Hne & Hcase). split; [done|].
    apply is_empty_true in Hk.
    destruct Hcase as [[Hin Hc]|[Hnot Hu]].
    + left. split; [|done]. apply elem_of_app. by left.
    + right. split; [|done]. intros Hin.
      apply elem_of_app in Hin as [Hin|Hin]; [done|].
      apply list_elem_of_singleton in Hin. congruence.
  - destruct (decide (color_key r = k)) as [<-|Hne].
    + rewrite get_set_eq in Hg. injection Hg as <-.
      split; [intros Heq; by rewrite Heq in Hk|].
      left. split.
      * apply elem_of_app. right. apply list_elem_of_here.
      * unfold colored. simpl. eauto.
    + rewrite get_set_ne in Hg by done.
      destruct (Hl k info Hg) as (Hk0 & Hcase). split; [done|].
      destruct Hcase as [[Hin Hc]|[Hnot Hu]].
      * left. split; [|done]. apply elem_of_app. by left.
      * right. split; [|done]. intros Hin.
        apply elem_of_app in Hin as [Hin|Hin]; [done|].
        apply list_elem_of_singleton in Hin. congruence.
Qed.

(** X5: a record holds the keys colour, bottom and top exactly when a
    colour row names its layer key, and then it holds all three; the
    other records hold none of them.  In particular, without a colour
    file (missing or empty) no record has a colour, a bottom or a top. *)
Theorem color_keys_present_iff_color_row
    (dfile cfile mfile : string) (fs : files) :
  let table := layers (LayerReader dfile cfile mfile fs).2 in
  let ckeys := map color_key (source_items (color_source fs)) in
  (∀ k info, Dict.get table k = Some info →
     (k ∈ ckeys ∧ colored info) ∨ ((k ∉ ckeys) ∧ uncolored info)) ∧
  (source_items (color_source fs) = [] →
   Forall (λ item, uncolored item.2) table).
Proof.
  intros table ckeys. unfold table, ckeys.
  destruct (LayerReader_spec dfile cfile mfile fs) as (_ & _ & ->).
  pose proof (def_fold_stored (loaded_mapping (mapping_source fs))
                (source_items (def_source fs)) [] (Forall_nil_2 _)) as Hdef.
  split.
  - intros k info Hg.
    eapply (color_fold_presence (source_items (color_source fs)) []); [|done].
    intros k0 i0 Hg0. apply get_Some_elem in Hg0.
    rewrite Forall_forall in Hdef.
    destruct (Hdef _ Hg0) as [(Hne & _) Hu]. split; [done|].
    right. split; [apply not_elem_of_nil | done].
  - intros ->. simpl. eapply Forall_impl; [exact Hdef|]. by intros item [_ H].
Qed.

Lemma color_keys_present_iff_color_row_witness :
  Forall (λ item, uncolored item.2)
    (layers (LayerReader "defs.csv" "colors.csv" "map.txt"
               (without_colors Sample.fs)).2) ∧
  ∃ info, Dict.get (layers Sample.reader) "via" = Some info ∧ colored info.
Proof.
  split.
  - apply (color_keys_present_iff_color_row "defs.csv" "colors.csv" "map.txt"
             (without_colors Sample.fs)). reflexivity.
  - destruct (color_keys_present_iff_color_row "defs.csv" "colors.csv"
                "map.txt" Sample.fs) as [H _].
    set (info := {| name := EmptyString; purpose := EmptyString;
                    name_gdsii_num := None; purpose_gdsii_num := None;
                    description := EmptyString; color := Some "blue";
                    bottom := Some (Some 2); top := Some None |}).
    exists info. split; [vm_compute; reflexivity|].
    destruct (H "via" info) as [[_ Hc]|[Hn _]];
      [vm_compute; reflexivity|exact Hc|].
    exfalso. apply Hn. vm_compute.
    apply list_elem_of_further, list_elem_of_here.
Defined.

(* ===================================================================== *)
(** * Further properties: the mapping file                                *)
(* ===================================================================== *)

Lemma read_mapping_app_ok pre rest m :
  Forall (λ l, ∃ o, mapping_entry l = Ok o) pre →
  read_mapping (pre ++ rest) m = read_mapping rest (read_mapping pre m).
Proof.
  intros Hpre. revert m. induction Hpre as [|l pre [o Ho] _ IH]; intros m;
    [done|].
  simpl. rewrite Ho. destruct o as [[k v]|]; apply IH.
Qed.

Lemma read_mapping_get_other lines m k :
  Forall (λ l, ∀ v, mapping_entry l ≠ Ok (Some (k, v))) lines →
  Dict.get (read_mapping lines m) k = Dict.get m k.
Proof.
  intros Hlines. revert m. induction Hlines as [|l lines Hl _ IH]; intros m;
    [done|].
  simpl. destruct (mapping_entry l) as [[[k' v']|]|e] eqn:He; [|done|done].
  rewrite IH. apply get_set_ne. intros ->. by apply (Hl v').
Qed.

Lemma load_layer_mapping_mapping mfile dsrc csrc lines fault st :
  layer_mapping
    (_load_layer_mapping mfile
       {| mapping_source := File lines fault; def_source := dsrc;
          color_source := csrc |} st).2 = read_mapping lines [].
Proof.
  destruct (load_layer_mapping_spec mfile
              {| mapping_source := File lines fault; def_source := dsrc;
                 color_source := csrc |} st) as (_ & _ & ->).
  done.
Qed.

(** X6: the mapping holds, for a pair, the numbers of the last line
    that names it: a well-formed line enters the mapping when the lines
    before it are read without an error, and stays when no later line
    names the same pair. *)
Theorem last_mapping_line_wins
    (mfile : string) (dsrc csrc : source row) (pre post : list string)
    (line : string) (fault : option exn) (st : state)
    (k : string * string) (v : Z * Z) :
  mapping_entry line = Ok (Some (k, v)) →
  Forall (λ l, ∃ o, mapping_entry l = Ok o) pre →
  Forall (λ l, ∀ v', mapping_entry l ≠ Ok (Some (k, v'))) post →
  Dict.get
    (layer_mapping
       (_load_layer_mapping mfile
          {| mapping_source := File (pre ++ line :: post) fault;
             def_source := dsrc; color_source := csrc |} st).2) k = Some v.
Proof.
  intros Hline Hpre Hpost. rewrite load_layer_mapping_mapping.
  rewrite (read_mapping_app_ok _ _ _ Hpre). simpl. rewrite Hline.
  rewrite (read_mapping_get_other _ _ _ Hpost). apply get_set_eq.
Qed.

Lemma last_mapping_line_wins_witness :
  Dict.get
    (layer_mapping
       (_load_layer_mapping "map.txt"
          {| mapping_source :=
               File ["M1 drawing 10 0"; "M1 drawing 12 3"; "M2 pin 11 5"] None;
             def_source := NotFound; color_source := NotFound |}
          empty_state).2) ("M1", "drawing") = Some (12, 3).
Proof.
  apply (last_mapping_line_wins "map.txt" NotFound NotFound
           ["M1 drawing 10 0"] ["M2 pin 11 5"] "M1 drawing 12 3").
  - vm_compute. reflexivity.
  - repeat constructor. eexists. vm_compute. reflexivity.
  - repeat constructor. intros v'. vm_compute. discriminate.
Defined.

(** X7: a line with four or more fields whose third or fourth field is
    not an integer ends the loading of the mapping file.  The loader
    still returns normally; the mapping is the one loaded from the lines
    before it, so every later line is lost; and when the lines before it
    were read without an error, the only thing printed after them is one
    error message for the file. *)
Theorem bad_number_ends_mapping_load
    (mfile : string) (dsrc csrc : source row) (pre post : list string)
    (line : string) (fault : option exn) (st : state)
    (nm pu p2 p3 : string) (rest : list string) :
  let load lines :=
    _load_layer_mapping mfile
      {| mapping_source := File lines fault; def_source := dsrc;
         color_source := csrc |} st in
  ignorable line = false →
  Str.split (Str.strip line) = nm :: pu :: p2 :: p3 :: rest →
  Num.py_int p2 = Raise ValueError ∨ Num.py_int p3 = Raise ValueError →
  (load (pre ++ line :: post)).1 = Ok tt ∧
  layer_mapping (load (pre ++ line :: post)).2 = layer_mapping (load pre).2 ∧
  (∀ st1,
     for_each (enumerate 1 pre) mapping_line (put_layer_mapping [] st).2
       = (Ok tt, st1) →
     (load (pre ++ line :: post)).2 =
       {| layer_mapping := layer_mapping st1; layers := layers st1;
          stdout := stdout st1 ++ [Error_reading mfile ValueError] |}).
Proof.
  intros load Hcom Hsplit Hbad.
  assert (mapping_entry line = Raise ValueError) as Hentry.
  { unfold mapping_entry. unfold ignorable in Hcom. rewrite Hcom, Hsplit.
    destruct Hbad as [-> | Hb]; [done|].
    destruct (Num.py_int p2) as [x|e] eqn:H2; simpl.
    - by rewrite Hb.
    - unfold Num.py_int in H2. repeat case_match; congruence. }
  unfold load. split; [apply load_layer_mapping_spec|]. split.
  - rewrite !load_layer_mapping_mapping.
    by apply (read_mapping_stops pre line post [] ValueError).
  - intros st1 Hpre.
    unfold _load_layer_mapping, mbind, M_bind, bind. cbn [mapping_source].
    destruct (put_layer_mapping [] st) as [[[]|e0] st0] eqn:Hput;
      [|by unfold put_layer_mapping in Hput].
    cbn [snd] in Hpre. rewrite enumerate_app.
    rewrite (try_for_each_in_app _ _ _ _ _ _ _ Hpre).
    unfold try_except, for_each_in, mbind, M_bind, bind.
    change (enumerate (1 + Z.of_nat (length pre)) (line :: post))
      with ((1 + Z.of_nat (length pre), line)
            :: enumerate (1 + Z.of_nat (length pre) + 1) post).
    rewrite for_each_cons.
    destruct (mapping_line_mapping (1 + Z.of_nat (length pre)) line st1)
      as [Hl Hm]. rewrite Hentry in Hm. destruct Hm as [Hr Hm].
    assert (stdout (mapping_line (1 + Z.of_nat (length pre), line) st1).2
            = stdout st1) as Hout.
    { destruct st1 as [m1 l1 o1]. unfold mapping_line.
      unfold ignorable in Hcom. rewrite Hcom, Hsplit.
      unfold mbind at 1, M_bind, bind, eval; simpl.
      destruct (Num.py_int p2) as [x|e]; simpl; [|done].
      destruct (Num.py_int p3) as [y|e]; simpl; done. }
    destruct (mapping_line (1 + Z.of_nat (length pre), line) st1)
      as [[[]|e] st2]; simpl in *; [done|].
    injection Hr as ->. unfold print. simpl. by rewrite Hl, Hm, Hout.
Qed.

Lemma bad_number_ends_mapping_load_witness :
  (_load_layer_mapping "map.txt"
     {| mapping_source := File ["M1 drawing 10 0"; "A B x 1"; "M2 pin 11 5"] None;
        def_source := NotFound; color_source := NotFound |} empty_state).2 =
    {| layer_mapping := [(("M1", "drawing"), (10, 0))]; layers := [];
       stdout := [Error_reading "map.txt" ValueError] |}.
Proof.
  destruct (bad_number_ends_mapping_load "map.txt" NotFound NotFound
              ["M1 drawing 10 0"] ["M2 pin 11 5"] "A B x 1" None empty_state
              "A" "B" "x" "1" []) as (_ & _ & H).
  - vm_compute. reflexivity.
  - vm_compute. reflexivity.
  - left. vm_compute. reflexivity.
  - pose proof (H _ ltac:(vm_compute; reflexivity)) as H'.
    simpl app in H'. rewrite H'. reflexivity.
Defined.



Lemma isdigit_not_space c : Str.isdigit c = true → Str.isspace c = false.
Proof. destruct c as [[] [] [] [] [] [] [] []]; done. Qed.

Lemma no_space_digits s : Str.all_digits s = true → no_space s = true.
Proof.
  induction s as [|c s IH]; simpl; [done|].
  intros [Hc Hs]%andb_true_iff. by rewrite (isdigit_not_space c Hc), IH.
Qed.

Lemma is_word_fmt_d n : is_word (Num.fmt_d n) = true.
Proof.
  unfold Num.fmt_d, is_word. destruct n as [|p|p]; [done| |]; simpl.
  - pose proof (DecimalPos.Unsigned.to_uint_nonnil p) as Hn.
    pose proof (string_of_uint_digits (Pos.to_uint p)) as Hd.
    pose proof (string_of_uint_nonempty _ Hn) as He.
    replace (NilZero.string_of_uint (Pos.to_uint p))
      with (NilEmpty.string_of_uint (Pos.to_uint p))
      by (by destruct (Pos.to_uint p)).
    by rewrite He, no_space_digits.
  - pose proof (DecimalPos.Unsigned.to_uint_nonnil p) as Hn.
    pose proof (string_of_uint_digits (Pos.to_uint p)) as Hd.
    replace (NilZero.string_of_uint (Pos.to_uint p))
      with (NilEmpty.string_of_uint (Pos.to_uint p))
      by (by destruct (Pos.to_uint p)).
    by rewrite no_space_digits.
Qed.

Lemma rstrip_no_space s : no_space s = true → Str.rstrip_by Str.isspace s = s.
Proof.
  induction s as [|c s IH]; simpl; [done|].
  intros [Hc Hs]%andb_true_iff. apply negb_true_iff in Hc.
  by rewrite Hc, IH.
Qed.

Lemma append_nonempty_r a t :
  Str.is_empty t = false → Str.is_empty (a +:+ t) = false.
Proof. intros Ht. by destruct a. Qed.

Lemma rstrip_append a t :
  Str.rstrip_by Str.isspace t = t → Str.is_empty t = false →
  Str.rstrip_by Str.isspace (a +:+ t) = a +:+ t.
Proof.
  intros Ht He. induction a as [|c a IH]; [done|].
  change (String c a +:+ t) with (String c (a +:+ t)).
  simpl. rewrite IH.
  pose proof (append_nonempty_r a t He) as Hne.
  destruct (a +:+ t); simpl in Hne; [discriminate|].
  simpl. by rewrite andb_false_r.
Qed.

Lemma split_word w : is_word w = true → Str.split w = [w].
Proof.
  unfold is_word. induction w as [|c w IH]; [done|]. simpl.
  intros [Hc Hw]%andb_true_iff. apply negb_true_iff in Hc. rewrite Hc.
  destruct w as [|c' w']; [done|].
  simpl in Hw. apply andb_true_iff in Hw as [Hc' Hw'].
  apply negb_true_iff in Hc'. rewrite Hc'.
  rewrite IH; [done|]. simpl. by rewrite Hc', Hw'.
Qed.

Lemma split_word_space w rest :
  is_word w = true → Str.split (w +:+ String " " rest) = w :: Str.split rest.
Proof.
  unfold is_word. induction w as [|c w IH]; [done|].
  simpl. intros [Hc Hw]%andb_true_iff. apply negb_true_iff in Hc. rewrite Hc.
  destruct w as [|c' w']; [done|].
  simpl in Hw. apply andb_true_iff in Hw as [Hc' Hw'].
  apply negb_true_iff in Hc'.
  change (String c' w' +:+ String " " rest)
    with (String c' (w' +:+ String " " rest)) in *.
  cbv iota. rewrite Hc'.
  rewrite IH; [done|]. simpl. by rewrite Hc', Hw'.
Qed.

(** X9: a line written in the documented format, [name purpose layer
    datatype] with single spaces, is read back as that entry, for every
    name and purpose that are words (non-empty, free of white space, the
    name not starting with a hash sign) and every two integers. *)
Theorem mapping_line_round_trip (name purpose : string) (L D : Z) :
  is_word name = true → is_word purpose = true →
  Str.startswith "#" name = false →
  mapping_entry (mapping_text name purpose L D)
    = Ok (Some ((name, purpose), (L, D))).
Proof.
  intros Hn Hp Hhash. unfold mapping_entry, mapping_text.
  pose proof (is_word_fmt_d L) as HL. pose proof (is_word_fmt_d D) as HD.
  assert (∀ w, is_word w = true →
            Str.is_empty w = false ∧ Str.rstrip_by Str.isspace w = w) as Hword.
  { intros w [Hw1 Hw2]%andb_true_iff. apply negb_true_iff in Hw1.
    split; [done|]. by apply rstrip_no_space. }
  set (t3 := Num.fmt_d D).
  set (t2 := Num.fmt_d L +:+ " " +:+ t3).
  set (t1 := purpose +:+ " " +:+ t2).
  assert (Str.is_empty t3 = false ∧ Str.rstrip_by Str.isspace t3 = t3)
    as [He3 Hr3] by (by apply Hword).
  assert (Str.strip (name +:+ " " +:+ t1) = name +:+ " " +:+ t1) as ->.
  { unfold Str.strip, Str.strip_by.
    assert (Str.rstrip_by Str.isspace (name +:+ " " +:+ t1)
            = name +:+ " " +:+ t1) as Hr.
    { apply rstrip_append; [|reflexivity].
      apply (rstrip_append " "); [|apply append_nonempty_r; reflexivity].
      unfold t1. apply rstrip_append; [|reflexivity].
      apply (rstrip_append " "); [|apply append_nonempty_r; reflexivity].
      unfold t2. apply rstrip_append; [|reflexivity].
      by apply (rstrip_append " "). }
    apply andb_true_iff in Hn as [Hn1 Hn2].
    destruct name as [|c nm]; [done|]. simpl in Hn2.
    apply andb_true_iff in Hn2 as [Hc _]. apply negb_true_iff in Hc.
    change (String c nm +:+ " " +:+ t1)
      with (String c (nm +:+ " " +:+ t1)) in *.
    cbn [Str.lstrip_by]. rewrite Hc. exact Hr. }
  assert (Str.is_empty (name +:+ " " +:+ t1) = false) as ->.
  { apply andb_true_iff in Hn as [Hn1 _]. by destruct name. }
  assert (Str.startswith "#" (name +:+ " " +:+ t1) = false) as ->.
  { apply andb_true_iff in Hn as [Hn1 _]. by destruct name. }
  simpl orb. cbv iota.
  change (name +:+ " " +:+ t1) with (name +:+ String " " t1).
  rewrite (split_word_space name t1 Hn). unfold t1.
  change (purpose +:+ " " +:+ t2) with (purpose +:+ String " " t2).
  rewrite (split_word_space purpose t2 Hp). unfold t2.
  change (Num.fmt_d L +:+ " " +:+ t3) with (Num.fmt_d L +:+ String " " t3).
  rewrite (split_word_space _ t3 HL). unfold t3.
  rewrite (split_word _ HD).
  rewrite !py_int_fmt_d. done.
Qed.

Lemma mapping_line_round_trip_witness :
  mapping_entry "M1 drawing 10 -3" = Ok (Some (("M1", "drawing"), (10, -3))).
Proof.
  apply (mapping_line_round_trip "M1" "drawing" 10 (-3)); reflexivity.
Defined.

(* ===================================================================== *)
(** * Further properties: the address strings                             *)
(* ===================================================================== *)

Lemma keys_get_Some {V} (d : pydict string V) k :
  k ∈ Dict.keys d → ∃ v, Dict.get d k = Some v.
Proof.
  intros Hin. destruct (Dict.get d k) as [v|] eqn:Hg; [by exists v|].
  by apply get_None_keys in Hg.
Qed.

(** The loop of [gen_layer2index] reads the keys and the numbers only. *)
Lemma gen_layer2index_loop_numbers items items' acc :
  map numbers_of items = map numbers_of items' →
  gen_layer2index_loop items acc = gen_layer2index_loop items' acc.
Proof.
  revert items' acc.
  induction items as [|[k v] items IH]; intros [|[k' v'] items'] acc Heq;
    simpl in *; try done.
  injection Heq as -> -> -> Hrest.
  destruct (fmt_address (name_gdsii_num v') (purpose_gdsii_num v')) as [s|e];
    simpl; [|done].
  by apply IH.
Qed.

Lemma gen_layer2index_loop_ok items acc :
  NoDup (Dict.keys acc ++ Dict.keys items) →
  Forall (λ item, numbered item.2) items →
  ∃ d,
    gen_layer2index_loop items acc = Ok d ∧
    Dict.keys d = Dict.keys acc ++ Dict.keys items ∧
    (∀ k s, Dict.get acc k = Some s → Dict.get d k = Some s) ∧
    (∀ k v, Dict.get items k = Some v →
       ∃ s, fmt_address (name_gdsii_num v) (purpose_gdsii_num v) = Ok s ∧
            Dict.get d k = Some s).
Proof.
  revert acc. induction items as [|[k0 v0] items IH]; intros acc Hnd Hnum.
  - exists acc. simpl. rewrite app_nil_r. done.
  - inversion Hnum as [|? ? [[a Ha] [b Hb]] Hnum']; subst.
    simpl in Ha, Hb. simpl. rewrite Ha, Hb. simpl.
    set (s0 := Num.fmt_d a +:+ "/" +:+ Num.fmt_d b).
    assert (Dict.get acc k0 = None) as Hg0.
    { apply get_None_keys. apply NoDup_app in Hnd as (_ & Hdis & _).
      intros Hin. apply (Hdis _ Hin). apply list_elem_of_here. }
    destruct (IH (Dict.set k0 s0 acc)) as (d & Hrun & Hkeys & Hacc & Hitems).
    { rewrite (set_absent _ _ _ Hg0). unfold Dict.keys in *.
      rewrite map_app, <- app_assoc. done. }
    { done. }
    exists d. split; [done|]. split; [|split].
    + rewrite Hkeys, (set_absent _ _ _ Hg0). unfold Dict.keys.
      rewrite map_app, <- app_assoc. done.
    + intros k s Hg. apply Hacc. rewrite get_set_ne; [done|].
      intros ->. congruence.
    + intros k v. destruct (decide (k0 = k)) as [->|Hne].
      * intros [= <-]. exists s0. rewrite Ha, Hb. split; [done|].
        apply Hacc, get_set_eq.
      * intros Hg. by apply Hitems.
Qed.

(** X10: on a table in which every record has both GDSII numbers,
    [gen_layer2index] returns, its dictionary has the keys of the table in
    the same order, and looking a key up in it gives what
    [get_klayoutlayer_index] gives for that key, also for a key the table
    lacks ([KeyError] on both sides). *)
Theorem gen_layer2index_agrees_with_lookup (self : state) :
  NoDup (Dict.keys (layers self)) →
  Forall (λ item, numbered item.2) (layers self) →
  ∃ d,
    gen_layer2index self = Ok d ∧
    Dict.keys d = Dict.keys (layers self) ∧
    ∀ k, getitem d k = get_klayoutlayer_index self k.
Proof.
  intros Hnd Hnum.
  destruct (gen_layer2index_loop_ok (layers self) [] Hnd Hnum)
    as (d & Hrun & Hkeys & _ & Hitems).
  exists d. split; [done|]. split; [done|].
  intros k. unfold get_klayoutlayer_index, getitem.
  destruct (Dict.get (layers self) k) as [v|] eqn:Hg; simpl.
  - destruct (Hitems k v Hg) as (s & Hs & ->). by rewrite Hs.
  - apply get_None_keys in Hg. simpl in Hkeys. rewrite <- Hkeys in Hg.
    apply get_None_keys in Hg. by rewrite Hg.
Qed.

Lemma gen_layer2index_agrees_with_lookup_witness :
  let plain :=
    (LayerReader "defs.csv" "colors.csv" "map.txt"
       (without_colors Sample.fs)).2 in
  ∃ d, gen_layer2index plain = Ok d ∧ getitem d "met1" = Ok "10/0" ∧
       getitem d "via" = Raise KeyError.
Proof.
  intros plain.
  destruct (gen_layer2index_agrees_with_lookup plain) as (d & Hrun & _ & Hd).
  - vm_compute. apply NoDup_singleton.
  - vm_compute. repeat constructor; eauto.
  - exists d. split; [exact Hrun|]. rewrite !Hd. split; reflexivity.
Defined.

Lemma numbers_of_set_color l k info c b t :
  Dict.get l k = Some info →
  map numbers_of (Dict.set k (set_color c b t info) l) = map numbers_of l.
Proof.
  induction l as [|[k0 v0] l IH]; simpl; [done|].
  destruct (decide (k0 = k)) as [->|Hne].
  - by intros [= ->].
  - intros Hg. simpl. by rewrite IH.
Qed.

Lemma keys_numbers_of l : Dict.keys l = map (λ x, x.1.1) (map numbers_of l).
Proof. unfold Dict.keys. rewrite map_map. done. Qed.

(** Colour rows of keys the table has do not touch keys or numbers. *)
Lemma color_fold_numbers rows l :
  Forall (λ r, color_key r = EmptyString ∨ color_key r ∈ Dict.keys l) rows →
  map numbers_of (fold_left color_step rows l) = map numbers_of l.
Proof.
  revert l. induction rows as [|r rows IH]; intros l Hrows; simpl; [done|].
  inversion Hrows as [|? ? Hr Hrows']; subst.
  assert (map numbers_of (color_step l r) = map numbers_of l) as Hstep.
  { unfold color_step. destruct (Str.is_empty (color_key r)) eqn:He; [done|].
    destruct Hr as [Hr|Hr]; [by rewrite Hr in He|].
    destruct (keys_get_Some _ _ Hr) as (info & Hg). rewrite Hg. simpl.
    by apply numbers_of_set_color. }
  rewrite IH, Hstep; [done|].
  rewrite keys_numbers_of, Hstep, <- keys_numbers_of. done.
Qed.

(** A record of a key the starting table lacks has no GDSII number. *)
Lemma color_fold_unnumbered (l0 : pydict string LayerInfo) rows l :
  (∀ k info, Dict.get l k = Some info → k ∉ Dict.keys l0 →
     name_gdsii_num info = None) →
  ∀ k info, Dict.get (fold_left color_step rows l) k = Some info →
    k ∉ Dict.keys l0 → name_gdsii_num info = None.
Proof.
  revert l. induction rows as [|r rows IH]; intros l Hl; simpl; [done|].
  apply IH. intros k info Hg Hk. unfold color_step in Hg.
  destruct (Str.is_empty (color_key r)); [by eapply Hl|].
  destruct (decide (color_key r = k)) as [Heq|Hne].
  - rewrite Heq, get_set_eq in Hg. injection Hg as <-. simpl.
    destruct (Dict.get l k) as [i0|] eqn:Hg0; simpl; [by eapply Hl | done].
  - rewrite get_set_ne in Hg by done. by eapply Hl.
Qed.

Lemma color_fold_key_present rows l r :
  r ∈ rows → color_key r ≠ EmptyString →
  color_key r ∈ Dict.keys (fold_left color_step rows l).
Proof.
  revert l. induction rows as [|r0 rows IH]; intros l Hin Hne.
  { by apply elem_of_nil in Hin. }
  simpl. apply elem_of_cons in Hin as [->|Hin]; [|by apply IH].
  destruct (color_fold_keys_app rows (color_step l r0)) as (extra & -> & _).
  apply elem_of_app. left. unfold color_step.
  rewrite (is_empty_false _ Hne), keys_set.
  destruct (decide (color_key r0 ∈ Dict.keys l)); [done|].
  apply elem_of_app. right. apply list_elem_of_here.
Qed.

Lemma LayerReader_plain_numbered dfile cfile mfile fs :
  let plain := layers (LayerReader dfile cfile mfile (without_colors fs)).2 in
  NoDup (Dict.keys plain) ∧ Forall (λ item, numbered item.2) plain.
Proof.
  intros plain. unfold plain.
  destruct (LayerReader_spec dfile cfile mfile (without_colors fs))
    as (_ & _ & ->).
  simpl. split.
  - apply def_fold_NoDup, NoDup_nil_2.
  - apply def_fold_numbered, Forall_nil_2.
Qed.

(** X11: the address dictionary of a reader exists exactly when the
    colour file names no layer key that the definitions lack.  If every
    colour row has an empty key or the key of a record made by a
    definition row, [gen_layer2index] returns the same dictionary as for
    the reader built without the colour file; if one colour row has
    another key, [gen_layer2index] raises [TypeError]. *)
Theorem reader_addresses_need_defined_color_keys
    (dfile cfile mfile : string) (fs : files) :
  let self := (LayerReader dfile cfile mfile fs).2 in
  let plain := (LayerReader dfile cfile mfile (without_colors fs)).2 in
  let crows := source_items (color_source fs) in
  (Forall (λ r, color_key r = EmptyString
                ∨ color_key r ∈ Dict.keys (layers plain)) crows →
   ∃ d, gen_layer2index self = Ok d ∧ gen_layer2index plain = Ok d ∧
        Dict.keys d = Dict.keys (layers plain)) ∧
  (Exists (λ r, color_key r ≠ EmptyString
                ∧ color_key r ∉ Dict.keys (layers plain)) crows →
   gen_layer2index self = Raise TypeError).
Proof.
  intros self plain crows.
  destruct (LayerReader_plain_numbered dfile cfile mfile fs) as [Hnd Hnum].
  fold plain in Hnd, Hnum.
  assert (layers self = fold_left color_step crows (layers plain)) as Hself
    by apply LayerReader_layers_colors.
  split.
  - intros Hrows.
    destruct (gen_layer2index_loop_ok (layers plain) [] Hnd Hnum)
      as (d & Hrun & Hkeys & _).
    exists d. split; [|done]. unfold gen_layer2index. rewrite Hself, <- Hrun.
    apply gen_layer2index_loop_numbers. by apply color_fold_numbers.
  - intros (r & Hin & Hne & Hnot)%Exists_exists.
    pose proof (color_fold_key_present crows (layers plain) r Hin Hne) as Hk.
    rewrite <- Hself in Hk.
    destruct (keys_get_Some _ _ Hk) as (info & Hg).
    unfold gen_layer2index. apply gen_layer2index_loop_unnumbered.
    exists (color_key r), info. split; [by apply get_Some_elem|]. left.
    rewrite Hself in Hg.
    eapply (color_fold_unnumbered (layers plain)); [|exact Hg|exact Hnot].
    intros k i Hgk Hnk. by apply get_Some_keys in Hgk.
Qed.

Lemma reader_addresses_need_defined_color_keys_witness :
  gen_layer2index Sample.reader = Raise TypeError ∧
  ∃ d,
    gen_layer2index
      (LayerReader "defs.csv" "colors.csv" "map.txt"
         {| mapping_source := File Sample.mapping_lines None;
            def_source := File [Sample.met1; Sample.poly] None;
            color_source := File [Sample.met1_color] None |}).2 = Ok d ∧
    Dict.keys d = ["met1"].
Proof.
  split.
  - apply (reader_addresses_need_defined_color_keys "defs.csv" "colors.csv"
             "map.txt" Sample.fs).
    apply Exists_cons_tl, Exists_cons_hd. split.
    + vm_compute. discriminate.
    + vm_compute. intros H. apply list_elem_of_singleton in H. discriminate H.
  - destruct (reader_addresses_need_defined_color_keys "defs.csv" "colors.csv"
                "map.txt"
                {| mapping_source := File Sample.mapping_lines None;
                   def_source := File [Sample.met1; Sample.poly] None;
                   color_source := File [Sample.met1_color] None |})
      as [H _].
    destruct H as (d & Hrun & _ & Hkeys).
    + constructor; [|constructor]. right. vm_compute.
      apply list_elem_of_here.
    + exists d. split; [exact Hrun|]. rewrite Hkeys. vm_compute. reflexivity.
Defined.

(* ===================================================================== *)
(** * Further properties: bottom and top written as integers              *)
(* ===================================================================== *)

Lemma append_empty_r s : s +:+ EmptyString = s.
Proof.
  induction s as [|c s IH]; [done|].
  change (String c s +:+ EmptyString) with (String c (s +:+ EmptyString)).
  by rewrite IH.
Qed.

Lemma span_digits_all s :
  Str.all_digits s = true → Float.span_digits s = (s, EmptyString).
Proof.
  induction s as [|c s IH]; simpl; [done|].
  intros [Hc Hs]%andb_true_iff. by rewrite Hc, (IH Hs).
Qed.

Lemma parse_decimal_digits d :
  d ≠ Decimal.Nil →
  Float.parse_decimal (NilEmpty.string_of_uint d) = Some (Z.of_uint d, 0).
Proof.
  intros Hd. unfold Float.parse_decimal.
  rewrite (span_digits_all _ (string_of_uint_digits d)). cbv beta iota.
  rewrite append_empty_r, (digits_value_uint d Hd). done.
Qed.

Lemma py_float_digits d :
  d ≠ Decimal.Nil →
  Float.py_float (NilEmpty.string_of_uint d)
    = Ok (Float.round false (Z.of_uint d) 0).
Proof.
  intros Hd. unfold Float.py_float.
  rewrite (strip_digits _ (string_of_uint_digits d)).
  rewrite drop_underscores_digits; [|apply string_of_uint_digits|done].
  pose proof (string_of_uint_digits d) as Hall.
  pose proof (parse_decimal_digits d Hd) as Hparse.
  destruct (NilEmpty.string_of_uint d) as [|c s] eqn:Hs.
  { by destruct d. }
  simpl in Hall. apply andb_true_iff in Hall as [Hc Hs'].
  destruct (isdigit_facts c Hc) as (_ & _ & Hm & Hp).
  unfold Num.split_sign. rewrite Hm, Hp, Hparse.
  unfold Float.of_decimal. simpl. by rewrite Z.mul_1_r.
Qed.

Lemma py_float_neg_digits d :
  d ≠ Decimal.Nil →
  Float.py_float (String "-" (NilEmpty.string_of_uint d))
    = Ok (Float.round true (Z.of_uint d) 0).
Proof.
  intros Hd. unfold Float.py_float, Num.strip_numeral, Str.strip_by.
  cbn [Str.lstrip_by]. change (Num.isspace_numeral "-") with false. cbn iota.
  cbn [Str.rstrip_by]. change (Num.isspace_numeral "-") with false.
  rewrite (rstrip_digits _ (string_of_uint_digits d)). simpl.
  rewrite drop_underscores_digits; [|apply string_of_uint_digits|done].
  simpl. rewrite (parse_decimal_digits d Hd).
  unfold Float.of_decimal. simpl. by rewrite Z.mul_1_r.
Qed.

(** [float] of the text ["%d"] writes for [n] is the binary64 value
    nearest to [n]. *)
Lemma py_float_fmt_d n :
  Float.py_float (Num.fmt_d n) = Ok (Float.round (n <? 0) (Z.abs n) 0).
Proof.
  unfold Num.fmt_d. destruct n as [|p|p]; [done| |]; simpl.
  - pose proof (DecimalPos.Unsigned.to_uint_nonnil p) as Hn.
    replace (NilZero.string_of_uint (Pos.to_uint p))
      with (NilEmpty.string_of_uint (Pos.to_uint p))
      by (by destruct (Pos.to_uint p)).
    by rewrite py_float_digits, of_uint_to_uint.
  - pose proof (DecimalPos.Unsigned.to_uint_nonnil p) as Hn.
    replace (NilZero.string_of_uint (Pos.to_uint p))
      with (NilEmpty.string_of_uint (Pos.to_uint p))
      by (by destruct (Pos.to_uint p)).
    by rewrite py_float_neg_digits, of_uint_to_uint.
Qed.

(** An integer below [2^53] is a binary64 value: rounding and truncating
    give it back. *)
Lemma to_int_round_exact neg m :
  0 < m < 2 ^ 53 →
  Float.to_int (Float.round neg m 0) = Ok (if neg then - m else m).
Proof.
  intros [Hm0 Hm1]. unfold Float.round.
  assert ((m <=? 0) = false) as -> by (apply Z.leb_gt; lia).
  set (E := Z.max (Z.log2 m + 1 + 0 - Float.prec) Float.emin).
  assert (Z.log2 m < 53) as Hlog by (apply Z.log2_lt_pow2; lia).
  pose proof (Z.log2_nonneg m) as Hlog0.
  assert (Float.emin ≤ E ≤ 0) as [HE0 HE1]
    by (unfold E, Float.prec, Float.emin; lia).
  assert ((E <=? 0) = true) as -> by (apply Z.leb_le; lia).
  assert ((Float.emax <? E) = false) as ->
    by (apply Z.ltb_ge; unfold Float.emax; lia).
  clearbody E. unfold Float.to_int.
  assert ((if 0 <=? E then m * 2 ^ (0 - E) * 2 ^ E
           else m * 2 ^ (0 - E) / 2 ^ (- E)) = m) as ->; [|done].
  destruct (0 <=? E) eqn:HE.
  - apply Z.leb_le in HE. assert (E = 0) as -> by lia.
    change (m * 1 * 1 = m). lia.
  - rewrite Z.sub_0_l. apply Z.div_mul.
    apply Z.pow_nonzero; [lia|]. unfold Float.emin in *. lia.
Qed.

(** X12: a bottom or top written in the colour file as a plain integer
    [n] (the text ["%d"] gives) with [|n| < 2^53] is stored as [n]: the
    detour through [float] loses nothing. *)
Theorem coerce_integer_text (n : Z) :
  Z.abs n < 2 ^ 53 → coerce (Some (Num.fmt_d n)) = Some n.
Proof.
  intros Hn. unfold coerce.
  pose proof (is_word_fmt_d n) as [He _]%andb_true_iff.
  apply negb_true_iff in He. rewrite He, py_float_fmt_d.
  destruct (decide (n = 0)) as [->|Hne]; [done|].
  cbn [mbind result_mbind result_bind].
  rewrite to_int_round_exact by lia.
  f_equal. destruct (n <? 0) eqn:Hs; [apply Z.ltb_lt in Hs|apply Z.ltb_ge in Hs];
    lia.
Qed.

Lemma coerce_integer_text_witness :
  coerce (Some "-250") = Some (-250).
Proof. apply (coerce_integer_text (-250)). reflexivity. Defined.

(* ===================================================================== *)
(** * Further properties: the loop of [model_main.py]                     *)
(* ===================================================================== *)

(** [float(n)] does not overflow below [2^1023]. *)
Lemma round_in_range neg m s :
  0 ≤ m < 2 ^ 1023 → Float.round neg m 0 ≠ Float.Inf s.
Proof.
  intros [Hm0 Hm1]. unfold Float.round.
  destruct (m <=? 0) eqn:H0; [done|]. apply Z.leb_gt in H0.
  assert (Z.log2 m < 1023) as Hlog by (apply Z.log2_lt_pow2; lia).
  pose proof (Z.log2_nonneg m) as Hlog0.
  set (E := Z.max (Z.log2 m + 1 + 0 - Float.prec) Float.emin).
  assert (E ≤ 970) as HE by (unfold E, Float.prec, Float.emin; lia).
  clearbody E.
  assert ((Float.emax <? E) = false) as ->
    by (apply Z.ltb_ge; unfold Float.emax; lia).
  assert ((Float.emax <? E + 1) = false) as ->
    by (apply Z.ltb_ge; unfold Float.emax; lia).
  repeat case_match; done.
Qed.

Lemma of_int_in_range n :
  Z.abs n < 2 ^ 1023 → ∃ f, Float.of_int n = Ok f.
Proof.
  intros Hn. unfold Float.of_int.
  pose proof (round_in_range (n <? 0) (Z.abs n)) as Hr.
  destruct (Float.round (n <? 0) (Z.abs n) 0) as [| |s|] eqn:Hround; eauto.
  exfalso. apply (Hr s); [lia | done].
Qed.

(** The height the loop stores is never zero. *)
Lemma extent_height_nonzero info z0 h :
  extent info = Ok (z0, h) → Float.eqb h f0 = false.
Proof.
  unfold extent.
  destruct (get_bottom info) as [b|]; [|by intros [= <- <-]].
  destruct (get_top info) as [t|]; [|by intros [= <- <-]].
  destruct (Float.of_int b) as [fb|]; simpl; [|done].
  destruct (Float.of_int (t - b)) as [fd|]; simpl; [|done].
  intros [= <- <-].
  destruct (Float.eqb (Float.mul fd z_scale) f0) eqn:He; done.
Qed.

Lemma extent_in_range info :
  heights_in_range info →
  ∃ z0 h, extent info = Ok (z0, h) ∧ Float.eqb h f0 = false.
Proof.
  intros Hr.
  assert (∃ zh, extent info = Ok zh) as [[z0 h] Hext].
  { unfold extent.
    destruct (get_bottom info) as [b|] eqn:Hb; [|by eexists].
    destruct (get_top info) as [t|] eqn:Ht; [|by eexists].
    destruct (Hr b t Hb Ht) as [H1 H2].
    destruct (of_int_in_range b H1) as [fb ->].
    destruct (of_int_in_range (t - b) H2) as [fd ->]. simpl. by eexists. }
  exists z0, h. split; [done|]. by eapply extent_height_nonzero.
Qed.

Lemma derive_loop_ok items acc :
  NoDup (Dict.keys (bottom_top acc) ++ Dict.keys items) →
  Dict.keys (layer_colors acc) = Dict.keys (bottom_top acc) →
  Forall (λ item, ∃ zh, extent item.2 = Ok zh) items →
  ∃ d,
    derive_loop items acc = Ok d ∧
    Dict.keys (bottom_top d) = Dict.keys (bottom_top acc) ++ Dict.keys items ∧
    Dict.keys (layer_colors d) = Dict.keys (bottom_top d) ∧
    (∀ k x, Dict.get (bottom_top acc) k = Some x →
       Dict.get (bottom_top d) k = Some x) ∧
    (∀ k x, Dict.get (layer_colors acc) k = Some x →
       Dict.get (layer_colors d) k = Some x) ∧
    (∀ k v, Dict.get items k = Some v →
       Dict.get (layer_colors d) k = Some (color v) ∧
       ∃ z0 h, extent v = Ok (z0, h) ∧ Float.eqb h f0 = false ∧
               Dict.get (bottom_top d) k = Some (z0, h)).
Proof.
  revert acc. induction items as [|[k0 v0] items IH]; intros acc Hnd Hkc Hr.
  - exists acc. simpl. rewrite app_nil_r. done.
  - inversion Hr as [|? ? Hr0 Hr']; subst. simpl in Hr0.
    destruct Hr0 as [[z0 h] Hext].
    pose proof (extent_height_nonzero _ _ _ Hext) as Hh.
    simpl. rewrite Hext. simpl.
    match goal with |- context [derive_loop items ?a] => set (acc' := a) end.
    assert (Dict.get (bottom_top acc) k0 = None) as Hg0.
    { apply get_None_keys. apply NoDup_app in Hnd as (_ & Hdis & _).
      intros Hin. apply (Hdis _ Hin). apply list_elem_of_here. }
    assert (Dict.get (layer_colors acc) k0 = None) as Hc0.
    { apply get_None_keys. rewrite Hkc. by apply get_None_keys. }
    assert (Dict.keys (bottom_top acc') = Dict.keys (bottom_top acc) ++ [k0])
      as Hk1.
    { unfold acc'. simpl. rewrite (set_absent _ _ _ Hg0). unfold Dict.keys.
      by rewrite map_app. }
    assert (Dict.keys (layer_colors acc') = Dict.keys (bottom_top acc'))
      as Hk2.
    { rewrite Hk1. unfold acc'. simpl. rewrite (set_absent _ _ _ Hc0).
      unfold Dict.keys in *. by rewrite map_app, Hkc. }
    destruct (IH acc') as (d & Hrun & Hkeys & Hkc' & Hbt & Hlc & Hitems).
    { rewrite Hk1, <- app_assoc. done. }
    { done. }
    { done. }
    exists d. split; [done|]. split; [|split; [done|split; [|split]]].
    + rewrite Hkeys, Hk1, <- app_assoc. done.
    + intros k x Hg. apply Hbt. unfold acc'. simpl.
      rewrite get_set_ne; [done|]. intros ->. congruence.
    + intros k x Hg. apply Hlc. unfold acc'. simpl.
      rewrite get_set_ne; [done|]. intros ->. congruence.
    + intros k v. destruct (decide (k0 = k)) as [->|Hne].
      * intros [= <-]. split.
        -- apply Hlc. unfold acc'. simpl. apply get_set_eq.
        -- exists z0, h. split; [done|]. split; [done|].
           apply Hbt. unfold acc'. simpl. apply get_set_eq.
      * intros Hg. by apply Hitems.
Qed.

(** X13: when the bottoms and tops of the table are small enough for
    [float], the loop of [model_main.py] completes; [bottom_top] and
    [layer_colors] then have exactly the keys of the table, in its order;
    a key's colour is the colour of its record ([None] when the record has
    none), and its pair is the [(z0, height)] of its record, whose height
    is never zero. *)
Theorem derive_covers_table (lr : state) :
  NoDup (Dict.keys (layers lr)) →
  Forall (λ item, heights_in_range item.2) (layers lr) →
  ∃ d,
    derive lr = Ok d ∧
    Dict.keys (bottom_top d) = Dict.keys (layers lr) ∧
    Dict.keys (layer_colors d) = Dict.keys (layers lr) ∧
    ∀ k info, Dict.get (layers lr) k = Some info →
      Dict.get (layer_colors d) k = Some (color info) ∧
      ∃ z0 height,
        extent info = Ok (z0, height) ∧ Float.eqb height f0 = false ∧
        Dict.get (bottom_top d) k = Some (z0, height).
Proof.
  intros Hnd Hr.
  destruct (derive_loop_ok (layers lr)
              {| ld_to_key := []; bottom_top := []; layer_colors := [] |})
    as (d & Hrun & Hk1 & Hk2 & _ & _ & Hitems); [done|done| |].
  { eapply Forall_impl; [exact Hr|]. intros item Hi.
    destruct (extent_in_range _ Hi) as (z0 & h & Hext & _). by eexists. }
  exists d. split; [done|]. split; [done|]. split; [by rewrite Hk2|done].
Qed.

Lemma derive_covers_table_witness :
  ∃ d,
    derive Sample.reader = Ok d ∧
    Dict.keys (bottom_top d) = ["met1"; "via"] ∧
    Dict.get (layer_colors d) "via" = Some (Some "blue").
Proof.
  destruct (derive_covers_table Sample.reader) as (d & Hrun & Hk & _ & Hd).
  - vm_compute. apply NoDup_cons. split; [|apply NoDup_singleton].
    intros H. apply list_elem_of_singleton in H. discriminate H.
  - remember (layers Sample.reader) as l eqn:Hl. vm_compute in Hl. subst l.
    constructor; [|constructor; [|constructor]].
    + intros b t Hb Ht. injection Hb as <-. injection Ht as <-.
      split; reflexivity.
    + intros b t _ Ht. discriminate Ht.
  - exists d. split; [exact Hrun|]. split; [rewrite Hk; reflexivity|].
    set (info := {| name := EmptyString; purpose := EmptyString;
                    name_gdsii_num := None; purpose_gdsii_num := None;
                    description := EmptyString; color := Some "blue";
                    bottom := Some (Some 2); top := Some None |}).
    destruct (Hd "via" info) as [Hc _]; [vm_compute; reflexivity|].
    exact Hc.
Defined.

Lemma derive_loop_ld items acc d :
  derive_loop items acc = Ok d →
  ld_to_key d = fold_left ld_step items (ld_to_key acc).
Proof.
  revert acc. induction items as [|[k v] items IH]; intros acc; simpl.
  - by intros [= <-].
  - destruct (extent v) as [zh|e]; simpl; [|done].
    intros Hrun. rewrite (IH _ Hrun). simpl. unfold ld_step, address. simpl.
    by destruct (name_gdsii_num v), (purpose_gdsii_num v).
Qed.

Lemma ld_fold_sound items ld a key :
  Dict.get (fold_left ld_step items ld) a = Some key →
  Dict.get ld a = Some key ∨
  ∃ info, (key, info) ∈ items ∧ address info = Some a.
Proof.
  revert ld. induction items as [|[k v] items IH]; intros ld; simpl;
    [by left|].
  intros Hg. apply IH in Hg as [Hg|(info & Hin & Ha)].
  - unfold ld_step in Hg. simpl in Hg.
    destruct (address v) as [a'|] eqn:Hv; [|by left].
    destruct (decide (a' = a)) as [->|Hne].
    + rewrite get_set_eq in Hg. injection Hg as ->. right. exists v.
      split; [apply list_elem_of_here|done].
    + rewrite get_set_ne in Hg by done. by left.
  - right. exists info. split; [by apply list_elem_of_further|done].
Qed.

Lemma ld_fold_get_other items ld a :
  Forall (λ item, address item.2 ≠ Some a) items →
  Dict.get (fold_left ld_step items ld) a = Dict.get ld a.
Proof.
  revert ld. induction items as [|[k v] items IH]; intros ld Hall; simpl;
    [done|].
  inversion Hall as [|? ? Hv Hall']; subst. rewrite IH by done.
  unfold ld_step. simpl in *. destruct (address v) as [a'|]; [|done].
  apply get_set_ne. congruence.
Qed.

Lemma elem_of_get_NoDup {V} (d : pydict string V) k v :
  NoDup (Dict.keys d) → (k, v) ∈ d → Dict.get d k = Some v.
Proof.
  induction d as [|[k0 v0] d IH]; simpl; intros Hnd Hin;
    [by apply elem_of_nil in Hin|].
  apply NoDup_cons in Hnd as [Hk0 Hnd].
  apply elem_of_cons in Hin as [Heq|Hin].
  - inversion Heq; subst. by rewrite decide_True.
  - rewrite decide_False; [by apply IH|].
    intros ->. apply Hk0. by apply (elem_of_map fst) in Hin.
Qed.

(** X14: [ld_to_key] maps a GDSII address to a key of the table whose
    record has exactly that address; and when several records share an
    address, the address maps to the last of them in the order of the
    table. *)
Theorem ld_to_key_last_record_wins (lr : state) (d : derived) :
  NoDup (Dict.keys (layers lr)) →
  derive lr = Ok d →
  (∀ a key, Dict.get (ld_to_key d) a = Some key →
     ∃ info, Dict.get (layers lr) key = Some info ∧ address info = Some a) ∧
  (∀ pre key info post a,
     layers lr = pre ++ (key, info) :: post →
     address info = Some a →
     Forall (λ item, address item.2 ≠ Some a) post →
     Dict.get (ld_to_key d) a = Some key).
Proof.
  intros Hnd Hrun. apply derive_loop_ld in Hrun. simpl in Hrun. split.
  - intros a key Hg. rewrite Hrun in Hg.
    apply ld_fold_sound in Hg as [Hg|(info & Hin & Ha)]; [done|].
    exists info. split; [by apply elem_of_get_NoDup|done].
  - intros pre key info post a Hl Ha Hpost.
    rewrite Hrun, Hl, fold_left_app. simpl.
    rewrite ld_fold_get_other by done.
    unfold ld_step at 1. simpl. rewrite Ha. apply get_set_eq.
Qed.

Lemma ld_to_key_last_record_wins_witness :
  let metal1 : row :=
    list_to_map [("layer", "metal1"); ("name", "M1"); ("purpose", "drawing")] in
  let lr :=
    (LayerReader "defs.csv" "colors.csv" "map.txt"
       {| mapping_source := File Sample.mapping_lines None;
          def_source := File [Sample.met1; metal1] None;
          color_source := NotFound |}).2 in
  ∃ d, derive lr = Ok d ∧ Dict.get (ld_to_key d) (10, 0) = Some "metal1".
Proof.
  intros metal1 lr.
  assert (∃ d, derive lr = Ok d) as [d Hd] by (vm_compute; eauto).
  exists d. split; [exact Hd|].
  destruct (ld_to_key_last_record_wins lr d) as [_ Hlast].
  - vm_compute. apply NoDup_cons. split; [|apply NoDup_singleton].
    intros H. apply list_elem_of_singleton in H. discriminate H.
  - exact Hd.
  - eapply (Hlast [_] _ _ []); [vm_compute; reflexivity|reflexivity|].
    constructor.
Defined.

(* ===================================================================== *)
(** * Further properties: polygons as arrays                              *)
(* ===================================================================== *)

(** [Np.add] and [Np.less_equal] against the Standard Library's [SFadd]
    and [SFleb] for binary64, and the tolerances against their
    literals. *)
Example add_agrees_with_SpecFloat :
  Forall
    (λ '(x, y), to_spec (Np.add x y) = SFadd 53 1024 (to_spec x) (to_spec y))
    [(z_scale, f1); (f1, Np.opp f1); (Np.atol, Np.rtol);
     (Np.rtol, Np.opp Np.atol); (Float.Zero true, Float.Zero true);
     (Float.Zero true, Float.Zero false); (Float.Zero true, f1);
     (f1, Float.Zero true); (Float.round false 1 (-1074), f1);
     (Float.round false (2 ^ 53 - 1) 0, f1);
     (Float.round false (2 ^ 53 + 2) 0, f1);
     (Float.round false 1 1023, Float.round false 1 1023);
     (Float.round true 3 (-1074), Float.round false 1 (-1074));
     (Float.Inf false, f1); (f1, Float.Inf true);
     (Float.Inf false, Float.Inf true); (Float.NaN, f1)].
Proof. repeat constructor; vm_compute; reflexivity. Qed.

Example less_equal_agrees_with_SpecFloat :
  Forall
    (λ '(x, y), Np.less_equal x y = SFleb (to_spec x) (to_spec y))
    [(z_scale, f1); (f1, z_scale); (f1, f1); (Np.atol, Np.rtol);
     (Float.Zero true, Float.Zero false); (Float.Zero false, Np.atol);
     (Np.opp Np.atol, Float.Zero true); (Np.opp f1, Np.opp z_scale);
     (Float.round false 1 (-1074), f1); (Float.Inf true, f1);
     (f1, Float.Inf false); (Float.Inf false, f1);
     (Float.Inf false, Float.Inf false); (Float.NaN, f1); (f1, Float.NaN)].
Proof. repeat constructor; vm_compute; reflexivity. Qed.

Example tolerances :
  Float.py_float "1e-05" = Ok Np.rtol ∧ Float.py_float "1e-08" = Ok Np.atol.
Proof. split; vm_compute; reflexivity. Qed.

Example isclose_examples :
  let f s := match Float.py_float s with Ok x => x | Raise _ => Float.NaN end in
  Np.isclose (f "1000000") (f "1000001") = true ∧
  Np.isclose (f "0.0") (f "1e-8") = true ∧
  Np.isclose (f "0.0") (f "1.1e-8") = false ∧
  Np.isclose (f "1") (f "1.0001") = false ∧
  Np.isclose (f "inf") (f "inf") = true ∧
  Np.isclose (f "nan") (f "nan") = false.
Proof. repeat split; vm_compute; reflexivity. Qed.

(** A triangle is closed with a copy of its first row; two points give
    the empty array; a ring that repeats its first point is kept as it
    is. *)
Example klayout_polygon_to_numpy_examples :
  let f n := Float.round false n 0 in
  klayout_polygon_to_numpy [(0, 0); (10, 0); (0, 10)]
    = Ok [(f 0, f 0); (f 10, f 0); (f 0, f 10); (f 0, f 0)] ∧
  klayout_polygon_to_numpy [(0, 0); (10, 0)] = Ok [] ∧
  klayout_polygon_to_numpy [(0, 0); (10, 0); (0, 10); (0, 0)]
    = Ok [(f 0, f 0); (f 10, f 0); (f 0, f 10); (f 0, f 0)].
Proof. repeat split; vm_compute; reflexivity. Qed.

(** With large coordinates the tolerance of [np.allclose] is wide: a hull
    whose last point is near its first, but not equal to it, is returned
    without a closing row. *)
Example open_ring_within_tolerance :
  let f n := Float.round false n 0 in
  klayout_polygon_to_numpy
    [(1000000, 0); (2000000, 0); (2000000, 1000000); (1000001, 0)]
    = Ok [(f 1000000, f 0); (f 2000000, f 0); (f 2000000, f 1000000);
          (f 1000001, f 0)].
Proof. vm_compute. reflexivity. Qed.

Lemma round_sign neg m e :
  match Float.round neg m e with
  | Float.Zero s | Float.Finite s _ _ | Float.Inf s => s = neg
  | Float.NaN => False
  end.
Proof.
  unfold Float.round. destruct (m <=? 0); [done|].
  set (E := Z.max (Z.log2 m + 1 + e - Float.prec) Float.emin).
  destruct (E <=? e); [by destruct (Float.emax <? E)|].
  destruct (Float.round_shift m (E - e) =? 0); [done|].
  destruct (Float.round_shift m (E - e) =? 2 ^ Float.prec).
  - by destruct (Float.emax <? E + 1).
  - by destruct (Float.emax <? E).
Qed.

Lemma nonneg_round m e : nonneg (Float.round false m e) = true.
Proof.
  pose proof (round_sign false m e) as Hs.
  pose proof (round_bounds false m e) as Hb.
  destruct (Float.round false m e) as [s|s q e'|s|]; simpl; try done.
  - subst s. destruct (Hb false q e' eq_refl) as [[Hq _] _]. simpl.
    by apply Z.ltb_lt.
  - by subst s.
Qed.

Lemma of_int_finite n f : Float.of_int n = Ok f → Np.isfinite f = true.
Proof.
  unfold Float.of_int.
  pose proof (round_sign (n <? 0) (Z.abs n) 0) as Hs.
  destruct (Float.round (n <? 0) (Z.abs n) 0); try done; by intros [= <-].
Qed.

Lemma of_int_exact n :
  Z.abs n < 2 ^ 53 → ∃ f, Float.of_int n = Ok f ∧ Float.to_int f = Ok n.
Proof.
  intros Hn. unfold Float.of_int.
  destruct (decide (n = 0)) as [->|Hne]; [by eexists|].
  pose proof (to_int_round_exact (n <? 0) (Z.abs n) ltac:(lia)) as Hex.
  assert ((if n <? 0 then - Z.abs n else Z.abs n) = n) as Hval.
  { destruct (n <? 0) eqn:Hs; [apply Z.ltb_lt in Hs|apply Z.ltb_ge in Hs];
      lia. }
  rewrite Hval in Hex.
  destruct (Float.round (n <? 0) (Z.abs n) 0) as [| | |]; try done; by eexists.
Qed.

Lemma sub_self x : Np.isfinite x = true → Np.sub x x = Float.Zero false.
Proof.
  destruct x as [s|s m e| |]; try done; intros _; unfold Np.sub; simpl.
  - by destruct s.
  - rewrite Z.min_id, Z.sub_diag, Z.pow_0_r.
    assert ((if s then - m else m) * 1 + (if negb s then - m else m) * 1 = 0)
      as -> by (destruct s; simpl; lia).
    done.
Qed.

Lemma nonneg_mul_rtol y :
  Np.isfinite y = true → nonneg (Float.mul Np.rtol (Np.abs y)) = true.
Proof.
  destruct y as [s|s m e| |]; try done; intros _; simpl.
  apply nonneg_round.
Qed.

Lemma nonneg_add_atol y : nonneg y = true → nonneg (Np.add Np.atol y) = true.
Proof.
  destruct y as [s|s m e|s|]; simpl; try done.
  intros [Hs Hm]%andb_true_iff. apply negb_true_iff in Hs. subst s.
  apply Z.ltb_lt in Hm.
  set (e0 := Z.min (-79) e).
  assert (0 < 2 ^ (-79 - e0)) by (apply Z.pow_pos_nonneg; lia).
  assert (0 < 2 ^ (e - e0)) by (apply Z.pow_pos_nonneg; lia).
  set (c := 6044629098073146 * 2 ^ (-79 - e0) + m * 2 ^ (e - e0)).
  assert (0 < c) as Hc by (unfold c; nia).
  assert ((c =? 0) = false) as -> by (apply Z.eqb_neq; lia).
  assert ((c <? 0) = false) as -> by (apply Z.ltb_ge; lia).
  apply nonneg_round.
Qed.

Lemma less_equal_zero_nonneg s y :
  nonneg y = true → Np.less_equal (Float.Zero s) y = true.
Proof.
  destruct y as [s'|s' m e|s'|]; simpl; try done.
  intros [Hs Hm]%andb_true_iff. apply negb_true_iff in Hs. subst s'.
  apply Z.ltb_lt in Hm. apply Z.leb_le.
  assert (0 < 2 ^ (e - Z.min 0 e)) by (apply Z.pow_pos_nonneg; lia).
  nia.
Qed.

(** [np.isclose] holds between a finite number and itself. *)
Lemma isclose_refl x : Np.isfinite x = true → Np.isclose x x = true.
Proof.
  intros Hx. unfold Np.isclose. rewrite Hx. cbn [andb].
  rewrite (sub_self x Hx).
  change (Np.abs (Float.Zero false)) with (Float.Zero false).
  apply less_equal_zero_nonneg, nonneg_add_atol, nonneg_mul_rtol, Hx.
Qed.

Lemma to_row_finite p r :
  to_row p = Ok r → Np.isfinite r.1 = true ∧ Np.isfinite r.2 = true.
Proof.
  unfold to_row.
  destruct (Float.of_int p.1) as [x|] eqn:Hx; simpl; [|done].
  destruct (Float.of_int p.2) as [y|] eqn:Hy; simpl; [|done].
  intros [= <-]. simpl. split; by eapply of_int_finite.
Qed.

Lemma np_array_rows coords rows :
  np_array coords = Ok rows →
  length rows = length coords ∧
  Forall2 (λ p r, to_row p = Ok r) coords rows.
Proof.
  revert rows. induction coords as [|p coords IH]; intros rows; simpl.
  - intros [= <-]. split; [done|constructor].
  - destruct (to_row p) as [r|] eqn:Hr; simpl; [|done].
    destruct (np_array coords) as [rs|]; simpl; [|done].
    intros [= <-]. destruct (IH rs eq_refl) as [Hlen Hall]. simpl.
    split; [by rewrite Hlen|by constructor].
Qed.

Lemma np_array_in_range coords :
  coords_in_range coords → ∃ rows, np_array coords = Ok rows.
Proof.
  induction 1 as [|p coords [H1 H2] _ [rows IH]]; simpl; [by eexists|].
  unfold to_row.
  destruct (of_int_in_range _ H1) as [x ->].
  destruct (of_int_in_range _ H2) as [y ->]. simpl. rewrite IH. simpl.
  by eexists.
Qed.

Lemma coords_exact_in_range hull : coords_exact hull → coords_in_range hull.
Proof.
  intros H. eapply Forall_impl; [exact H|]. intros p [H1 H2].
  assert (2 ^ 53 < 2 ^ 1023) by (apply Z.pow_lt_mono_r; lia).
  lia.
Qed.

Lemma to_row_exact p r :
  Z.abs p.1 < 2 ^ 53 → Z.abs p.2 < 2 ^ 53 → to_row p = Ok r →
  Float.to_int r.1 = Ok p.1 ∧ Float.to_int r.2 = Ok p.2.
Proof.
  intros H1 H2. unfold to_row.
  destruct (of_int_exact _ H1) as (x & -> & Hx).
  destruct (of_int_exact _ H2) as (y & -> & Hy). simpl.
  by intros [= <-].
Qed.

Lemma np_array_exact coords rows :
  coords_exact coords → np_array coords = Ok rows →
  Forall2 (λ p r, Float.to_int r.1 = Ok p.1 ∧ Float.to_int r.2 = Ok p.2)
    coords rows.
Proof.
  intros Hex Hrows. apply np_array_rows in Hrows as [_ Hall].
  induction Hall as [|p r coords rows Hr _ IH]; [constructor|].
  inversion Hex as [|? ? [H1 H2] Hex']; subst.
  constructor; [by eapply to_row_exact|by apply IH].
Qed.

(** X15: for a hull whose coordinates are small enough for [float],
    [klayout_polygon_to_numpy] returns.  The array is empty when the hull
    has fewer than three points; otherwise it holds the points of the hull
    as rows, in order, followed by at most one more row, a copy of the
    first.  So the caller's test [coords.shape[0] < 3] holds exactly when
    the hull has fewer than three points.  Coordinates below [2^53] are
    held exactly. *)
Theorem polygon_array_rows (hull : list (Z * Z)) :
  coords_in_range hull →
  ∃ arr rows,
    klayout_polygon_to_numpy hull = Ok arr ∧
    np_array hull = Ok rows ∧ length rows = length hull ∧
    ((length hull < 3)%nat → arr = []) ∧
    ((3 ≤ length hull)%nat →
       arr = rows ∨ ∃ first, head rows = Some first ∧ arr = rows ++ [first]) ∧
    ((length arr < 3)%nat ↔ (length hull < 3)%nat) ∧
    (coords_exact hull →
       Forall2 (λ p r, Float.to_int r.1 = Ok p.1 ∧ Float.to_int r.2 = Ok p.2)
         hull rows).
Proof.
  intros Hr. destruct (np_array_in_range hull Hr) as [rows Hrows].
  destruct (np_array_rows hull rows Hrows) as [Hlen _].
  pose proof (λ H, np_array_exact hull rows H Hrows) as Hexact.
  unfold klayout_polygon_to_numpy. cbv zeta. rewrite Hrows.
  cbn [mbind result_mbind result_bind].
  destruct (length hull <? 3)%nat eqn:Hlt.
  - apply Nat.ltb_lt in Hlt. exists [], rows.
    split; [done|]. split; [done|]. split; [done|]. split; [done|].
    split; [lia|]. split; [|done]. simpl. lia.
  - apply Nat.ltb_ge in Hlt. destruct rows as [|first rest].
    { simpl in Hlen. lia. }
    destruct (negb (Np.allclose first (default first (last (first :: rest))))).
    + exists ((first :: rest) ++ [first]), (first :: rest).
      split; [done|]. split; [done|]. split; [done|]. split; [lia|].
      split; [right; by exists first|]. split; [|done].
      rewrite length_app, Hlen. simpl. lia.
    + exists (first :: rest), (first :: rest).
      split; [done|]. split; [done|]. split; [done|]. split; [lia|].
      split; [by left|]. split; [|done]. rewrite Hlen. lia.
Qed.

Lemma polygon_array_rows_witness :
  ∃ arr,
    klayout_polygon_to_numpy [(0, 0); (10, 0); (0, 10)] = Ok arr ∧
    length arr = 4%nat.
Proof.
  destruct (polygon_array_rows [(0, 0); (10, 0); (0, 10)])
    as (arr & rows & Hrun & _).
  - repeat constructor.
  - exists arr. split; [exact Hrun|].
    assert (Ok arr = Ok [(f0, f0); (Float.round false 10 0, f0);
                         (f0, Float.round false 10 0); (f0, f0)]) as Harr
      by (rewrite <- Hrun; vm_compute; reflexivity).
    injection Harr as ->. reflexivity.
Defined.

(** X16: whatever [klayout_polygon_to_numpy] returns is closed as far
    as [np.allclose] can tell: the last row of a non-empty result is close
    to its first row.  (It need not be equal to it.) *)
Theorem polygon_array_closed (hull : list (Z * Z))
    (arr : list (Float.pyfloat * Float.pyfloat)) :
  klayout_polygon_to_numpy hull = Ok arr → closed_ring arr.
Proof.
  unfold klayout_polygon_to_numpy, closed_ring. cbv zeta.
  destruct (length hull <? 3)%nat; [by intros [= <-] f Hf|].
  destruct (np_array hull) as [rows|] eqn:Hrows;
    cbn [mbind result_mbind result_bind]; [|done].
  destruct rows as [|first rest]; [by intros [= <-] f Hf|].
  destruct (Np.allclose first (default first (last (first :: rest))))
    eqn:Hc; cbn [negb].
  - intros [= <-] f [= <-]. exact Hc.
  - intros [= <-] f Hf. simpl in Hf. injection Hf as <-.
    change (Np.allclose first
              (default first (last ((first :: rest) ++ [first]))) = true).
    rewrite last_snoc. simpl.
    apply np_array_rows in Hrows as [_ Hall].
    inversion Hall as [|p ? ? ? Hrow _]; subst.
    destruct (to_row_finite p first Hrow) as [H1 H2].
    unfold Np.allclose. by rewrite !isclose_refl.
Qed.

Lemma polygon_array_closed_witness :
  ∃ arr,
    klayout_polygon_to_numpy [(0, 0); (10, 0); (0, 10)] = Ok arr ∧
    closed_ring arr.
Proof.
  eexists. split; [vm_compute; reflexivity|].
  apply (polygon_array_closed [(0, 0); (10, 0); (0, 10)]).
  vm_compute. reflexivity.
Defined.

(* ===================================================================== *)
(** * Further properties: the figure                                      *)
(* ===================================================================== *)

Lemma klayout_polygon_to_numpy_in_range hull :
  coords_in_range hull → ∃ arr, klayout_polygon_to_numpy hull = Ok arr.
Proof.
  intros Hr. destruct (np_array_in_range hull Hr) as [rows Hrows].
  unfold klayout_polygon_to_numpy. cbv zeta. rewrite Hrows.
  cbn [mbind result_mbind result_bind].
  destruct (length hull <? 3)%nat; [by eexists|].
  destruct rows as [|first rest]; [by eexists|].
  destruct (negb (Np.allclose first (default first (last (first :: rest)))));
    by eexists.
Qed.

Lemma derive_loop_extents items acc d :
  derive_loop items acc = Ok d →
  Forall (λ item, ∃ zh, extent item.2 = Ok zh) items.
Proof.
  revert acc. induction items as [|[k v] items IH]; intros acc; simpl;
    [constructor|].
  destruct (extent v) as [zh|] eqn:He; simpl; [|done].
  intros Hrun. constructor; [by exists zh | by eapply IH].
Qed.

(** What the maps of the loop hold for a key that an address maps to. *)
Lemma derive_facts lr d :
  NoDup (Dict.keys (layers lr)) → derive lr = Ok d →
  ∀ a key, Dict.get (ld_to_key d) a = Some key →
    ∃ info z0 h,
      Dict.get (layers lr) key = Some info ∧ address info = Some a ∧
      Dict.get (bottom_top d) key = Some (z0, h) ∧ Float.eqb h f0 = false ∧
      Dict.get (layer_colors d) key = Some (color info).
Proof.
  intros Hnd Hrun a key Hg.
  pose proof (derive_loop_ld _ _ _ Hrun) as Hld. simpl in Hld.
  rewrite Hld in Hg.
  apply ld_fold_sound in Hg as [Hg|(info & Hin & Ha)]; [done|].
  apply (elem_of_get_NoDup _ _ _ Hnd) in Hin.
  destruct (derive_loop_ok (layers lr)
              {| ld_to_key := []; bottom_top := []; layer_colors := [] |})
    as (d' & Hrun' & _ & _ & _ & _ & Hitems);
    [done|done|by eapply derive_loop_extents|].
  unfold derive in Hrun. rewrite Hrun in Hrun'. injection Hrun' as <-.
  destruct (Hitems key info Hin) as (Hc & z0 & h & _ & Hh & Hbt).
  by exists info, z0, h.
Qed.

Lemma def_fold_named m rows l :
  Forall (λ item, named_if_numbered item.2) l →
  Forall (λ item, named_if_numbered item.2) (fold_left (def_step m) rows l).
Proof.
  intros Hl.
  apply (fold_left_invariant (def_step m) _ (λ _, True));
    [|by apply Forall_true|done].
  intros a r Ha _.
  destruct (def_step_cases m a r) as [->|(ln & dt & _ & Hn & _ & ->)]; [done|].
  apply Forall_set; [done|]. intros _ Heq. simpl in Heq.
  by rewrite Heq in Hn.
Qed.

Lemma color_fold_named rows l :
  Forall (λ item, named_if_numbered item.2) l →
  Forall (λ item, named_if_numbered item.2) (fold_left color_step rows l).
Proof.
  intros Hl.
  apply (fold_left_invariant color_step _ (λ _, True));
    [|by apply Forall_true|done].
  intros a r Ha _. unfold color_step.
  destruct (Str.is_empty (color_key r)); [done|].
  apply Forall_set; [done|]. simpl.
  destruct (Dict.get a (color_key r)) as [info|] eqn:Hg; simpl.
  - apply get_Some_elem in Hg. rewrite Forall_forall in Ha.
    apply (Ha _ Hg).
  - by intros [x Hx].
Qed.

Lemma LayerReader_named dfile cfile mfile fs :
  Forall (λ item, named_if_numbered item.2)
    (layers (LayerReader dfile cfile mfile fs).2).
Proof.
  destruct (LayerReader_spec dfile cfile mfile fs) as (_ & _ & ->).
  apply color_fold_named, def_fold_named, Forall_nil_2.
Qed.

Lemma picked_color_nonempty d key i :
  Str.is_empty (picked_color d key i) = false.
Proof.
  assert (Str.is_empty
            (nth (i mod length color_palette) color_palette EmptyString)
          = false) as Hp.
  { pose proof (Nat.mod_upper_bound i (length color_palette)) as Hlt.
    destruct (i mod length color_palette)%nat as [|[|[|[|[|[|[|[|[|[|n]]]]]]]]]];
      try done.
    simpl in Hlt. lia. }
  unfold picked_color.
  destruct (Dict.get (layer_colors d) key) as [[c|]|]; try done.
  by destruct (Str.is_empty c) eqn:Hc.
Qed.

Section figure_facts.
Context {solid : Type}.
Variable extrude :
  list (Float.pyfloat * Float.pyfloat) → Float.pyfloat → Float.pyfloat →
  option solid.
Variables (lr : state) (d : derived).

(** What the maps hold for every key an address maps to: a named record
    with that address, and a pair with a height that is not zero. *)
Hypothesis mapped :
  ∀ a key, Dict.get (ld_to_key d) a = Some key →
    ∃ info z0 h,
      Dict.get (layers lr) key = Some info ∧ address info = Some a ∧
      Dict.get (bottom_top d) key = Some (z0, h) ∧ Float.eqb h f0 = false ∧
      name info ≠ EmptyString.

Lemma layer_meshes_in_range shapes z0 h :
  Forall (λ shape, ∀ hull, shape = Some hull → coords_in_range hull) shapes →
  ∃ ms, layer_meshes extrude shapes z0 h = Ok ms.
Proof.
  induction 1 as [|shape shapes Hs _ [ms IH]]; simpl; [by eexists|].
  destruct shape as [hull|]; [|by eexists].
  destruct (klayout_polygon_to_numpy_in_range hull (Hs hull eq_refl))
    as [arr ->].
  cbn [mbind result_mbind result_bind].
  destruct (length arr <? 3)%nat; [by eexists|].
  destruct (extrude arr h z0); [|by eexists].
  rewrite IH. by eexists.
Qed.

Lemma layer_trace_cases li i :
  shapes_in_range li →
  (layer_trace extrude lr d li i = Ok None ∧ not_drawable extrude d li) ∨
  (∃ t key,
     layer_trace extrude lr d li i = Ok (Some t) ∧ drawn extrude lr d li t ∧
     Dict.get (ld_to_key d) (gds_layer li, gds_datatype li) = Some key ∧
     trace_color t = picked_color d key i).
Proof.
  intros Hr. unfold layer_trace.
  destruct (Dict.get (ld_to_key d) (gds_layer li, gds_datatype li))
    as [key|] eqn:Hk.
  2: { left. split; [done|]. by left. }
  destruct (mapped _ _ Hk) as (info & z0 & h & Hg & Ha & Hbt & Hh & Hn).
  rewrite Hbt. simpl. rewrite Hh. unfold getitem. rewrite Hg.
  cbn [mbind result_mbind result_bind]. rewrite (is_empty_false _ Hn).
  destruct (layer_meshes_in_range (shapes li) z0 h Hr) as [ms Hms].
  rewrite Hms. destruct ms as [|m ms].
  - left. split; [done|]. right. by exists key, z0, h.
  - right. eexists _, key. split; [reflexivity|]. split; [|done].
    exists key, info, z0, h. simpl. done.
Qed.

Lemma build_figure_loop_spec layout :
  Forall shapes_in_range layout →
  ∀ fig i, ∃ new,
    build_figure_loop extrude lr d layout fig i = Ok (fig ++ new) ∧
    (∀ j t, new !! j = Some t →
       ∃ li key,
         li ∈ layout ∧ drawn extrude lr d li t ∧
         Dict.get (ld_to_key d) (gds_layer li, gds_datatype li) = Some key ∧
         trace_color t = picked_color d key (i + j)) ∧
    (∀ li, li ∈ layout →
       not_drawable extrude d li ∨ ∃ t, t ∈ new ∧ drawn extrude lr d li t).
Proof.
  induction 1 as [|li layout Hli _ IH]; intros fig i.
  - exists []. simpl. rewrite app_nil_r. split; [done|]. split.
    + intros j t Hj. by rewrite lookup_nil in Hj.
    + intros li Hin. by apply elem_of_nil in Hin.
  - simpl.
    destruct (layer_trace_cases li i Hli)
      as [[-> Hnd]|(t & key & -> & Hd & Hk & Hc)];
      cbn [mbind result_mbind result_bind].
    + destruct (IH fig i) as (new & Hrun & Hnew & Hall).
      exists new. split; [done|]. split.
      * intros j t Hj. destruct (Hnew j t Hj) as (li' & key & Hin & Hrest).
        exists li', key. split; [by apply list_elem_of_further|done].
      * intros li' Hin. apply elem_of_cons in Hin as [->|Hin];
          [by left|by apply Hall].
    + destruct (IH (fig ++ [t]) (S i)) as (new & Hrun & Hnew & Hall).
      exists (t :: new). split; [|split].
      * rewrite Hrun. by rewrite <- app_assoc.
      * intros [|j] t' Hj; simpl in Hj.
        -- injection Hj as <-. exists li, key. rewrite Nat.add_0_r.
           split; [apply list_elem_of_here|done].
        -- destruct (Hnew j t' Hj) as (li' & key' & Hin & Hd' & Hk' & Hc').
           exists li', key'. split; [by apply list_elem_of_further|].
           split; [done|]. split; [done|]. rewrite Hc'. f_equal. lia.
      * intros li' Hin. apply elem_of_cons in Hin as [->|Hin].
        -- right. exists t. split; [apply list_elem_of_here|done].
        -- destruct (Hall li' Hin) as [Hleft|(t' & Hin' & Hd')]; [by left|].
           right. exists t'. split; [by apply list_elem_of_further|done].
Qed.

(** The layers the traces are drawn from, in the order of the layout. *)
Lemma build_figure_loop_layers layout :
  Forall shapes_in_range layout →
  ∀ fig i, ∃ new lis,
    build_figure_loop extrude lr d layout fig i = Ok (fig ++ new) ∧
    sublist lis layout ∧ length lis = length new ∧
    ∀ j t, new !! j = Some t →
      ∃ li key,
        lis !! j = Some li ∧ drawn extrude lr d li t ∧
        Dict.get (ld_to_key d) (gds_layer li, gds_datatype li) = Some key ∧
        trace_color t = picked_color d key (i + j).
Proof.
  induction 1 as [|li layout Hli _ IH]; intros fig i.
  - exists [], []. simpl. rewrite app_nil_r. split; [done|].
    split; [constructor|]. split; [done|].
    intros j t Hj. by rewrite lookup_nil in Hj.
  - simpl.
    destruct (layer_trace_cases li i Hli)
      as [[-> Hnd]|(t & key & -> & Hd & Hk & Hc)];
      cbn [mbind result_mbind result_bind].
    + destruct (IH fig i) as (new & lis & Hrun & Hsub & Hlen & Hnew).
      exists new, lis. split; [done|]. split; [by apply sublist_cons|].
      split; done.
    + destruct (IH (fig ++ [t]) (S i))
        as (new & lis & Hrun & Hsub & Hlen & Hnew).
      exists (t :: new), (li :: lis). split; [|split; [|split]].
      * rewrite Hrun. by rewrite <- app_assoc.
      * by apply sublist_skip.
      * simpl. by rewrite Hlen.
      * intros [|j] t' Hj; simpl in Hj.
        -- injection Hj as <-. exists li, key. rewrite Nat.add_0_r. done.
        -- destruct (Hnew j t' Hj) as (li' & key' & Hl' & Hd' & Hk' & Hc').
           exists li', key'. split; [done|]. split; [done|]. split; [done|].
           rewrite Hc'. f_equal. lia.
Qed.

End figure_facts.

Lemma reader_mapped dfile cfile mfile fs d :
  let lr := (LayerReader dfile cfile mfile fs).2 in
  derive lr = Ok d →
  ∀ a key, Dict.get (ld_to_key d) a = Some key →
    ∃ info z0 h,
      Dict.get (layers lr) key = Some info ∧ address info = Some a ∧
      Dict.get (bottom_top d) key = Some (z0, h) ∧ Float.eqb h f0 = false ∧
      name info ≠ EmptyString.
Proof.
  intros lr Hrun a key Hg.
  destruct (LayerReader_valid dfile cfile mfile fs) as [Hnd _].
  destruct (derive_facts lr d Hnd Hrun a key Hg)
    as (info & z0 & h & Hgi & Ha & Hbt & Hh & _).
  exists info, z0, h. repeat (split; [done|]).
  pose proof (LayerReader_named dfile cfile mfile fs) as Hnamed.
  rewrite Forall_forall in Hnamed.
  apply (Hnamed (key, info)); [by apply get_Some_elem|].
  simpl. rewrite Ha. eauto.
Qed.

(** X17: for a reader and the maps the loop of [model_main.py] derived
    from it, [build_figure] returns on every layout whose hulls have
    coordinates small enough for [float].  Every trace shows a layer of the
    layout whose address maps to a key of the table; its name is the name
    of that key's record followed by the address in brackets, so neither
    the [KeyError] of [lr.layers[layer_key]] nor the fallback name (the
    bare address) occurs, and the default [(0.0, 0.0)] and the test for a
    zero height never drop a layer: a layer of the layout has no trace
    only when its address maps to no key or none of its shapes gives a
    solid. *)
Theorem build_figure_draws_mapped_layers {solid : Type}
    (extrude : list (Float.pyfloat * Float.pyfloat) → Float.pyfloat →
               Float.pyfloat → option solid)
    (dfile cfile mfile : string) (fs : files) (d : derived)
    (layout : list layout_layer) :
  let lr := (LayerReader dfile cfile mfile fs).2 in
  derive lr = Ok d →
  Forall shapes_in_range layout →
  ∃ traces,
    build_figure extrude lr d layout = Ok traces ∧
    Forall (λ t, ∃ li, li ∈ layout ∧ drawn extrude lr d li t) traces ∧
    ∀ li, li ∈ layout →
      not_drawable extrude d li ∨ ∃ t, t ∈ traces ∧ drawn extrude lr d li t.
Proof.
  intros lr Hrun Hr.
  destruct (build_figure_loop_spec extrude lr d
              (reader_mapped dfile cfile mfile fs d Hrun) layout Hr [] 0%nat)
    as (traces & Hfig & Htr & Hall).
  exists traces. split; [done|]. split; [|done].
  apply Forall_lookup. intros j t Hj.
  destruct (Htr j t Hj) as (li & key & Hin & Hd & _). by exists li.
Qed.

(** X18: the palette advances with the traces drawn, not with the
    layers of the layout.  The traces of the figure correspond one by one,
    in order, to layers of the layout: the [j]-th trace (counting from 0)
    is drawn from the [j]-th of these layers, and its colour is the colour
    the table gives the key of that very layer when that is a non-empty
    text, and entry [j mod 10] of the palette otherwise.  A trace's colour
    is never empty. *)
Theorem build_figure_palette_follows_traces {solid : Type}
    (extrude : list (Float.pyfloat * Float.pyfloat) → Float.pyfloat →
               Float.pyfloat → option solid)
    (dfile cfile mfile : string) (fs : files) (d : derived)
    (layout : list layout_layer) (traces : list (mesh_trace solid)) :
  let lr := (LayerReader dfile cfile mfile fs).2 in
  derive lr = Ok d →
  Forall shapes_in_range layout →
  build_figure extrude lr d layout = Ok traces →
  ∃ lis,
    sublist lis layout ∧ length lis = length traces ∧
    ∀ j t, traces !! j = Some t →
      Str.is_empty (trace_color t) = false ∧
      ∃ li key,
        lis !! j = Some li ∧ drawn extrude lr d li t ∧
        Dict.get (ld_to_key d) (gds_layer li, gds_datatype li) = Some key ∧
        trace_color t = picked_color d key j.
Proof.
  intros lr Hrun Hr Hfig.
  destruct (build_figure_loop_layers extrude lr d
              (reader_mapped dfile cfile mfile fs d Hrun) layout Hr [] 0%nat)
    as (new & lis & Hfig' & Hsub & Hlen & Htr).
  unfold build_figure in Hfig. rewrite Hfig in Hfig'. injection Hfig' as ->.
  exists lis. split; [done|]. split; [done|]. intros j t Hj.
  destruct (Htr j t Hj) as (li & key & Hl & Hd & Hk & Hc). simpl in Hc.
  split; [rewrite Hc; apply picked_color_nonempty|].
  by exists li, key.
Qed.

Lemma build_figure_draws_mapped_layers_witness :
  ∃ traces,
    build_figure SampleLayout.extrude Sample.reader
      {| ld_to_key := [((10, 0), "met1")];
         bottom_top := [("met1", (z_scale, f1)); ("via", (f0, f1))];
         layer_colors := [("met1", Some "red"); ("via", Some "blue")] |}
      SampleLayout.layout = Ok traces ∧
    map trace_name traces = ["M1 (10/0)"] ∧
    map trace_solids traces = [[4%nat]].
Proof.
  destruct (build_figure_draws_mapped_layers SampleLayout.extrude
              "defs.csv" "colors.csv" "map.txt" Sample.fs
              {| ld_to_key := [((10, 0), "met1")];
                 bottom_top := [("met1", (z_scale, f1)); ("via", (f0, f1))];
                 layer_colors := [("met1", Some "red"); ("via", Some "blue")] |}
              SampleLayout.layout) as (traces & Hfig & _).
  - vm_compute. reflexivity.
  - unfold SampleLayout.layout, SampleLayout.triangle.
    repeat first
      [ apply Forall_nil_2 | apply Forall_cons_2
      | intros hull [= <-] | intros hull [=] | split; reflexivity ].
  - exists traces. split; [exact Hfig|].
    assert (Ok traces =
            Ok [{| trace_color := "red"; trace_name := "M1 (10/0)";
                   trace_solids := [4%nat] |}]) as Htr
      by (rewrite <- Hfig; vm_compute; reflexivity).
    injection Htr as ->. split; reflexivity.
Defined.

Lemma build_figure_palette_follows_traces_witness :
  let lr :=
    (LayerReader "defs.csv" "colors.csv" "map.txt" SampleLayout.two_layers).2 in
  ∃ traces,
    build_figure SampleLayout.extrude lr SampleLayout.two_layers_maps
      SampleLayout.two_layers_layout = Ok traces ∧
    map trace_color traces = ["red"; "orange"] ∧
    map trace_name traces = ["M1 (10/0)"; "M2 (11/5)"] ∧
    ∃ lis,
      sublist lis SampleLayout.two_layers_layout ∧
      length lis = length traces ∧
      ∀ j t, traces !! j = Some t →
        ∃ li key,
          lis !! j = Some li ∧
          Dict.get (ld_to_key SampleLayout.two_layers_maps)
            (gds_layer li, gds_datatype li) = Some key ∧
          trace_color t = picked_color SampleLayout.two_layers_maps key j.
Proof.
  intros lr. eexists. split; [vm_compute; reflexivity|].
  split; [reflexivity|]. split; [reflexivity|].
  destruct (build_figure_palette_follows_traces SampleLayout.extrude
              "defs.csv" "colors.csv" "map.txt" SampleLayout.two_layers
              SampleLayout.two_layers_maps SampleLayout.two_layers_layout
              [{| trace_color := "red"; trace_name := "M1 (10/0)";
                  trace_solids := [4%nat] |};
               {| trace_color := "orange"; trace_name := "M2 (11/5)";
                  trace_solids := [4%nat] |}])
    as (lis & Hsub & Hlen & Htr).
  - vm_compute. reflexivity.
  - unfold SampleLayout.two_layers_layout, SampleLayout.triangle.
    repeat first
      [ apply Forall_nil_2 | apply Forall_cons_2
      | intros hull [= <-] | intros hull [=] | split; reflexivity ].
  - vm_compute. reflexivity.
  - exists lis. split; [exact Hsub|]. split; [exact Hlen|].
    intros j t Hj. destruct (Htr j t Hj) as (_ & li & key & Hl & _ & Hk & Hc).
    by exists li, key.
Defined.

(* ===================================================================== *)
(** * Further properties: the measurement tool                            *)
(* ===================================================================== *)

Section measure_facts.
Context {coord mesh : Type}.
Variable distance_text :
  coord * coord * coord → coord * coord * coord → string.

Lemma run_measure_cons e events (st : app_state coord mesh) :
  run_measure distance_text (e :: events) st
    = run_measure distance_text events (measure distance_text e st).2.
Proof. reflexivity. Qed.

Lemma run_measure_pending events (st : app_state coord mesh) :
  (length (clicked_points st) ≤ 1)%nat →
  fig (run_measure distance_text events st)
    = fig st ++ map (segment distance_text)
                  (pairs (clicked_points st ++ clicks events)) ∧
  clicked_points (run_measure distance_text events st)
    = leftover (clicked_points st ++ clicks events).
Proof.
  revert st. induction events as [|e events IH]; intros st Hlen.
  - simpl. rewrite !app_nil_r.
    destruct (clicked_points st) as [|p [|q ps]]; simpl in *;
      rewrite ?app_nil_r; [done|done|lia].
  - destruct e as [[pt more]|].
    + rewrite run_measure_cons.
      change (clicks (Some (pt, more) :: events)) with (pt :: clicks events).
      destruct (clicked_points st) as [|p [|q ps]] eqn:Hcp; simpl in Hlen;
        [| |lia].
      * unfold measure. rewrite Hcp.
        destruct (IH {| clicked_points := [pt]; fig := fig st |})
          as [Hf Hc]; [simpl; lia|].
        cbn [app snd]. rewrite Hf, Hc. done.
      * unfold measure. rewrite Hcp.
        destruct (IH {| clicked_points := [];
                        fig := fig st ++ [Scatter3d p pt (distance_text p pt)] |})
          as [Hf Hc]; [simpl; lia|].
        cbn [app snd]. rewrite Hf, Hc. simpl. by rewrite <- app_assoc.
    + rewrite run_measure_cons.
      change (clicks (None :: events)) with (clicks events).
      simpl. by apply IH.
Qed.

End measure_facts.

(** X19: the measurement tool pairs the clicks.  Started with no point
    pending, after any sequence of calls (clicks, and calls without click
    data, which change nothing) the figure holds its former traces,
    unchanged and in place, followed by one measurement line for the first
    and second click, one for the third and fourth, and so on, each
    labelled with the distance of its two points; and the point of a last
    unpaired click is the only one pending. *)
Theorem measure_pairs_clicks {coord mesh : Type}
    (distance_text : coord * coord * coord → coord * coord * coord → string)
    (fig0 : list (fig_trace coord mesh))
    (events : list (option ((coord * coord * coord)
                            * list (coord * coord * coord)))) :
  let st := run_measure distance_text events
              {| clicked_points := []; fig := fig0 |} in
  fig st = fig0 ++ map (segment distance_text) (pairs (clicks events)) ∧
  clicked_points st = leftover (clicks events) ∧
  (length (clicked_points st) ≤ 1)%nat ∧
  length (fig st) = (length fig0 + length (clicks events) / 2)%nat.
Proof.
  intros st.
  destruct (run_measure_pending distance_text events
              {| clicked_points := []; fig := fig0 |}) as [Hf Hc];
    [simpl; lia|].
  simpl in Hf, Hc. fold st in Hf, Hc.
  assert (∀ ps : list (coord * coord * coord),
            (length (leftover ps) ≤ 1)%nat ∧
            length ps = (2 * length (pairs ps) + length (leftover ps))%nat)
    as Hps.
  { intros ps. remember (length ps) as n eqn:Hn.
    revert ps Hn. induction (lt_wf n) as [n _ IH]. intros ps ->.
    destruct ps as [|p [|q rest]]; [split; simpl; lia..|].
    destruct (IH (length rest) ltac:(simpl; lia) rest eq_refl) as [H1 H2].
    cbn [leftover pairs length]. lia. }
  destruct (Hps (clicks events)) as [H1 H2].
  assert (length (pairs (clicks events)) = (length (clicks events) / 2)%nat)
    as H3.
  { apply (Nat.div_unique _ 2 _ (length (leftover (clicks events)))); lia. }
  rewrite Hf, Hc. split; [done|]. split; [done|]. split; [done|].
  by rewrite length_app, length_map, H3.
Qed.

(** Four clicks with a call without click data in between: two lines. *)
Example measure_example :
  let text (p q : Z * Z * Z) := "d" in
  let click p : option ((Z * Z * Z) * list (Z * Z * Z)) := Some (p, []) in
  run_measure (mesh := unit) text
    [click (0, 0, 0); None; click (3, 4, 0); click (1, 1, 1); click (2, 2, 2);
     click (5, 5, 5)]
    {| clicked_points := []; fig := [Mesh3d tt] |}
  = {| clicked_points := [(5, 5, 5)];
       fig := [Mesh3d tt; Scatter3d (0, 0, 0) (3, 4, 0) "d";
               Scatter3d (1, 1, 1) (2, 2, 2) "d"] |}.
Proof. reflexivity. Qed.

(* ===================================================================== *)
(** * Further properties: what the loaders print                          *)
(* ===================================================================== *)

Lemma def_effect_fold rows st :
  fold_left def_effect rows st =
    {| layer_mapping := layer_mapping st;
       layers := fold_left (def_step (layer_mapping st)) rows (layers st);
       stdout := stdout st
                 ++ concat (map (def_messages (layer_mapping st)) rows) |}.
Proof.
  revert st. induction rows as [|r rows IH]; intros st; simpl.
  - rewrite app_nil_r. by destruct st.
  - rewrite IH. simpl. by rewrite <- app_assoc.
Qed.

Lemma color_effect_fold rows st :
  fold_left color_effect rows st =
    {| layer_mapping := layer_mapping st;
       layers := fold_left color_step rows (layers st);
       stdout := stdout st |}.
Proof.
  revert st. induction rows as [|r rows IH]; intros st; simpl.
  - by destruct st.
  - by rewrite IH.
Qed.

Lemma load_layer_color_eq cfile fs st :
  _load_layer_color cfile fs st =
    (Ok tt,
     {| layer_mapping := layer_mapping st;
        layers := fold_left color_step (source_items (color_source fs))
                    (layers st);
        stdout := stdout st
                  ++ match color_source fs with
                     | NotFound => []
                     | File _ fault => reported cfile fault
                     end |}).
Proof.
  unfold _load_layer_color.
  destruct (color_source fs) as [|rows fault]; simpl.
  - rewrite app_nil_r. by destruct st.
  - rewrite (try_for_each_in_fold _ _ _ _ _ _ color_row_effect).
    rewrite color_effect_fold. destruct fault as [e|]; simpl; [done|].
    by rewrite app_nil_r.
Qed.

Lemma load_layer_def_eq dfile fs st :
  _load_layer_def dfile fs st =
    (Ok tt,
     {| layer_mapping := layer_mapping st;
        layers := fold_left (def_step (layer_mapping st))
                    (source_items (def_source fs)) (layers st);
        stdout := stdout st
                  ++ match def_source fs with
                     | NotFound => [Warning_not_found dfile]
                     | File rows fault =>
                         concat (map (def_messages (layer_mapping st)) rows)
                         ++ reported dfile fault
                     end |}).
Proof.
  unfold _load_layer_def.
  destruct (def_source fs) as [|rows fault]; simpl; [done|].
  rewrite (try_for_each_in_fold _ _ _ _ _ _ def_row_effect).
  rewrite def_effect_fold. destruct fault as [e|]; simpl.
  - unfold print. simpl. by rewrite <- app_assoc.
  - by rewrite app_nil_r.
Qed.

(** X20: the definition loader never raises and leaves the mapping
    alone.  It prints, in the order of the rows, one warning
    [No mapping found for name.purpose] for each row that has a key, a
    name and a purpose but whose pair the mapping lacks, and nothing for
    any other row; then one line [Error reading ...] when reading the
    file fails, the rows read before the failure being kept.  A missing
    file gives the warning [not found] and no row. *)
Theorem definition_loader_output (dfile : string) (fs : files) (st : state) :
  _load_layer_def dfile fs st =
    (Ok tt,
     {| layer_mapping := layer_mapping st;
        layers := fold_left (def_step (layer_mapping st))
                    (source_items (def_source fs)) (layers st);
        stdout := stdout st
                  ++ match def_source fs with
                     | NotFound => [Warning_not_found dfile]
                     | File rows fault =>
                         concat (map (def_messages (layer_mapping st)) rows)
                         ++ reported dfile fault
                     end |}) ∧
  ∀ m r,
    (def_key r ≠ EmptyString → def_name r ≠ EmptyString →
     def_purpose r ≠ EmptyString →
     Dict.get m (def_name r, def_purpose r) = None →
     def_messages m r = [Warning_no_mapping (def_name r) (def_purpose r)]) ∧
    (def_key r = EmptyString ∨ def_name r = EmptyString
     ∨ def_purpose r = EmptyString
     ∨ is_Some (Dict.get m (def_name r, def_purpose r)) →
     def_messages m r = []).
Proof.
  split; [apply load_layer_def_eq|].
  intros m r. unfold def_messages. split.
  - intros Hk Hn Hp Hg.
    by rewrite (is_empty_false _ Hk), (is_empty_false _ Hn),
      (is_empty_false _ Hp), Hg.
  - intros [Hk|[Hn|[Hp|[v Hg]]]].
    + by rewrite Hk.
    + rewrite Hn. by destruct (Str.is_empty (def_key r)).
    + rewrite Hp.
      by destruct (Str.is_empty (def_key r)), (Str.is_empty (def_name r)).
    + rewrite Hg.
      by destruct (Str.is_empty (def_key r) || Str.is_empty (def_name r)
                   || Str.is_empty (def_purpose r)).
Qed.

Lemma definition_loader_output_witness :
  stdout (_load_layer_def "defs.csv" Sample.fs
            {| layer_mapping := [(("M1", "drawing"), (10, 0))];
               layers := []; stdout := [] |}).2
  = [Warning_no_mapping "PO" "drawing"].
Proof.
  destruct (definition_loader_output "defs.csv" Sample.fs
              {| layer_mapping := [(("M1", "drawing"), (10, 0))];
                 layers := []; stdout := [] |}) as [-> Hmsg].
  cbn [snd stdout Sample.fs def_source app map concat reported layer_mapping].
  rewrite (proj2 (Hmsg [(("M1", "drawing"), (10, 0))] Sample.met1))
    by (do 3 right; vm_compute; eauto).
  rewrite (proj1 (Hmsg [(("M1", "drawing"), (10, 0))] Sample.poly));
    try (vm_compute; discriminate); try (vm_compute; reflexivity).
Defined.

Lemma load_layer_mapping_source mfile fs fs' st :
  mapping_source fs = mapping_source fs' →
  _load_layer_mapping mfile fs st = _load_layer_mapping mfile fs' st.
Proof. intros H. unfold _load_layer_mapping. by rewrite H. Qed.

(** The output of the constructor: what the mapping loader printed,
    then the definition loader, then the colour loader. *)
Lemma LayerReader_output dfile cfile mfile fs :
  let st1 := (_load_layer_mapping mfile fs empty_state).2 in
  stdout (LayerReader dfile cfile mfile fs).2 =
    stdout st1
    ++ match def_source fs with
       | NotFound => [Warning_not_found dfile]
       | File rows fault =>
           concat (map (def_messages (layer_mapping st1)) rows)
           ++ reported dfile fault
       end
    ++ match color_source fs with
       | NotFound => []
       | File _ fault => reported cfile fault
       end.
Proof.
  intros st1. unfold LayerReader, __init__, mbind, M_bind, bind.
  change (put_layers [] empty_state) with (Ok tt, empty_state).
  cbv iota. fold st1.
  destruct (load_layer_mapping_spec mfile fs empty_state) as (Hr1 & _).
  fold st1 in Hr1.
  destruct (_load_layer_mapping mfile fs empty_state) as [r1 s1] eqn:Hm.
  simpl in Hr1, st1. subst r1. subst st1.
  rewrite load_layer_def_eq. cbv iota. rewrite load_layer_color_eq. simpl.
  by rewrite <- app_assoc.
Qed.

(** X21: a failure while reading the definition file or the colour file
    loses nothing that was read before it.  The reader has the table and
    the mapping it would have if the files had ended where reading
    failed, and its output is the output of that reader followed by one
    line [Error reading ...] for each file that failed, the definition
    file first. *)
Theorem read_error_keeps_rows
    (dfile cfile mfile : string) (msrc : source string)
    (drows crows : list row) (fd fc : option exn) :
  let failing :=
    (LayerReader dfile cfile mfile
       {| mapping_source := msrc; def_source := File drows fd;
          color_source := File crows fc |}).2 in
  let ending :=
    (LayerReader dfile cfile mfile
       {| mapping_source := msrc; def_source := File drows None;
          color_source := File crows None |}).2 in
  layers failing = layers ending ∧
  layer_mapping failing = layer_mapping ending ∧
  stdout failing = stdout ending ++ reported dfile fd ++ reported cfile fc.
Proof.
  intros failing ending. unfold failing, ending.
  split; [|split].
  - destruct (LayerReader_spec dfile cfile mfile
                {| mapping_source := msrc; def_source := File drows fd;
                   color_source := File crows fc |}) as (_ & _ & ->).
    destruct (LayerReader_spec dfile cfile mfile
                {| mapping_source := msrc; def_source := File drows None;
                   color_source := File crows None |}) as (_ & _ & ->).
    done.
  - destruct (LayerReader_spec dfile cfile mfile
                {| mapping_source := msrc; def_source := File drows fd;
                   color_source := File crows fc |}) as (_ & -> & _).
    destruct (LayerReader_spec dfile cfile mfile
                {| mapping_source := msrc; def_source := File drows None;
                   color_source := File crows None |}) as (_ & -> & _).
    done.
  - rewrite !LayerReader_output. cbn [def_source color_source].
    rewrite (load_layer_mapping_source mfile _
               {| mapping_source := msrc; def_source := File drows None;
                  color_source := File crows None |}) by done.
    simpl. rewrite !app_nil_r, <- !app_assoc. done.
Qed.

(* ===================================================================== *)
(** * Further properties: heights the loop of [model_main.py] accepts     *)
(* ===================================================================== *)

Lemma max_int_of_float_lt : max_int_of_float < 2 ^ 1024.
Proof. reflexivity. Qed.

(** [float(n)] does not overflow up to the largest binary64 value. *)
Lemma round_below_max neg m s :
  0 ≤ m ≤ max_int_of_float → Float.round neg m 0 ≠ Float.Inf s.
Proof.
  intros [Hm0 Hm1]. unfold Float.round.
  destruct (m <=? 0) eqn:H0; [done|]. apply Z.leb_gt in H0.
  pose proof max_int_of_float_lt as HM.
  assert (Z.log2 m < 1024) as Hlog by (apply Z.log2_lt_pow2; lia).
  pose proof (Z.log2_nonneg m) as Hlog0.
  set (E := Z.max (Z.log2 m + 1 + 0 - Float.prec) Float.emin).
  assert (E ≤ 971) as HE by (unfold E, Float.prec, Float.emin; lia).
  destruct (E <=? 0) eqn:HE0.
  { apply Z.leb_le in HE0.
    assert ((Float.emax <? E) = false) as ->
      by (apply Z.ltb_ge; unfold Float.emax; lia).
    done. }
  apply Z.leb_gt in HE0. rewrite Z.sub_0_r.
  assert ((Float.emax <? E) = false) as ->
    by (apply Z.ltb_ge; unfold Float.emax; lia).
  destruct (Float.round_shift m E =? 0); [done|].
  destruct (Float.round_shift m E =? 2 ^ Float.prec) eqn:Hq; [|done].
  destruct (Float.emax <? E + 1) eqn:Hmax; [|done]. exfalso.
  apply Z.ltb_lt in Hmax. unfold Float.emax in Hmax.
  assert (E = 971) as HE971 by lia. clearbody E. subst E.
  apply Z.eqb_eq in Hq. revert Hq. unfold Float.round_shift, Float.prec.
  change (971 - 1) with 970.
  set (P := 2 ^ 971) in *. set (half := 2 ^ 970).
  assert (P = 2 * half) as HP by reflexivity.
  assert (0 < half) as Hhalf by reflexivity.
  assert (max_int_of_float = (2 ^ 53 - 1) * P) as HMP by reflexivity.
  pose proof (Z.div_mod m P ltac:(lia)) as Hdm.
  pose proof (Z.mod_pos_bound m P ltac:(lia)) as Hr.
  set (a := m / P) in *. set (r := m mod P) in *.
  set (C := 2 ^ 53) in *. assert (C = 9007199254740992) as HC by reflexivity.
  assert (a ≤ C - 1) as Ha.
  { unfold a. apply Z.div_le_upper_bound; lia. }
  clearbody P half a r C.
  destruct (r <? half) eqn:H1; [lia|]. apply Z.ltb_ge in H1.
  intros Hq.
  assert (a = C - 1) as -> by (repeat case_match; lia).
  nia.
Qed.

Lemma of_int_below_max n :
  Z.abs n ≤ max_int_of_float → ∃ f, Float.of_int n = Ok f.
Proof.
  intros Hn. unfold Float.of_int.
  pose proof (round_below_max (n <? 0) (Z.abs n)) as Hr.
  destruct (Float.round (n <? 0) (Z.abs n) 0) as [| |s|] eqn:Hround; eauto.
  exfalso. apply (Hr s); [lia | done].
Qed.

Lemma py_float_bounds s neg m e :
  Float.py_float s = Ok (Float.Finite neg m e) →
  0 < m < 2 ^ Float.prec ∧ e ≤ Float.emax.
Proof.
  unfold Float.py_float.
  destruct (Num.drop_underscores None (Num.strip_numeral s)) as [t|];
    [|done].
  destruct (Num.split_sign t) as [sg body].
  destruct (Float.parse_decimal body) as [[m0 x0]|].
  - intros [= Hs]. unfold Float.of_decimal in Hs.
    destruct (0 <=? x0); eapply round_bounds; exact Hs.
  - repeat case_match; done.
Qed.

(** What [int(float(text))] gives is within the range of [float]. *)
Lemma coerce_bounded x v : coerce x = Some v → Z.abs v ≤ max_int_of_float.
Proof.
  unfold coerce. destruct x as [s|]; [|done].
  destruct (Str.is_empty s); [done|].
  destruct (Float.py_float s) as [f|] eqn:Hs; simpl; [|done].
  destruct f as [sg|neg m e|sg|]; simpl; try done.
  - intros [= <-]. unfold max_int_of_float. simpl. lia.
  - destruct (py_float_bounds s neg m e Hs) as [[Hm0 Hm1] He].
    unfold Float.prec, Float.emax in *.
    intros [= <-].
    assert (0 ≤ (if 0 <=? e then m * 2 ^ e else m / 2 ^ (- e))
            ≤ max_int_of_float) as Hmag.
    { unfold max_int_of_float. destruct (0 <=? e) eqn:He0.
      - apply Z.leb_le in He0. split.
        + apply Z.mul_nonneg_nonneg; [lia|]. apply Z.pow_nonneg. lia.
        + apply Z.mul_le_mono_nonneg; [lia|lia| |].
          * apply Z.pow_nonneg. lia.
          * apply Z.pow_le_mono_r; lia.
      - apply Z.leb_gt in He0.
        assert (0 < 2 ^ (- e)) by (apply Z.pow_pos_nonneg; lia).
        split; [apply Z.div_pos; lia|].
        apply Z.le_trans with m.
        + apply Z.div_le_upper_bound; [lia|]. nia.
        + change (2 ^ 53) with 9007199254740992 in *.
          assert (0 < 2 ^ 971) as HP by reflexivity.
          set (P := 2 ^ 971) in *. clearbody P. nia. }
    destruct neg; lia.
Qed.

Lemma def_fold_bounded m rows l :
  Forall (λ item, heights_bounded item.2) l →
  Forall (λ item, heights_bounded item.2) (fold_left (def_step m) rows l).
Proof.
  intros Hl.
  apply (fold_left_invariant (def_step m) _ (λ _, True));
    [|by apply Forall_true|done].
  intros a r Ha _.
  destruct (def_step_cases m a r) as [->|(ln & dt & _ & _ & _ & ->)]; [done|].
  apply Forall_set; [done|]. by split.
Qed.

Lemma color_fold_bounded rows l :
  Forall (λ item, heights_bounded item.2) l →
  Forall (λ item, heights_bounded item.2) (fold_left color_step rows l).
Proof.
  intros Hl.
  apply (fold_left_invariant color_step _ (λ _, True));
    [|by apply Forall_true|done].
  intros a r Ha _. unfold color_step.
  destruct (Str.is_empty (color_key r)); [done|].
  apply Forall_set; [done|].
  split; intros v Hv; unfold get_bottom, get_top in Hv; simpl in Hv;
    by eapply coerce_bounded.
Qed.

Lemma extent_same_sign info :
  heights_bounded info → same_sign_heights info →
  ∃ zh, extent info = Ok zh.
Proof.
  intros [Hb Ht] Hs. unfold extent.
  destruct (get_bottom info) as [b|] eqn:Hgb; [|by eexists].
  destruct (get_top info) as [t|] eqn:Hgt; [|by eexists].
  specialize (Hb b eq_refl). specialize (Ht t eq_refl).
  specialize (Hs b t Hgb Hgt).
  destruct (of_int_below_max b Hb) as [fb ->].
  assert (Z.abs (t - b) ≤ max_int_of_float) as Hd.
  { set (M := max_int_of_float) in *. clearbody M. nia. }
  destruct (of_int_below_max (t - b) Hd) as [fd ->]. simpl. by eexists.
Qed.

(** X22: for a constructed reader, the loop of [model_main.py] can fail
    only on a record whose bottom and top have opposite signs.  Each
    bottom and top is what [int(float(text))] gave, so [float] takes it
    back; only the difference of the two can be too large.  When no
    record has a bottom and a top of opposite signs, the loop
    completes. *)
Theorem derive_returns_for_same_sign_heights
    (dfile cfile mfile : string) (fs : files) :
  let lr := (LayerReader dfile cfile mfile fs).2 in
  Forall (λ item, same_sign_heights item.2) (layers lr) →
  ∃ d, derive lr = Ok d ∧ Dict.keys (bottom_top d) = Dict.keys (layers lr).
Proof.
  intros lr Hs.
  assert (Forall (λ item, heights_bounded item.2) (layers lr)) as Hb.
  { unfold lr.
    destruct (LayerReader_spec dfile cfile mfile fs) as (_ & _ & ->).
    apply color_fold_bounded, def_fold_bounded, Forall_nil_2. }
  destruct (LayerReader_valid dfile cfile mfile fs) as [Hnd _]. fold lr in Hnd.
  destruct (derive_loop_ok (layers lr)
              {| ld_to_key := []; bottom_top := []; layer_colors := [] |})
    as (d & Hrun & Hk & _); [done|done| |by exists d].
  rewrite Forall_forall in Hs, Hb. apply Forall_forall. intros item Hin.
  by apply extent_same_sign; [apply Hb|apply Hs].
Qed.

Lemma derive_returns_for_same_sign_heights_witness :
  ∃ d, derive Sample.reader = Ok d ∧
       Dict.keys (bottom_top d) = ["met1"; "via"].
Proof.
  destruct (derive_returns_for_same_sign_heights "defs.csv" "colors.csv"
              "map.txt" Sample.fs) as (d & Hrun & Hk).
  - remember (layers (LayerReader "defs.csv" "colors.csv" "map.txt"
                        Sample.fs).2) as l eqn:Hl.
    vm_compute in Hl. subst l.
    constructor; [|constructor; [|constructor]].
    + intros b t Hb Ht. injection Hb as <-. injection Ht as <-. done.
    + intros b t _ Ht. discriminate Ht.
  - exists d. split; [exact Hrun|]. rewrite Hk. reflexivity.
Defined.
